(** * Skill generator: orchestration core

    A shallow embedding of the skill generator
    ([.claude-plugin/skill-generator/generate-skills.js] and the modules under
    [analyzers/]) and the properties of its orchestration: stack building,
    the fan-out over the registered analyzers, the aggregation of their
    outcomes into the report, and the hand-over of the skills to the sink.

    JavaScript is modelled as follows.
    - An [async] function is a computation in the monad [M S A]: it runs on a
      mutable store [S] (the object or array the function mutates), ends by
      returning a value or by throwing an [Error], and leaves a trace of the
      calls it made to the outside (console, file system, glob).  The
      store survives a [throw], as the mutations of a JavaScript object do.
    - A task handed to the orchestrator is any function: it may throw a
      value that is no [Error] object ([Thrown]).
    - The file system, [glob] and [JSON.parse] are the fields of a [Host]:
      the program is verified against every host.
    - Arrays are lists, [push] appends at the end. *)

From stdpp Require Import base numbers list strings sorting pretty.

(** ** Values *)

(** An [Error] object.  What the program's own calls throw are [Error]
    objects: the rejections of [fs] and [glob], the [SyntaxError] of
    [JSON.parse] and the [TypeError] of a property read on [null] or
    [undefined]. *)
Record Error := mkError { message : string; stack : string }.

Definition TypeError (msg : string) : Error :=
  {| message := msg; stack := "TypeError: " +:+ msg |}.

(** What a task can throw or reject with.  JavaScript lets it be any value;
    the orchestrator only ever reads its [message]:
    - an [Error] object (or any object whose [message] is a string);
    - [null] or [undefined], on which the read itself throws;
    - a value without a [message], such as a string, a number or a boolean,
      given by its text.
    An object whose [message] is not a string is left out. *)
Inductive Thrown :=
| ThrownError (e : Error)
| ThrownNull
| ThrownUndefined
| ThrownPrimitive (text : string).

(** The values [JSON.parse] produces.  An object is the list of its
    properties in insertion order, the last binding of a key being the one a
    property read sees (as for a repeated key in the parsed text). *)
#[local] Set Warnings "-register-all".
Inductive JSON :=
| JNull
| JBool (b : bool)
| JNum (n : Z)
| JStr (s : string)
| JArr (items : list JSON)
| JObj (fields : list (string * JSON)).

(** A JavaScript value read from parsed JSON: [None] is [undefined]. *)
Definition JsValue := option JSON.

(** Truthiness, as [if (v)] and [v || w] test it. *)
Definition truthy (v : JsValue) : bool :=
  match v with
  | None | Some JNull | Some (JBool false) | Some (JNum 0) | Some (JStr "") => false
  | Some _ => true
  end.

Fixpoint ownProperty (k : string) (fields : list (string * JSON)) : JsValue :=
  match fields with
  | [] => None
  | (k', v) :: rest =>
      match ownProperty k rest with
      | Some v' => Some v'
      | None => if decide (k' = k) then Some v else None
      end
  end.

Fixpoint chars (s : string) : list string :=
  match s with
  | EmptyString => []
  | String c rest => String c EmptyString :: chars rest
  end.

(** The own enumerable properties an object spread [{...v}] copies: those of
    an object, the indexed elements of an array or of a string, and nothing
    for [null], [undefined], a number or a boolean. *)
Definition spread (v : JsValue) : list (string * JSON) :=
  match v with
  | Some (JObj fields) => fields
  | Some (JArr items) => imap (λ i x, (pretty i, x)) items
  | Some (JStr s) => imap (λ i c, (pretty i, JStr c)) (chars s)
  | _ => []
  end.

(** [v?.k] for a named (non-index) key [k]. *)
Definition optChain (v : JsValue) (k : string) : JsValue :=
  match v with
  | Some (JObj fields) => ownProperty k fields
  | _ => None
  end.

(** [content.includes(marker)] on strings. *)
Fixpoint includes (content marker : string) : bool :=
  String.prefix marker content
  || match content with
     | EmptyString => false
     | String _ rest => includes rest marker
     end.

(** [array.includes(x)]. *)
Definition arrayIncludes (l : list string) (x : string) : bool :=
  bool_decide (x ∈ l).

(** [array.join(', ')]. *)
Definition join (sep : string) (l : list string) : string := String.concat sep l.

(** Template-literal rendering of a boolean. *)
Definition showBool (b : bool) : string := if b then "true" else "false".

Definition dquote : string := String (Ascii.ascii_of_nat 34) EmptyString.

(** ** Skills *)

Module Skill.
Record t := mk {
  name : string;
  displayName : string;
  description : string;
  guidelines : list string;
  category : string;
  techStack : list string;
  metadata : JsValue
}.
End Skill.

(** ** Computations *)

(** What a computation does to the outside, in program order. *)
Inductive Event :=
| ConsoleLog (msg : string)      (* logger.info *)
| ConsoleError (msg : string)    (* logger.error *)
| FsReadFile (path : string)     (* fs.readFile(path.join(workspaceRoot, path), 'utf-8') *)
| FsAccess (path : string)       (* fs.access(path.join(workspaceRoot, path)) *)
| GlobCall (pattern : string).   (* glob(pattern, { cwd: workspaceRoot, ... }) *)

(** How a call ends: it returns a value, or throws one of type [E]. *)
Inductive CompletionOf (E A : Type) :=
| Normal (value : A)
| Throw (error : E).
Arguments Normal {E A} value.
Arguments Throw {E A} error.

(** A computation that throws values of type [E]. *)
Definition Computation (E S A : Type) : Type := S → CompletionOf E A * S * list Event.

(** The program's own functions throw [Error] objects. *)
Definition Completion : Type → Type := CompletionOf Error.
Definition M : Type → Type → Type := Computation Error.

Definition run {E S A} (m : Computation E S A) (s : S)
    : CompletionOf E A * S * list Event := m s.
Definition result {E S A} (m : Computation E S A) (s : S) : CompletionOf E A := (run m s).1.1.
Definition store {E S A} (m : Computation E S A) (s : S) : S := (run m s).1.2.
Definition trace {E S A} (m : Computation E S A) (s : S) : list Event := (run m s).2.

Definition ret {E S A} (a : A) : Computation E S A := λ s, (Normal a, s, []).

Definition bind {E S A B} (m : Computation E S A) (k : A → Computation E S B)
    : Computation E S B := λ s,
  match m s with
  | (Normal a, s1, t1) => let '(r, s2, t2) := k a s1 in (r, s2, t1 ++ t2)
  | (Throw e, s1, t1) => (Throw e, s1, t1)
  end.

(** [const x = await m; k] and [await m; k]. *)
Declare Scope M_scope.
Delimit Scope M_scope with M.
Bind Scope M_scope with M Computation.
Notation "x ← y ; z" := (bind y (λ x : _, z))
  (at level 20, y at level 100, z at level 200, only parsing) : M_scope.
Notation "' x ← y ; z" := (bind y (λ x : _, z))
  (at level 20, x pattern, y at level 100, z at level 200, only parsing) : M_scope.
Notation "x ;; z" := (bind x (λ _, z))
  (at level 100, z at level 200, only parsing, right associativity) : M_scope.
Open Scope M_scope.

Definition throw {E S A} (e : E) : Computation E S A := λ s, (Throw e, s, []).
Definition get {S} : M S S := λ s, (Normal s, s, []).
Definition modify {S} (f : S → S) : M S unit := λ s, (Normal tt, f s, []).

(** The completion of an operation that leaves no trace. *)
Definition complete {S A} (answer : Completion A) : M S A := λ s, (answer, s, []).

(** A call to the outside: the event is recorded, the host's answer is the
    completion. *)
Definition call {E S A} (ev : Event) (answer : CompletionOf E A) : Computation E S A :=
  λ s, (answer, s, [ev]).

(** [try { body } catch (error) { handler }]: the handler starts on the
    store as the body left it.  The body may be a task, throwing any value;
    the handlers of the program throw [Error] objects. *)
Definition try_catch {E S A} (body : Computation E S A) (handler : E → M S A)
    : M S A := λ s,
  match body s with
  | (Normal a, s1, t1) => (Normal a, s1, t1)
  | (Throw e, s1, t1) => let '(r, s2, t2) := handler e s1 in (r, s2, t1 ++ t2)
  end.

(** [if (b) { m }]. *)
Definition when {S} (b : bool) (m : M S unit) : M S unit :=
  if b then m else ret tt.

(** A function body that allocates its own local object [init]: the
    caller's store is untouched. *)
Definition locally {E S S' A} (init : S) (m : Computation E S A) : Computation E S' A := λ s0,
  let '(r, _, t) := m init in (r, s0, t).

(** [for (const x of l) { await f(x); }]. *)
Fixpoint forOf {S A} (l : list A) (f : A → M S unit) : M S unit :=
  match l with
  | [] => ret tt
  | x :: rest => f x ;; forOf rest f
  end.

(** ** The host *)

Record Host := {
  workspaceRoot : string;
  (** [fs.readFile] and [fs.access] on a path below [workspaceRoot]. *)
  fs_readFile : string → Completion string;
  fs_access : string → Completion unit;
  (** [glob(pattern, { cwd: workspaceRoot, ignore })]. *)
  glob_files : string → list string → Completion (list string);
  JSON_parse : string → Completion JSON;
  (** [new Date().toISOString()] when the report is built. *)
  now : string
}.

Section HostCalls.
Context {S : Type} (h : Host).

Definition info {E} (msg : string) : Computation E S unit :=
  call (ConsoleLog msg) (Normal tt).
Definition error (msg : string) : M S unit := call (ConsoleError msg) (Normal tt).
Definition readFile (path : string) : M S string :=
  call (FsReadFile path) (fs_readFile h path).
Definition access (path : string) : M S unit :=
  call (FsAccess path) (fs_access h path).
Definition glob (pattern : string) (ignore : list string) : M S (list string) :=
  call (GlobCall pattern) (glob_files h pattern ignore).

(** [JSON.parse(await fs.readFile(path.join(workspaceRoot, 'package.json'), 'utf-8'))] *)
Definition readPackageJson : M S JSON :=
  content ← readFile "package.json";
  complete (JSON_parse h content).

(** [value[k]] for a named key: a [TypeError] on [null]. *)
Definition member (value : JSON) (k : string) : M S JsValue :=
  match value with
  | JNull => throw (TypeError ("Cannot read properties of null (reading '" +:+ k +:+ "')"))
  | JObj fields => ret (ownProperty k fields)
  | _ => ret None
  end.

(** [{ ...packageJson.dependencies, ...packageJson.devDependencies }] *)
Definition mergedDeps (packageJson : JSON) : M S (list (string * JSON)) :=
  dependencies ← member packageJson "dependencies";
  devDependencies ← member packageJson "devDependencies";
  ret (spread dependencies ++ spread devDependencies).
End HostCalls.

(** [deps[k]] tested for truthiness. *)
Definition has (deps : list (string * JSON)) (k : string) : bool :=
  truthy (ownProperty k deps).

(** ** The tech stack ([analyzers/tech-stack-analyzer.js]) *)

Module TechStack.
Record t := mk {
  languages : list string;
  frameworks : list string;
  databases : list string;
  buildTools : list string;
  packageManagers : list string;
  cloudProviders : list string;
  hasReact : bool;
  hasTypeScript : bool;
  hasNode : bool;
  hasPython : bool;
  hasJava : bool;
  hasGo : bool;
  hasRust : bool
}.

(** The object literal [analyzeTechStack] starts from. *)
Definition empty : t :=
  mk [] [] [] [] [] [] false false false false false false false.

(** The array-valued properties and the flags, by name. *)
Inductive array := Languages | Frameworks | Databases | BuildTools
                 | PackageManagers | CloudProviders.
Inductive flag := HasReact | HasTypeScript | HasNode | HasPython | HasJava
                | HasGo | HasRust.

Global Instance array_eq_dec : EqDecision array.
Proof. solve_decision. Defined.
Global Instance flag_eq_dec : EqDecision flag.
Proof. solve_decision. Defined.

Definition field (a : array) (ts : t) : list string :=
  match a with
  | Languages => languages ts
  | Frameworks => frameworks ts
  | Databases => databases ts
  | BuildTools => buildTools ts
  | PackageManagers => packageManagers ts
  | CloudProviders => cloudProviders ts
  end.

Definition flagOf (f : flag) (ts : t) : bool :=
  match f with
  | HasReact => hasReact ts
  | HasTypeScript => hasTypeScript ts
  | HasNode => hasNode ts
  | HasPython => hasPython ts
  | HasJava => hasJava ts
  | HasGo => hasGo ts
  | HasRust => hasRust ts
  end.

Definition build (arrays : array → list string) (flags : flag → bool) : t :=
  mk (arrays Languages) (arrays Frameworks) (arrays Databases)
     (arrays BuildTools) (arrays PackageManagers) (arrays CloudProviders)
     (flags HasReact) (flags HasTypeScript) (flags HasNode) (flags HasPython)
     (flags HasJava) (flags HasGo) (flags HasRust).

(** [techStack.a.push(v)] *)
Definition push (a : array) (v : string) (ts : t) : t :=
  build (λ a', if decide (a' = a) then field a' ts ++ [v] else field a' ts)
        (λ f, flagOf f ts).

(** [techStack.f = true] *)
Definition set (f : flag) (ts : t) : t :=
  build (λ a, field a ts)
        (λ f', if decide (f' = f) then true else flagOf f' ts).
End TechStack.

Import TechStack (Languages, Frameworks, Databases, BuildTools,
                  PackageManagers, CloudProviders, HasReact, HasTypeScript,
                  HasNode, HasPython, HasJava, HasGo, HasRust).

Section AnalyzeTechStack.
Context (h : Host).

Definition push (a : TechStack.array) (v : string) : M TechStack.t unit :=
  modify (TechStack.push a v).
Definition setFlag (f : TechStack.flag) : M TechStack.t unit :=
  modify (TechStack.set f).

(** Check for package.json (Node.js/JavaScript). *)
Definition detectNode : M TechStack.t unit :=
  try_catch (
    packageJson ← readPackageJson h;
    push PackageManagers "npm";;
    setFlag HasNode;;
    dependencies ← member packageJson "dependencies";
    devDependencies ← member packageJson "devDependencies";
    when (truthy dependencies || truthy devDependencies) (
      let deps := spread dependencies ++ spread devDependencies in
      (* Detect React *)
      when (has deps "react" || has deps "react-dom") (
        setFlag HasReact;;
        push Frameworks "React");;
      (* Detect TypeScript *)
      when (has deps "typescript" || truthy (optChain devDependencies "typescript")) (
        setFlag HasTypeScript);;
      (* Detect other frameworks *)
      when (has deps "next") (push Frameworks "Next.js");;
      when (has deps "vue") (push Frameworks "Vue.js");;
      when (has deps "angular") (push Frameworks "Angular");;
      when (has deps "express") (push Frameworks "Express");;
      when (has deps "@nestjs/core") (push Frameworks "NestJS");;
      when (has deps "fastify") (push Frameworks "Fastify");;
      when (has deps "koa") (push Frameworks "Koa");;
      (* Detect databases *)
      when (has deps "mongoose") (push Databases "MongoDB");;
      when (has deps "sequelize" || has deps "typeorm") (push Databases "SQL");;
      when (has deps "pg" || has deps "pg-native") (push Databases "PostgreSQL");;
      when (has deps "mysql" || has deps "mysql2") (push Databases "MySQL");;
      when (has deps "redis") (push Databases "Redis");;
      when (has deps "@prisma/client") (push Databases "Prisma");;
      (* Detect build tools *)
      when (has deps "webpack") (push BuildTools "Webpack");;
      when (has deps "vite") (push BuildTools "Vite");;
      when (has deps "rollup") (push BuildTools "Rollup");;
      when (has deps "esbuild") (push BuildTools "esbuild"));;
    push Languages "JavaScript";;
    techStack ← get;
    when (TechStack.hasTypeScript techStack) (push Languages "TypeScript"))
  (λ e, (* No package.json *) ret tt).

(** Check for requirements.txt (Python). *)
Definition detectPython : M TechStack.t unit :=
  try_catch (
    access h "requirements.txt";;
    setFlag HasPython;;
    push Languages "Python";;
    push PackageManagers "pip";;
    (* Check for frameworks *)
    requirements ← readFile h "requirements.txt";
    when (includes requirements "django") (push Frameworks "Django");;
    when (includes requirements "flask") (push Frameworks "Flask");;
    when (includes requirements "fastapi") (push Frameworks "FastAPI");;
    when (includes requirements "sqlalchemy") (push Databases "SQL"))
  (λ e, (* No requirements.txt *) ret tt).

(** Check for pom.xml or build.gradle (Java). *)
Definition detectJava : M TechStack.t unit :=
  try_catch (
    access h "pom.xml";;
    setFlag HasJava;;
    push Languages "Java";;
    push PackageManagers "Maven")
  (λ e,
    try_catch (
      access h "build.gradle";;
      setFlag HasJava;;
      push Languages "Java";;
      push PackageManagers "Gradle")
    (λ e2, (* No Java build files *) ret tt)).

(** Check for go.mod (Go). *)
Definition detectGo : M TechStack.t unit :=
  try_catch (
    access h "go.mod";;
    setFlag HasGo;;
    push Languages "Go")
  (λ e, ret tt).

(** Check for Cargo.toml (Rust). *)
Definition detectRust : M TechStack.t unit :=
  try_catch (
    access h "Cargo.toml";;
    setFlag HasRust;;
    push Languages "Rust")
  (λ e, ret tt).

(** Check for cloud provider configs. *)
Definition detectCloud : M TechStack.t unit :=
  try_catch (
    files ← glob h "**/{vercel.json,netlify.toml,serverless.yml,.github/workflows/*.yml}" [];
    let some marker := existsb (λ f, includes f marker) files in
    when (some "vercel") (push CloudProviders "Vercel");;
    when (some "netlify") (push CloudProviders "Netlify");;
    when (some "serverless") (push CloudProviders "AWS Lambda");;
    when (some ".github/workflows") (push CloudProviders "GitHub Actions"))
  (λ e, (* Ignore *) ret tt).

(** Check for Docker. *)
Definition detectDocker : M TechStack.t unit :=
  try_catch (
    access h "Dockerfile";;
    push BuildTools "Docker")
  (λ e, ret tt).

(** Check for Kubernetes. *)
Definition detectKubernetes : M TechStack.t unit :=
  try_catch (
    k8sFiles ← glob h "**/*.yaml" [];
    when (existsb (λ f, includes f "k8s" || includes f "kubernetes") k8sFiles) (
      push CloudProviders "Kubernetes"))
  (λ e, (* Ignore *) ret tt).

(** The outer [try] block: the probes in the order of the source, then
    [return techStack]. *)
Definition probes : M TechStack.t TechStack.t :=
  detectNode;;
  detectPython;;
  detectJava;;
  detectGo;;
  detectRust;;
  detectCloud;;
  detectDocker;;
  detectKubernetes;;
  get.

(** [analyzeTechStack(workspaceRoot, context)]: the probes run on the
    local [techStack] object, which is what the function returns on both
    exits of its outer [try]. *)
Definition analyzeTechStack {S} : M S TechStack.t :=
  locally TechStack.empty (
    try_catch probes
      (λ e,
        error ("Error analyzing tech stack: " +:+ message e);;
        get)).
End AnalyzeTechStack.

(** ** The analyzers ([analyzers/*.js])

    Every analyzer allocates its [skills] array, works inside one [try]
    whose [catch] logs the error, and returns the array.  The store of an
    analyzer is that array; the flags a scan sets are threaded through the
    scan as values. *)

Section Analyzers.
Context (h : Host) (techStack : TechStack.t).

Definition pushSkill (skill : Skill.t) : M (list Skill.t) unit :=
  modify (λ skills, skills ++ [skill]).

(** [guidelines.push(...items)] under [if (b)]. *)
Definition pushIf (b : bool) (items : list string) : list string :=
  if b then items else [].

Definition ignoreOutput : list string :=
  ["**/node_modules/**"; "**/dist/**"; "**/build/**"].

(** [for (const file of files) { try { const content = await
    fs.readFile(...); flags = step(content, flags) } catch (e) { } }]:
    every file is read, a file that cannot be read is skipped. *)
Fixpoint scanAll {S F} (files : list string) (step : string → F → F) (flags : F) : M S F :=
  match files with
  | [] => ret flags
  | file :: rest =>
      flags' ← try_catch (content ← readFile h file; ret (step content flags))
                         (λ e, (* Skip *) ret flags);
      scanAll rest step flags'
  end.

(** The same loop with [break] at the first file for which [test] holds. *)
Fixpoint scanUntil {S} (files : list string) (test : string → bool) : M S bool :=
  match files with
  | [] => ret false
  | file :: rest =>
      found ← try_catch (content ← readFile h file; ret (test content))
                        (λ e, (* Skip *) ret false);
      if found then ret true else scanUntil rest test
  end.

(** *** security-analyzer.js (listed in SETUP.md) *)

Definition envMarker (content : string) : bool :=
  includes content "process.env" || includes content "os.getenv"
  || includes content "os.environ".

(** The env-var scan of [generateSecuritySkills]. *)
Definition scanEnvUsage {S} (envUsage : list string) : M S bool :=
  scanUntil (take 10 envUsage) envMarker.

Definition generateSecuritySkills {S} : M S (list Skill.t) :=
  locally [] (
    try_catch (
      (* Analyze authentication patterns *)
      authFiles ← glob h "**/*{auth,login,security,oauth,jwt}*.{js,ts,jsx,tsx,py,java,go}"
        ignoreOutput;
      (* Analyze input validation *)
      validationFiles ← glob h "**/*{validate,sanitize,validator}*.{js,ts,jsx,tsx,py,java,go}"
        ignoreOutput;
      (* Check for security headers/config *)
      securityConfigs ← glob h "**/*{security,helmet,cors}*.{js,ts,json}" ignoreOutput;
      (* Check for environment variable usage *)
      envFiles ← glob h "**/.env*" [];
      envUsage ← glob h "**/*.{js,ts,jsx,tsx,py}" ignoreOutput;
      hasEnvVars ← scanEnvUsage envUsage;
      (* Generate security skills based on findings *)
      let securityGuidelines :=
        pushIf (TechStack.hasNode techStack) [
          "Always use parameterized queries or ORM methods to prevent SQL injection";
          "Validate and sanitize all user inputs before processing";
          "Use environment variables for sensitive data, never hardcode secrets";
          "Implement proper authentication and authorization checks";
          "Use HTTPS in production and secure cookies with httpOnly and secure flags";
          "Implement rate limiting on API endpoints";
          "Use Content Security Policy (CSP) headers";
          "Keep dependencies updated and scan for vulnerabilities" ]
        ++ pushIf (TechStack.hasPython techStack) [
          "Use parameterized queries with database libraries";
          "Validate inputs using libraries like pydantic or marshmallow";
          "Never use eval() or exec() with user input";
          "Use secrets management for API keys and credentials";
          "Implement proper session management";
          "Use CSRF protection for forms" ]
        ++ pushIf (bool_decide (0 < length authFiles)) [
          "Follow OAuth 2.0 best practices when implementing authentication";
          "Store JWT tokens securely (httpOnly cookies preferred over localStorage)";
          "Implement token refresh mechanisms";
          "Validate JWT signatures and expiration";
          "Use strong password hashing (bcrypt, argon2)" ]
        ++ pushIf (bool_decide (0 < length validationFiles)) [
          "Validate input types, ranges, and formats";
          "Sanitize user input to prevent XSS attacks";
          "Use whitelist validation over blacklist";
          "Validate file uploads (type, size, content)" ]
        ++ pushIf hasEnvVars [
          "Never commit .env files to version control";
          "Use different credentials for development, staging, and production";
          "Rotate secrets regularly";
          "Use secret management services in production" ] in
      (* Create security skill *)
      pushSkill {|
        Skill.name := "security-best-practices";
        Skill.displayName := "Security Best Practices";
        Skill.description := "Guidelines for writing secure code based on codebase analysis";
        Skill.guidelines := securityGuidelines;
        Skill.category := "security";
        Skill.techStack := TechStack.languages techStack;
        Skill.metadata := None
      |};;
      info ("Security analyzer: Found " +:+ pretty (length authFiles) +:+ " auth files, "
            +:+ pretty (length validationFiles) +:+ " validation files"))
    (λ e, error ("Error in security analyzer: " +:+ message e));;
    get).

(** *** api-analyzer.js *)

Definition apiMarkers (content : string) (flags : bool * bool) : bool * bool :=
  let '(hasREST, hasGraphQL) := flags in
  (hasREST || includes content "GET" || includes content "POST"
     || includes content "PUT" || includes content "DELETE",
   hasGraphQL || includes content "graphql" || includes content "GraphQL"
     || includes content "gql`").

Definition restGuidelines : list string := [
  "Use proper HTTP methods: GET for retrieval, POST for creation, PUT for updates, DELETE for removal";
  "Use RESTful URL patterns: /resources/:id for specific resources";
  "Return appropriate HTTP status codes: 200 OK, 201 Created, 400 Bad Request, 404 Not Found, 500 Server Error";
  "Implement proper error handling and return error responses consistently";
  "Use pagination for list endpoints";
  "Implement filtering, sorting, and searching capabilities";
  "Version APIs when making breaking changes";
  "Use proper Content-Type headers";
  "Implement rate limiting to prevent abuse";
  "Validate and sanitize all input data";
  "Use HTTPS in production";
  "Implement proper authentication and authorization";
  "Return consistent response formats";
  "Document APIs with OpenAPI/Swagger";
  "Use proper HTTP caching headers when appropriate" ].

Definition graphqlGuidelines : list string := [
  "Design GraphQL schema thoughtfully";
  "Use DataLoader to prevent N+1 query problems";
  "Implement proper error handling in resolvers";
  "Use GraphQL fragments for reusable query parts";
  "Implement query complexity analysis";
  "Use subscriptions for real-time features";
  "Validate and sanitize resolver inputs";
  "Use GraphQL directives for authorization";
  "Implement proper pagination with connections pattern";
  "Document schema with descriptions";
  "Use GraphQL Playground or GraphiQL for development" ].

Definition generalApiGuidelines : list string := [
  "Implement request validation";
  "Use proper error messages that are helpful but not revealing";
  "Implement logging for API requests and responses";
  "Use API keys or tokens for authentication";
  "Implement CORS properly";
  "Use compression (gzip/brotli) for responses";
  "Implement request timeouts";
  "Use proper content negotiation";
  "Implement health check endpoints";
  "Monitor API performance and errors";
  "Use API gateway patterns when appropriate";
  "Implement proper request/response logging";
  "Use idempotency keys for critical operations" ].

(** The REST/GraphQL scan of [generateAPISkills]. *)
Definition scanApiFiles {S} (apiFiles : list string) : M S (bool * bool) :=
  scanAll (take 20 apiFiles) apiMarkers (false, false).

Definition generateAPISkills {S} : M S (list Skill.t) :=
  locally [] (
    try_catch (
      (* Find API files *)
      apiFiles ← glob h "**/*{api,route,endpoint,controller}*.{js,ts,py,java,go}" ignoreOutput;
      (* Check for REST patterns *)
      '(hasREST, hasGraphQL) ← scanApiFiles apiFiles;
      (* Check package.json for API libraries *)
      hasGraphQL ← try_catch (
          packageJson ← readPackageJson h;
          deps ← mergedDeps packageJson;
          ret (hasGraphQL || has deps "apollo-server" || has deps "graphql"
                 || has deps "@apollo/server"))
        (λ e, (* No package.json *) ret hasGraphQL);
      let apiGuidelines :=
        pushIf (hasREST || bool_decide (0 < length apiFiles)) restGuidelines
        ++ pushIf hasGraphQL graphqlGuidelines
        ++ generalApiGuidelines in
      pushSkill {|
        Skill.name := "api-best-practices";
        Skill.displayName := "API Best Practices";
        Skill.description := "Guidelines for designing and implementing APIs";
        Skill.guidelines := apiGuidelines;
        Skill.category := "api";
        Skill.techStack := TechStack.languages techStack;
        Skill.metadata := Some (JObj [
          ("hasREST", JBool hasREST);
          ("hasGraphQL", JBool hasGraphQL);
          ("apiFilesCount", JNum (Z.of_nat (length apiFiles))) ])
      |};;
      info ("API analyzer: Found " +:+ pretty (length apiFiles) +:+ " API files, REST: "
            +:+ showBool hasREST +:+ ", GraphQL: " +:+ showBool hasGraphQL))
    (λ e, error ("Error in API analyzer: " +:+ message e));;
    get).

(** *** testing-analyzer.js *)

Definition generateTestingSkills {S} : M S (list Skill.t) :=
  locally [] (
    try_catch (
      (* Find test files *)
      testFiles ← glob h "**/*{test,spec}*.{js,ts,jsx,tsx,py,java,go}" ignoreOutput;
      (* Check for testing frameworks *)
      let usesJUnit := false in
      '(usesJest, usesVitest, usesMocha, usesReactTestingLibrary, usesCypress, usesPlaywright) ←
        try_catch (
          packageJson ← readPackageJson h;
          deps ← mergedDeps packageJson;
          ret (has deps "jest", has deps "vitest", has deps "mocha",
               has deps "@testing-library/react", has deps "cypress",
               has deps "@playwright/test"))
        (λ e, (* No package.json *) ret (false, false, false, false, false, false));
      (* Check for Python testing *)
      usesPytest ← try_catch (
          requirements ← readFile h "requirements.txt";
          ret (includes requirements "pytest"))
        (λ e, (* No requirements.txt *) ret false);
      let testingGuidelines :=
        (* General testing guidelines *)
        [ "Write tests that are independent and can run in any order";
          "Use descriptive test names that explain what is being tested";
          "Follow AAA pattern: Arrange, Act, Assert";
          "Test behavior, not implementation";
          "Keep tests simple and focused on one thing";
          "Use mocks and stubs for external dependencies";
          "Test edge cases and error conditions";
          "Maintain good test coverage but focus on critical paths";
          "Keep tests fast and reliable";
          "Refactor tests when code changes" ]
        (* JavaScript/TypeScript testing *)
        ++ pushIf (TechStack.hasNode techStack) (
          pushIf usesJest [
            "Use Jest for unit and integration tests";
            "Use describe blocks to group related tests";
            "Use beforeEach/afterEach for test setup and cleanup";
            "Mock external dependencies with jest.mock()";
            "Use snapshot tests sparingly for UI components";
            "Use test.each for parameterized tests";
            "Configure Jest coverage thresholds";
            "Use async/await in tests for async code" ]
          ++ pushIf usesVitest [
            "Use Vitest for fast unit tests";
            "Leverage Vitest's ESM support";
            "Use Vitest UI for better test debugging";
            "Configure Vitest for your project structure" ]
          ++ pushIf usesMocha [
            "Use Mocha with Chai for assertions";
            "Use beforeEach/afterEach hooks for setup";
            "Organize tests with describe blocks" ]
          ++ pushIf (usesReactTestingLibrary && TechStack.hasReact techStack) [
            "Use React Testing Library for component tests";
            "Test user interactions, not implementation details";
            "Use accessible queries (getByRole, getByLabelText)";
            "Avoid using data-testid unless necessary";
            "Use screen queries for better error messages";
            "Test accessibility as part of component tests";
            "Use userEvent for simulating user interactions";
            "Mock external API calls in tests" ]
          ++ pushIf usesCypress [
            "Use Cypress for end-to-end testing";
            "Write tests from user perspective";
            "Use data-cy attributes for stable selectors";
            "Avoid testing implementation details";
            "Use custom commands for reusable actions";
            "Test critical user flows";
            "Use fixtures for test data" ]
          ++ pushIf usesPlaywright [
            "Use Playwright for cross-browser testing";
            "Write tests that work across browsers";
            "Use page object model for maintainability";
            "Test accessibility with Playwright";
            "Use Playwright's auto-waiting features";
            "Test on multiple viewport sizes" ])
        (* Python testing *)
        ++ pushIf (TechStack.hasPython techStack) (
          pushIf usesPytest [
            "Use pytest for Python testing";
            "Use fixtures for test setup and dependencies";
            "Use parametrize for testing multiple inputs";
            "Use pytest markers for test organization";
            "Use pytest fixtures for dependency injection";
            "Follow pytest naming conventions";
            "Use pytest plugins for additional functionality" ]
          ++ [ "Use unittest.mock for mocking";
               "Test both success and failure cases";
               "Use pytest-cov for coverage reporting" ])
        (* Java testing *)
        ++ pushIf (TechStack.hasJava techStack) (
          pushIf usesJUnit [
            "Use JUnit for unit testing";
            "Use @BeforeEach and @AfterEach for setup";
            "Use assertions from AssertJ or Hamcrest";
            "Use @ParameterizedTest for multiple test cases";
            "Follow JUnit 5 best practices" ])
        (* Test organization *)
        ++ [ "Organize tests to mirror source code structure";
             "Keep test files close to source files";
             "Use test utilities and helpers for common patterns";
             "Document complex test scenarios";
             "Review and refactor tests regularly" ] in
      pushSkill {|
        Skill.name := "testing-best-practices";
        Skill.displayName := "Testing Best Practices";
        Skill.description :=
          "Guidelines for writing effective tests based on detected testing frameworks";
        Skill.guidelines := testingGuidelines;
        Skill.category := "testing";
        Skill.techStack := TechStack.languages techStack;
        Skill.metadata := Some (JObj [
          ("testFilesCount", JNum (Z.of_nat (length testFiles)));
          ("frameworks", JArr (JStr <$> (
             pushIf usesJest ["Jest"] ++ pushIf usesVitest ["Vitest"]
             ++ pushIf usesMocha ["Mocha"] ++ pushIf usesPytest ["pytest"]
             ++ pushIf usesJUnit ["JUnit"]
             ++ pushIf usesReactTestingLibrary ["React Testing Library"]
             ++ pushIf usesCypress ["Cypress"]
             ++ pushIf usesPlaywright ["Playwright"]))) ])
      |};;
      info ("Testing analyzer: Found " +:+ pretty (length testFiles) +:+ " test files"))
    (λ e, error ("Error in testing analyzer: " +:+ message e));;
    get).

(** *** react-analyzer.js *)

Record HookFlags := {
  usesHooks : bool;
  usesContext : bool;
  usesState : bool;
  usesEffect : bool;
  usesCustomHooks : bool
}.

Definition hookMarkers (content : string) (f : HookFlags) : HookFlags := {|
  usesState := usesState f || includes content "useState";
  usesEffect := usesEffect f || includes content "useEffect";
  usesContext := usesContext f || includes content "useContext" || includes content "Context";
  usesHooks := usesHooks f || (includes content "use" && includes content "const");
  usesCustomHooks :=
    usesCustomHooks f || includes content "function use" || includes content "const use"
|}.

Definition stateMarkers (content : string) (f : bool * bool * bool) : bool * bool * bool :=
  let '(usesRedux, usesZustand, usesMobX) := f in
  (usesRedux || includes content "redux" || includes content "createSlice",
   usesZustand || includes content "zustand" || includes content "create(",
   usesMobX || includes content "mobx" || includes content "observable").

(** The hooks scan and the state-management scan of [generateReactSkills]. *)
Definition scanHooks {S} (reactFiles : list string) : M S HookFlags :=
  scanAll (take 30 reactFiles) hookMarkers
          {| usesHooks := false; usesContext := false; usesState := false;
             usesEffect := false; usesCustomHooks := false |}.

Definition scanStateManagement {S} (stateFiles : list string) : M S (bool * bool * bool) :=
  scanAll (take 10 stateFiles) stateMarkers (false, false, false).

Definition generateReactSkills {S} : M S (list Skill.t) :=
  locally [] (
    if negb (TechStack.hasReact techStack) then
      info "React analyzer: No React detected, skipping React skills";;
      get
    else
      try_catch (
        (* Find React component files *)
        reactFiles ← glob h "**/*.{jsx,tsx}" ignoreOutput;
        (* Check for hooks usage *)
        hooks ← scanHooks reactFiles;
        (* Check for state management *)
        stateFiles ← glob h "**/*{store,redux,zustand,mobx,recoil}*.{js,ts,jsx,tsx}" ignoreOutput;
        '(usesRedux, usesZustand, usesMobX) ← scanStateManagement stateFiles;
        (* Check for Next.js *)
        let isNextJS := arrayIncludes (TechStack.frameworks techStack) "Next.js" in
        let reactGuidelines :=
          (* Core React guidelines *)
          [ "Use functional components with hooks instead of class components";
            "Keep components small and focused on a single responsibility";
            "Extract reusable logic into custom hooks";
            "Use proper key props for list items";
            "Avoid creating functions and objects inside render methods";
            "Use TypeScript for type safety in React components" ]
          ++ pushIf (usesState hooks) [
            "Lift state up when multiple components need the same data";
            "Use useState for local component state";
            "Consider useReducer for complex state logic";
            "Avoid prop drilling - use Context or state management library" ]
          ++ pushIf (usesEffect hooks) [
            "Always include dependencies in useEffect dependency array";
            "Clean up subscriptions and timers in useEffect cleanup function";
            "Use multiple useEffect hooks to separate concerns";
            "Avoid side effects in render - use useEffect";
            "Be careful with infinite loops in useEffect" ]
          ++ pushIf (usesContext hooks) [
            "Split contexts by concern to avoid unnecessary re-renders";
            "Use Context for theme, auth, or app-wide state";
            "Consider performance implications of Context value changes" ]
          ++ pushIf (usesCustomHooks hooks) [
            "Extract component logic into custom hooks for reusability";
            "Custom hooks should start with " +:+ dquote +:+ "use" +:+ dquote +:+ " prefix";
            "Return values and functions from custom hooks consistently" ]
          ++ pushIf usesRedux [
            "Use Redux Toolkit for modern Redux patterns";
            "Keep reducers pure and side-effect free";
            "Use createSlice for simpler reducer logic";
            "Use RTK Query for data fetching when appropriate";
            "Select only needed data from Redux store" ]
          ++ pushIf usesZustand [
            "Use Zustand for simpler state management needs";
            "Keep stores focused and split by domain";
            "Use selectors to prevent unnecessary re-renders" ]
          ++ pushIf isNextJS [
            "Use Next.js App Router for new projects";
            "Use Server Components by default, Client Components when needed";
            "Use next/image for optimized images";
            "Implement proper SEO with metadata API";
            "Use next/link for client-side navigation";
            "Leverage ISR (Incremental Static Regeneration) for dynamic content";
            "Use API routes for backend functionality";
            "Implement proper error boundaries and error pages" ]
          (* Performance *)
          ++ [ "Use React.memo() for components that render frequently with same props";
               "Use useMemo() for expensive computations";
               "Use useCallback() for functions passed as props";
               "Implement code splitting with React.lazy()";
               "Virtualize long lists";
               "Optimize re-renders with React DevTools Profiler" ]
          (* Testing *)
          ++ [ "Write tests for components using React Testing Library";
               "Test user interactions, not implementation details";
               "Use data-testid sparingly, prefer accessible queries" ] in
        pushSkill {|
          Skill.name := "react-best-practices";
          Skill.displayName := "React Best Practices";
          Skill.description :=
            "Guidelines for writing high-quality React code based on codebase patterns";
          Skill.guidelines := reactGuidelines;
          Skill.category := "react";
          Skill.techStack := ["JavaScript"; "TypeScript"];
          Skill.metadata := Some (JObj [
            ("usesHooks", JBool (usesHooks hooks));
            ("usesContext", JBool (usesContext hooks));
            ("usesState", JBool (usesState hooks));
            ("usesEffect", JBool (usesEffect hooks));
            ("usesCustomHooks", JBool (usesCustomHooks hooks));
            ("stateManagement", JStr (
               if usesRedux then "Redux" else if usesZustand then "Zustand"
               else if usesMobX then "MobX" else "Context/State"));
            ("framework", JStr (if isNextJS then "Next.js" else "React")) ])
        |};;
        info ("React analyzer: Found " +:+ pretty (length reactFiles)
              +:+ " React files, hooks: " +:+ showBool (usesHooks hooks)
              +:+ ", state: " +:+ showBool (bool_decide (0 < length stateFiles))))
      (λ e, error ("Error in React analyzer: " +:+ message e));;
      get).

(** *** performance-analyzer.js *)

Definition asyncMarker (content : string) : bool :=
  includes content "async" || includes content "await" || includes content "Promise".

(** The async-pattern scan of [generatePerformanceSkills]. *)
Definition scanAsyncPatterns {S} (asyncFiles : list string) : M S bool :=
  scanUntil (take 20 asyncFiles) asyncMarker.

Definition generatePerformanceSkills {S} : M S (list Skill.t) :=
  locally [] (
    try_catch (
      (* Check for database query patterns *)
      dbFiles ← glob h "**/*{db,database,model,query}*.{js,ts,jsx,tsx,py,java,go}" ignoreOutput;
      (* Check for caching implementations *)
      cacheFiles ← glob h "**/*{cache,redis,memcached}*.{js,ts,jsx,tsx,py,java,go}" ignoreOutput;
      (* Check for async/await patterns *)
      asyncFiles ← glob h "**/*.{js,ts,jsx,tsx}" ignoreOutput;
      hasAsyncPatterns ← scanAsyncPatterns asyncFiles;
      let performanceGuidelines :=
        (* General performance guidelines *)
        [ "Optimize database queries: use indexes, avoid N+1 queries, use pagination";
          "Implement caching for frequently accessed data";
          "Use lazy loading for images and heavy resources";
          "Minimize bundle size: code splitting, tree shaking, dynamic imports";
          "Optimize API responses: pagination, filtering, field selection";
          "Use debouncing and throttling for user input handlers";
          "Implement proper error boundaries to prevent full app crashes";
          "Profile and measure before optimizing" ]
        ++ pushIf (TechStack.hasNode techStack) [
          "Use async/await or Promises for I/O operations, never block the event loop";
          "Implement connection pooling for database connections";
          "Use streaming for large file operations";
          "Enable gzip/brotli compression for HTTP responses";
          "Use worker threads for CPU-intensive tasks";
          "Implement request queuing for rate-limited APIs" ]
        ++ pushIf (TechStack.hasReact techStack) [
          "Use React.memo() for expensive components";
          "Implement code splitting with React.lazy() and Suspense";
          "Avoid unnecessary re-renders: use useMemo() and useCallback()";
          "Virtualize long lists with react-window or react-virtualized";
          "Optimize images: use next/image, WebP format, lazy loading";
          "Use production builds with optimizations enabled";
          "Profile with React DevTools Profiler" ]
        ++ pushIf (TechStack.hasTypeScript techStack) [
          "Use TypeScript for better tree-shaking and dead code elimination";
          "Avoid any types that prevent optimizations" ]
        ++ pushIf (bool_decide (0 < length dbFiles)) [
          "Use database indexes on frequently queried columns";
          "Implement query result caching";
          "Use database connection pooling";
          "Avoid SELECT * - only fetch needed columns";
          "Use batch operations instead of individual queries";
          "Implement database query logging and monitoring" ]
        ++ pushIf (bool_decide (0 < length cacheFiles)
                   || arrayIncludes (TechStack.databases techStack) "Redis") [
          "Cache expensive computations and API responses";
          "Set appropriate cache expiration times";
          "Use cache invalidation strategies";
          "Implement cache warming for critical data" ]
        ++ pushIf hasAsyncPatterns [
          "Use Promise.all() for parallel async operations when possible";
          "Avoid sequential await calls when operations are independent";
          "Handle errors properly in async code to prevent unhandled rejections" ] in
      pushSkill {|
        Skill.name := "performance-optimization";
        Skill.displayName := "Performance Optimization";
        Skill.description :=
          "Guidelines for writing performant code based on codebase patterns";
        Skill.guidelines := performanceGuidelines;
        Skill.category := "performance";
        Skill.techStack := TechStack.languages techStack;
        Skill.metadata := None
      |};;
      info ("Performance analyzer: Found " +:+ pretty (length dbFiles) +:+ " DB files, "
            +:+ pretty (length cacheFiles) +:+ " cache files"))
    (λ e, error ("Error in performance analyzer: " +:+ message e));;
    get).

(** *** backend-analyzer.js *)

Definition generateBackendSkills {S} : M S (list Skill.t) :=
  locally [] (
    try_catch (
      (* Find backend files *)
      backendFiles ← glob h "**/*{server,api,route,controller,service}*.{js,ts,py,java,go}"
        ["**/node_modules/**"; "**/dist/**"; "**/build/**"; "**/client/**"; "**/frontend/**"];
      if bool_decide (length backendFiles = 0) then
        (* return skills: nothing follows the try but the same return *)
        info "Backend analyzer: No backend files detected"
      else
        (* Check for API patterns *)
        apiFiles ← glob h "**/*{api,route,endpoint}*.{js,ts,py,java,go}" ignoreOutput;
        (* Check for middleware usage *)
        middlewareFiles ← glob h "**/*{middleware,interceptor}*.{js,ts,py,java,go}" ignoreOutput;
        let frameworks := TechStack.frameworks techStack in
        let backendGuidelines :=
          (* Node.js/Express backend *)
          pushIf (TechStack.hasNode techStack
                  && existsb (λ f, arrayIncludes ["Express"; "NestJS"; "Fastify"; "Koa"] f)
                             frameworks) (
            [ "Use async/await for all async operations";
              "Implement proper error handling middleware";
              "Validate request data using libraries like Joi or Zod";
              "Use environment variables for configuration";
              "Implement request logging and monitoring";
              "Use helmet.js for security headers";
              "Implement rate limiting on API endpoints";
              "Use compression middleware for responses";
              "Structure routes logically and use route modules";
              "Implement proper CORS configuration" ]
            ++ pushIf (arrayIncludes frameworks "Express") [
              "Use Express Router for organizing routes";
              "Separate route handlers from business logic";
              "Use middleware for cross-cutting concerns";
              "Implement proper error handling with error middleware" ]
            ++ pushIf (arrayIncludes frameworks "NestJS") [
              "Use dependency injection with NestJS";
              "Organize code into modules, controllers, and services";
              "Use DTOs for data validation";
              "Implement guards for authentication and authorization";
              "Use interceptors for cross-cutting concerns";
              "Leverage NestJS decorators for clean code" ])
          (* Python backend *)
          ++ pushIf (TechStack.hasPython techStack) (
            [ "Use type hints for better code quality";
              "Implement proper exception handling";
              "Use virtual environments for dependency management";
              "Follow PEP 8 style guidelines";
              "Use async/await for I/O operations when using async frameworks" ]
            ++ pushIf (arrayIncludes frameworks "Django") [
              "Use Django REST Framework for APIs";
              "Follow Django best practices: apps, models, views";
              "Use Django middleware for cross-cutting concerns";
              "Implement proper model relationships and migrations";
              "Use Django signals sparingly";
              "Optimize database queries with select_related and prefetch_related" ]
            ++ pushIf (arrayIncludes frameworks "Flask") [
              "Use Flask-RESTful or Flask-RESTX for APIs";
              "Organize code into blueprints";
              "Use Flask extensions for common functionality";
              "Implement proper error handling";
              "Use Flask-SQLAlchemy for database operations" ]
            ++ pushIf (arrayIncludes frameworks "FastAPI") [
              "Use Pydantic models for request/response validation";
              "Leverage FastAPI dependency injection";
              "Use async endpoints for I/O-bound operations";
              "Implement proper OpenAPI documentation";
              "Use background tasks for long-running operations" ])
          (* Java backend *)
          ++ pushIf (TechStack.hasJava techStack) [
            "Follow Spring Boot best practices";
            "Use dependency injection with Spring";
            "Implement proper exception handling with @ControllerAdvice";
            "Use DTOs for API contracts";
            "Implement proper logging with SLF4J";
            "Use Spring Data JPA for database operations";
            "Follow RESTful API design principles" ]
          (* Go backend *)
          ++ pushIf (TechStack.hasGo techStack) [
            "Follow Go idioms and conventions";
            "Use interfaces for abstraction";
            "Implement proper error handling (return errors, don't panic)";
            "Use context.Context for cancellation and timeouts";
            "Organize code into packages logically";
            "Use go routines and channels appropriately";
            "Implement proper logging";
            "Use dependency injection patterns" ]
          (* General backend guidelines *)
          ++ [ "Implement proper authentication and authorization";
               "Use HTTPS in production";
               "Implement request validation and sanitization";
               "Use connection pooling for database connections";
               "Implement proper logging and monitoring";
               "Handle errors gracefully and return appropriate HTTP status codes";
               "Use environment-specific configuration";
               "Implement health check endpoints";
               "Document APIs with OpenAPI/Swagger";
               "Use proper HTTP status codes";
               "Implement pagination for list endpoints";
               "Use versioning for APIs when needed" ]
          ++ pushIf (bool_decide (0 < length middlewareFiles)) [
            "Use middleware for authentication, logging, error handling";
            "Order middleware correctly (auth before routes)";
            "Keep middleware focused and reusable" ] in
        pushSkill {|
          Skill.name := "backend-best-practices";
          Skill.displayName := "Backend Best Practices";
          Skill.description :=
            "Guidelines for writing high-quality backend code based on detected frameworks";
          Skill.guidelines := backendGuidelines;
          Skill.category := "backend";
          Skill.techStack :=
            filter (λ l, l ∈ ["JavaScript"; "TypeScript"; "Python"; "Java"; "Go"])
                   (TechStack.languages techStack);
          Skill.metadata := Some (JObj [
            ("frameworks", JArr (JStr <$> frameworks));
            ("hasMiddleware", JBool (bool_decide (0 < length middlewareFiles)));
            ("apiFiles", JNum (Z.of_nat (length apiFiles))) ])
        |};;
        info ("Backend analyzer: Found " +:+ pretty (length backendFiles)
              +:+ " backend files, " +:+ pretty (length apiFiles) +:+ " API files"))
    (λ e, error ("Error in backend analyzer: " +:+ message e));;
    get).

(** *** database-analyzer.js *)

Definition generateDatabaseSkills {S} : M S (list Skill.t) :=
  locally [] (
    let databases := TechStack.databases techStack in
    if bool_decide (length databases = 0) then
      info "Database analyzer: No databases detected";;
      get
    else
      try_catch (
        (* Find database-related files *)
        dbFiles ← glob h "**/*{model,schema,migration,db,database}*.{js,ts,py,java,go}" ignoreOutput;
        (* Check for ORM usage *)
        '(usesMongoose, usesSequelize, usesTypeORM, usesPrisma) ←
          try_catch (
            packageJson ← readPackageJson h;
            deps ← mergedDeps packageJson;
            ret (has deps "mongoose", has deps "sequelize", has deps "typeorm",
                 has deps "@prisma/client"))
          (λ e, (* No package.json *) ret (false, false, false, false));
        (* Check for Python ORMs *)
        usesSQLAlchemy ← try_catch (
            requirements ← readFile h "requirements.txt";
            ret (includes requirements "sqlalchemy"))
          (λ e, (* No requirements.txt *) ret false);
        let databaseGuidelines :=
          (* MongoDB *)
          pushIf (arrayIncludes databases "MongoDB" || usesMongoose) [
            "Use Mongoose for MongoDB operations in Node.js";
            "Define schemas with proper validation";
            "Use indexes for frequently queried fields";
            "Implement proper error handling for database operations";
            "Use transactions for multi-document operations";
            "Avoid deep nesting in documents";
            "Use aggregation pipeline for complex queries";
            "Implement proper connection handling and pooling" ]
          (* SQL databases *)
          ++ pushIf (existsb (λ db, arrayIncludes ["SQL"; "PostgreSQL"; "MySQL"] db) databases) (
            [ "Use parameterized queries to prevent SQL injection";
              "Create indexes on frequently queried columns";
              "Use transactions for multi-step operations";
              "Implement proper connection pooling";
              "Use database migrations for schema changes";
              "Avoid N+1 query problems";
              "Use EXPLAIN to analyze query performance";
              "Normalize database schema appropriately" ]
            ++ pushIf usesPrisma [
              "Use Prisma Client for type-safe database access";
              "Define schema in schema.prisma file";
              "Use Prisma migrations for schema changes";
              "Leverage Prisma relations for data relationships";
              "Use Prisma Studio for database inspection";
              "Generate Prisma Client after schema changes" ]
            ++ pushIf usesSequelize [
              "Define models with Sequelize";
              "Use migrations for schema changes";
              "Use Sequelize associations for relationships";
              "Implement proper error handling";
              "Use transactions for complex operations" ]
            ++ pushIf usesTypeORM [
              "Use TypeORM decorators for entity definitions";
              "Use migrations for schema changes";
              "Leverage TypeORM relations";
              "Use repositories for data access";
              "Implement proper transaction handling" ]
            ++ pushIf usesSQLAlchemy [
              "Use SQLAlchemy ORM for database operations";
              "Define models with SQLAlchemy";
              "Use Alembic for migrations";
              "Implement proper session management";
              "Use SQLAlchemy relationships for associations" ])
          (* Redis *)
          ++ pushIf (arrayIncludes databases "Redis") [
            "Use Redis for caching and session storage";
            "Set appropriate expiration times for cached data";
            "Use Redis pub/sub for real-time features";
            "Implement cache invalidation strategies";
            "Use Redis pipelines for batch operations";
            "Monitor Redis memory usage" ]
          (* General database guidelines *)
          ++ [ "Always handle database errors gracefully";
               "Use connection pooling for better performance";
               "Implement proper logging for database operations";
               "Use database transactions for data consistency";
               "Backup databases regularly";
               "Monitor database performance and slow queries";
               "Use database indexes strategically";
               "Avoid storing sensitive data in plain text";
               "Implement proper data validation at the database level";
               "Use database constraints for data integrity" ] in
        pushSkill {|
          Skill.name := "database-best-practices";
          Skill.displayName := "Database Best Practices";
          Skill.description :=
            "Guidelines for working with databases based on detected database technologies";
          Skill.guidelines := databaseGuidelines;
          Skill.category := "database";
          Skill.techStack := TechStack.languages techStack;
          Skill.metadata := Some (JObj [
            ("databases", JArr (JStr <$> databases));
            ("orm", JStr (
               if usesPrisma then "Prisma" else if usesMongoose then "Mongoose"
               else if usesSequelize then "Sequelize" else if usesTypeORM then "TypeORM"
               else if usesSQLAlchemy then "SQLAlchemy" else "None")) ])
        |};;
        info ("Database analyzer: Found " +:+ pretty (length dbFiles)
              +:+ " database files, DBs: " +:+ join ", " databases))
      (λ e, error ("Error in database analyzer: " +:+ message e));;
      get).

(** *** frontend-analyzer.js *)

Definition generateFrontendSkills {S} : M S (list Skill.t) :=
  locally [] (
    try_catch (
      (* Find frontend files *)
      frontendFiles ← glob h "**/*.{js,jsx,ts,tsx,css,scss,sass,less}"
        ["**/node_modules/**"; "**/dist/**"; "**/build/**"; "**/server/**"; "**/backend/**"];
      (* Check for CSS frameworks *)
      cssFiles ← glob h "**/*.{css,scss,sass,less}" ignoreOutput;
      (* Check package.json for CSS frameworks *)
      '(usesTailwind, usesStyledComponents, usesCSSModules) ←
        try_catch (
          packageJson ← readPackageJson h;
          deps ← mergedDeps packageJson;
          ret (has deps "tailwindcss", has deps "styled-components", has deps "css-modules"))
        (λ e, (* No package.json *) ret (false, false, false));
      (* Check for component libraries *)
      '(usesMaterialUI, usesChakraUI, usesAntDesign) ←
        try_catch (
          packageJson ← readPackageJson h;
          deps ← mergedDeps packageJson;
          ret (has deps "@mui/material" || has deps "@material-ui/core",
               has deps "@chakra-ui/react", has deps "antd"))
        (λ e, (* No package.json *) ret (false, false, false));
      let frontendGuidelines :=
        (* General frontend guidelines *)
        [ "Write semantic HTML";
          "Ensure accessibility (a11y): proper ARIA labels, keyboard navigation";
          "Optimize images: use appropriate formats (WebP, AVIF), lazy loading";
          "Implement responsive design (mobile-first approach)";
          "Use CSS variables for theming";
          "Minimize layout shifts (CLS)";
          "Optimize font loading";
          "Implement proper error boundaries" ]
        ++ pushIf (TechStack.hasTypeScript techStack) [
          "Use TypeScript for type safety";
          "Define proper interfaces for props and data structures";
          "Avoid using any type";
          "Use strict mode for better type checking" ]
        ++ pushIf usesTailwind [
          "Use Tailwind utility classes for styling";
          "Extract repeated patterns into components";
          "Use Tailwind plugins for custom utilities";
          "Configure Tailwind theme for design system consistency";
          "Use @apply sparingly, prefer utility classes" ]
        ++ pushIf usesStyledComponents [
          "Use styled-components for component-scoped styling";
          "Extract styled components into separate files for reusability";
          "Use theme provider for consistent theming";
          "Avoid inline styles, use styled components";
          "Use CSS-in-JS best practices for performance" ]
        ++ pushIf usesCSSModules [
          "Use CSS Modules for scoped styling";
          "Follow BEM naming convention when appropriate";
          "Keep CSS modules co-located with components" ]
        ++ pushIf usesMaterialUI [
          "Use Material-UI components consistently";
          "Customize theme using MUI theme provider";
          "Follow Material Design principles";
          "Use MUI Grid system for layouts" ]
        ++ pushIf usesChakraUI [
          "Use Chakra UI components and hooks";
          "Customize theme through ChakraProvider";
          "Use Chakra responsive props for mobile-first design" ]
        ++ pushIf usesAntDesign [
          "Use Ant Design components consistently";
          "Customize theme through ConfigProvider";
          "Follow Ant Design design principles" ]
        (* Performance *)
        ++ [ "Implement code splitting for routes";
             "Lazy load components and routes";
             "Optimize bundle size with tree shaking";
             "Use dynamic imports for heavy libraries";
             "Implement virtual scrolling for long lists";
             "Debounce/throttle user input handlers";
             "Use Web Workers for heavy computations" ]
        (* Testing *)
        ++ [ "Write unit tests for components";
             "Test user interactions, not implementation";
             "Use accessibility testing tools";
             "Test responsive design at different breakpoints" ] in
      pushSkill {|
        Skill.name := "frontend-best-practices";
        Skill.displayName := "Frontend Best Practices";
        Skill.description := "Guidelines for writing high-quality frontend code";
        Skill.guidelines := frontendGuidelines;
        Skill.category := "frontend";
        Skill.techStack := TechStack.languages techStack;
        Skill.metadata := Some (JObj [
          ("cssFramework", JStr (
             if usesTailwind then "Tailwind"
             else if usesStyledComponents then "Styled Components"
             else if usesCSSModules then "CSS Modules" else "Standard CSS"));
          ("componentLibrary", JStr (
             if usesMaterialUI then "Material-UI" else if usesChakraUI then "Chakra UI"
             else if usesAntDesign then "Ant Design" else "None")) ])
      |};;
      info ("Frontend analyzer: Found " +:+ pretty (length frontendFiles)
            +:+ " frontend files, CSS: " +:+ pretty (length cssFiles)))
    (λ e, error ("Error in frontend analyzer: " +:+ message e));;
    get).

(** *** devops-analyzer.js *)

Definition generalDevOpsGuidelines : list string := [
  "Use version control for all code and configuration";
  "Implement proper branching strategies (GitFlow, GitHub Flow)";
  "Use semantic versioning for releases";
  "Keep dependencies updated and secure";
  "Use environment variables for configuration";
  "Never commit secrets or credentials";
  "Implement proper logging and monitoring";
  "Use infrastructure as code when possible";
  "Automate deployment processes";
  "Implement proper backup and disaster recovery" ].

Definition pipelineGuidelines : list string := [
  "Run tests in CI pipeline";
  "Lint and format code in CI";
  "Build and test on multiple platforms when needed";
  "Use deployment pipelines for different environments";
  "Implement proper rollback strategies";
  "Notify team of deployment status" ].

Definition generateDevOpsSkills {S} : M S (list Skill.t) :=
  locally [] (
    try_catch (
      (* Check for CI/CD files *)
      cicdFiles ← glob h "**/.github/workflows/*.yml" [];
      let hasGitHubActions := bool_decide (0 < length cicdFiles) in
      (* Check for Docker *)
      hasDocker ← try_catch (access h "Dockerfile";; ret true)
                            (λ e, (* No Dockerfile *) ret false);
      (* Check for docker-compose *)
      hasDockerCompose ←
        try_catch (access h "docker-compose.yml";; ret true)
          (λ e, try_catch (access h "docker-compose.yaml";; ret true)
                          (λ e2, (* No docker-compose *) ret false));
      (* Check for Kubernetes *)
      k8sFiles ← glob h "**/*{k8s,kubernetes}*.{yaml,yml}" [];
      let hasK8s := bool_decide (0 < length k8sFiles) in
      (* Check for infrastructure as code *)
      iacFiles ← glob h "**/*.{tf,tf.json}" [];
      let hasTerraform := bool_decide (0 < length iacFiles) in
      (* Check for environment files *)
      envFiles ← glob h "**/.env*" [];
      let hasEnvFiles := bool_decide (0 < length envFiles) in
      let cloudProviders := TechStack.cloudProviders techStack in
      let devopsGuidelines :=
        (* General DevOps guidelines *)
        generalDevOpsGuidelines
        (* CI/CD *)
        ++ pushIf hasGitHubActions [
          "Use GitHub Actions for CI/CD pipelines";
          "Organize workflows into reusable actions";
          "Use matrix builds for testing multiple versions";
          "Cache dependencies to speed up builds";
          "Run tests before deployment";
          "Use environment secrets for sensitive data";
          "Implement proper workflow permissions";
          "Use conditionals and job dependencies effectively" ]
        ++ pipelineGuidelines
        (* Docker *)
        ++ pushIf hasDocker [
          "Use multi-stage builds to reduce image size";
          "Use .dockerignore to exclude unnecessary files";
          "Use specific version tags, avoid latest";
          "Run containers as non-root user";
          "Minimize number of layers in Dockerfile";
          "Use health checks in Dockerfiles";
          "Optimize Dockerfile for caching";
          "Scan images for vulnerabilities" ]
        ++ pushIf hasDockerCompose [
          "Use docker-compose for local development";
          "Define services and dependencies clearly";
          "Use environment files for configuration";
          "Use volumes for persistent data";
          "Define networks for service communication" ]
        (* Kubernetes *)
        ++ pushIf hasK8s [
          "Use Kubernetes for container orchestration";
          "Define resources (CPU, memory) for pods";
          "Use ConfigMaps and Secrets for configuration";
          "Implement proper health checks (liveness, readiness)";
          "Use namespaces for environment separation";
          "Implement proper resource quotas";
          "Use HorizontalPodAutoscaler for scaling";
          "Implement proper service discovery";
          "Use Ingress for external access";
          "Monitor and log Kubernetes resources" ]
        (* Infrastructure as Code *)
        ++ pushIf hasTerraform [
          "Use Terraform for infrastructure provisioning";
          "Organize Terraform code into modules";
          "Use remote state for team collaboration";
          "Version Terraform state files";
          "Use variables and outputs effectively";
          "Implement proper resource tagging";
          "Use Terraform workspaces for environments";
          "Review Terraform plans before applying" ]
        (* Environment management *)
        ++ pushIf hasEnvFiles [
          "Use .env.example as a template";
          "Never commit .env files";
          "Use different configurations for different environments";
          "Use secret management services in production";
          "Rotate secrets regularly";
          "Document required environment variables" ]
        (* Cloud providers *)
        ++ pushIf (bool_decide (0 < length cloudProviders)) [
          "Configure for cloud providers: " +:+ join ", " cloudProviders;
          "Use cloud-native services when appropriate";
          "Implement proper IAM and security policies";
          "Use cloud monitoring and logging services";
          "Implement auto-scaling when needed";
          "Use CDN for static assets";
          "Implement proper backup strategies" ] in
      pushSkill {|
        Skill.name := "devops-best-practices";
        Skill.displayName := "DevOps Best Practices";
        Skill.description :=
          "Guidelines for DevOps and deployment based on detected infrastructure";
        Skill.guidelines := devopsGuidelines;
        Skill.category := "devops";
        Skill.techStack := TechStack.languages techStack;
        Skill.metadata := Some (JObj [
          ("hasDocker", JBool hasDocker);
          ("hasDockerCompose", JBool hasDockerCompose);
          ("hasK8s", JBool hasK8s);
          ("hasTerraform", JBool hasTerraform);
          ("hasGitHubActions", JBool hasGitHubActions);
          ("cloudProviders", JArr (JStr <$> cloudProviders)) ])
      |};;
      info ("DevOps analyzer: Docker: " +:+ showBool hasDocker +:+ ", K8s: "
            +:+ showBool hasK8s +:+ ", CI/CD: " +:+ showBool hasGitHubActions))
    (λ e, error ("Error in DevOps analyzer: " +:+ message e));;
    get).
End Analyzers.

(** ** The orchestrator ([generate-skills.js]) *)

(** An entry of [agentPromises]: [task] is the thunk
    [() => generateXSkills(workspaceRoot, techStack, context)].  It closes
    over the frozen [techStack] and owns no store of the orchestrator.  To
    the wrapper it is any function: it may throw any value. *)
Module Agent.
Record t := mk { name : string; task : Computation Thrown unit (list Skill.t) }.
End Agent.

(** A function of the program as a task: what it throws is an [Error]
    object. *)
Definition thunk {S A} (m : M S A) : Computation Thrown S A := λ s,
  match m s with
  | (Normal a, s1, t) => (Normal a, s1, t)
  | (Throw e, s1, t) => (Throw (ThrownError e), s1, t)
  end.

(** What the wrapper around a task returns. *)
Module AgentResult.
Record t := mk {
  name : string;
  skills : list Skill.t;
  success : bool;
  error : option string
}.
End AgentResult.

Module SummaryEntry.
Record t := mk {
  agent : string;
  skillsGenerated : nat;
  status : string;
  error : option string
}.
End SummaryEntry.

Module Report.
Record t := mk {
  techStack : TechStack.t;
  totalSkillsGenerated : nat;
  agents : list SummaryEntry.t;
  timestamp : string
}.
End Report.

Module MainResult.
Record t := mk { success : bool; report : Report.t; skills : list Skill.t }.
End MainResult.

(** *** Promises *)

(** An element of the array [Promise.allSettled] resolves to. *)
Inductive Settled (A : Type) :=
| fulfilled (value : A)
| rejected (reason : Error).
Arguments fulfilled {A} value.
Arguments rejected {A} reason.

(** The promise of an [async] call settles with the completion of the call;
    nothing is thrown at the code that holds the promise. *)
Definition settle {S A} (m : M S A) : M S (Settled A) := λ s,
  match m s with
  | (Normal a, s1, t) => (Normal (fulfilled a), s1, t)
  | (Throw e, s1, t) => (Normal (rejected e), s1, t)
  end.

Fixpoint mapM {S A B} (f : A → M S B) (l : list A) : M S (list B) :=
  match l with
  | [] => ret []
  | x :: rest => y ← f x; ys ← mapM f rest; ret (y :: ys)
  end.

(** [Promise.allSettled(promises)].  The scheduler is the function
    [latency]: promise [i] settles at time [latency i], ties in index order,
    so every completion order is the order of some [latency].  Each promise
    writes its result at its own index of the result array; the array is
    read back by index once all have settled.

    The trace lists the events of each task en bloc, in completion order:
    how the tasks interleave at their [await]s is not modelled.  The tasks
    share only the host and the frozen tech stack, so no value depends on
    it. *)
Definition settlesBefore {A} (latency : nat → nat) (x y : nat * A) : Prop :=
  latency x.1 ≤ latency y.1.
Definition indexBefore {A} (x y : nat * A) : Prop := x.1 ≤ y.1.

Global Instance settlesBefore_dec {A} latency : RelDecision (@settlesBefore A latency).
Proof. intros x y. unfold settlesBefore. apply _. Defined.
Global Instance indexBefore_dec {A} : RelDecision (@indexBefore A).
Proof. intros x y. unfold indexBefore. apply _. Defined.

Definition completionOrder {A} (latency : nat → nat) (promises : list A) : list (nat * A) :=
  merge_sort (settlesBefore latency) (imap (λ i p, (i, p)) promises).

Definition allSettled {S A} (latency : nat → nat) (promises : list (M S A))
    : M S (list (Settled A)) :=
  settledAt ← mapM (λ '(i, p), r ← settle p; ret (i, r)) (completionOrder latency promises);
  ret ((merge_sort indexBefore settledAt).*2).

(** *** main *)

Definition newline : string := String (Ascii.ascii_of_nat 10) EmptyString.

(** [JSON.stringify(techStack, null, 2)]; the identifiers of a tech stack
    need no escaping. *)
Definition stringifyArray (l : list string) : string :=
  match l with
  | [] => "[]"
  | _ => "[" +:+ newline
         +:+ join ("," +:+ newline) ((λ x, "    " +:+ dquote +:+ x +:+ dquote) <$> l)
         +:+ newline +:+ "  ]"
  end.

Definition stringifyTechStack (ts : TechStack.t) : string :=
  let key k := "  " +:+ dquote +:+ k +:+ dquote +:+ ": " in
  "{" +:+ newline +:+ join ("," +:+ newline) [
    key "languages" +:+ stringifyArray (TechStack.languages ts);
    key "frameworks" +:+ stringifyArray (TechStack.frameworks ts);
    key "databases" +:+ stringifyArray (TechStack.databases ts);
    key "buildTools" +:+ stringifyArray (TechStack.buildTools ts);
    key "packageManagers" +:+ stringifyArray (TechStack.packageManagers ts);
    key "cloudProviders" +:+ stringifyArray (TechStack.cloudProviders ts);
    key "hasReact" +:+ showBool (TechStack.hasReact ts);
    key "hasTypeScript" +:+ showBool (TechStack.hasTypeScript ts);
    key "hasNode" +:+ showBool (TechStack.hasNode ts);
    key "hasPython" +:+ showBool (TechStack.hasPython ts);
    key "hasJava" +:+ showBool (TechStack.hasJava ts);
    key "hasGo" +:+ showBool (TechStack.hasGo ts);
    key "hasRust" +:+ showBool (TechStack.hasRust ts) ]
  +:+ newline +:+ "}".

(** [list.join(', ') || 'None detected'] *)
Definition joinOr (l : list string) (fallback : string) : string :=
  let s := join ", " l in if decide (s = "") then fallback else s.

(** [error.message] on a caught value: the read throws a [TypeError] on
    [null] and on [undefined], and gives [undefined] on a value that has no
    [message]. *)
Definition readMessage {S} (thrown : Thrown) : M S (option string) :=
  match thrown with
  | ThrownError e => ret (Some (message e))
  | ThrownNull =>
      throw (TypeError "Cannot read properties of null (reading 'message')")
  | ThrownUndefined =>
      throw (TypeError "Cannot read properties of undefined (reading 'message')")
  | ThrownPrimitive _ => ret None
  end.

(** A string that may be [undefined], inside a template literal. *)
Definition inTemplate (v : option string) : string :=
  match v with
  | Some text => text
  | None => "undefined"
  end.

(** The wrapper of [agentPromises.map(async ({ name, task }) => ...)].  Its
    [catch] reads [error.message] twice, for the log line and for the
    record. *)
Definition runAgent {S} (a : Agent.t) : M S AgentResult.t :=
  let name := Agent.name a in
  try_catch (
    info ("  → Starting " +:+ name +:+ "...");;
    skills ← locally () (Agent.task a);
    info ("  ✅ " +:+ name +:+ " completed: Generated " +:+ pretty (length skills)
          +:+ " skill(s)");;
    ret {| AgentResult.name := name; AgentResult.skills := skills;
           AgentResult.success := true; AgentResult.error := None |})
  (λ thrown,
    logged ← readMessage thrown;
    error ("  ❌ " +:+ name +:+ " failed: " +:+ inTemplate logged);;
    recorded ← readMessage thrown;
    ret {| AgentResult.name := name; AgentResult.skills := [];
           AgentResult.success := false; AgentResult.error := recorded |}).

(** The body of [for (const result of results)]: the stores are the arrays
    [allSkills] and [summary]. *)
Definition collect (acc : list Skill.t * list SummaryEntry.t)
    (result : Settled AgentResult.t) : list Skill.t * list SummaryEntry.t :=
  let '(allSkills, summary) := acc in
  match result with
  | fulfilled value =>
      if AgentResult.success value then
        (allSkills ++ AgentResult.skills value,
         summary ++ [ {| SummaryEntry.agent := AgentResult.name value;
                         SummaryEntry.skillsGenerated := length (AgentResult.skills value);
                         SummaryEntry.status := "success";
                         SummaryEntry.error := None |} ])
      else
        (allSkills,
         summary ++ [ {| SummaryEntry.agent := AgentResult.name value;
                         SummaryEntry.skillsGenerated := 0;
                         SummaryEntry.status := "failed";
                         SummaryEntry.error := AgentResult.error value |} ])
  | rejected reason =>
      (allSkills,
       summary ++ [ {| SummaryEntry.agent := "Unknown";
                       SummaryEntry.skillsGenerated := 0;
                       SummaryEntry.status := "failed";
                       SummaryEntry.error := Some (message reason) |} ])
  end.

Definition aggregate (results : list (Settled AgentResult.t))
    : list Skill.t * list SummaryEntry.t :=
  foldl collect ([], []) results.

(** The sink, seen from the orchestrator: the skills it was offered, in
    order, each with the success or failure it answered.  It is the store
    of [main]; a task runs on a store of its own and cannot reach it. *)
Definition Sink := list (Skill.t * bool).

(** How a run of [main] ends: it returns its result object, or the top-level
    [catch] calls [process.exit(1)]. *)
Inductive Outcome :=
| Returned (value : MainResult.t)
| Exited (code : Z).

Section Main.
(** The collaborators [main] imports: the stack builder, the registered
    agents for a tech stack, and the sink. *)
Context (h : Host).
Context (analyze : M Sink TechStack.t).
Context (agentPromises : TechStack.t → list Agent.t).
Context (saveSkill : Skill.t → M Sink bool).
Context (latency : nat → nat).

(** [for (const skill of allSkills) { await saveSkill(skill, workspaceRoot,
    context); }] *)
Definition saveAll (allSkills : list Skill.t) : M Sink unit :=
  forOf allSkills (λ skill, saveSkill skill;; ret tt).

(** The [try] block of [main]. *)
Definition mainBody : M Sink MainResult.t :=
  info "🚀 Starting skill generation process with 10 sub-agents...";;
  info ("📁 Workspace: " +:+ workspaceRoot h);;
  (* Step 1: Analyze tech stack first (needed by other analyzers) *)
  info "📊 Step 1/11: Analyzing tech stack...";;
  techStack ← analyze;
  info ("✅ Detected tech stack: " +:+ stringifyTechStack techStack);;
  (* Step 2-11: Run all 10 sub-agents in parallel *)
  info "🤖 Step 2-11: Launching 10 sub-agents in parallel...";;
  (* Execute all agents in parallel *)
  results ← allSettled latency (runAgent <$> agentPromises techStack);
  (* Collect all generated skills *)
  let '(allSkills, summary) := aggregate results in
  (* Save all generated skills *)
  info ("💾 Saving " +:+ pretty (length allSkills) +:+ " generated skill(s)...");;
  saveAll allSkills;;
  (* Generate summary report *)
  let report := {|
    Report.techStack := techStack;
    Report.totalSkillsGenerated := length allSkills;
    Report.agents := summary;
    Report.timestamp := now h
  |} in
  info (newline +:+ "📋 Skill Generation Summary:");;
  info ("   Total Skills Generated: " +:+ pretty (length allSkills));;
  info ("   Tech Stack: " +:+ join ", " (TechStack.languages techStack));;
  info ("   Frameworks: " +:+ joinOr (TechStack.frameworks techStack) "None detected");;
  info ("   Databases: " +:+ joinOr (TechStack.databases techStack) "None detected");;
  info (newline +:+ "✅ Skill generation complete!");;
  ret {| MainResult.success := true; MainResult.report := report;
         MainResult.skills := allSkills |}.

(** [main]: the [try] block, and the [catch] that logs and exits.  The
    run starts on a sink that was offered nothing. *)
Definition mainWith : Outcome * Sink * list Event :=
  match mainBody [] with
  | (Normal value, sink, t) => (Returned value, sink, t)
  | (Throw e, sink, t) =>
      (Exited 1, sink,
       t ++ [ ConsoleError (newline +:+ "❌ Fatal error: " +:+ message e);
              ConsoleError (stack e) ])
  end.
End Main.

(** Modelled from the spec: [utils/skill-writer.js], which defines
    [saveSkill], is not part of the source.  The spec (sections 4.5 and 6)
    has the sink take one skill and answer success or failure without
    throwing, the failure being recorded per skill.  [answers k] is the
    answer of the sink to the [k]-th call (counting from 0), so that the
    [false]s of [answers] are the failing persist calls. *)
Definition saveSkill (answers : nat → bool) (skill : Skill.t) : M Sink bool :=
  sink ← get;
  let saved := answers (length sink) in
  modify (λ sink, sink ++ [(skill, saved)]);;
  ret saved.

Section Registered.
Context (h : Host).

(** The array [agentPromises] of [main]. *)
Definition agentPromises (techStack : TechStack.t) : list Agent.t := [
  {| Agent.name := "Security Analyzer";
     Agent.task := thunk (generateSecuritySkills h techStack) |};
  {| Agent.name := "Performance Analyzer";
     Agent.task := thunk (generatePerformanceSkills h techStack) |};
  {| Agent.name := "React Analyzer";
     Agent.task := thunk (generateReactSkills h techStack) |};
  {| Agent.name := "Backend Analyzer";
     Agent.task := thunk (generateBackendSkills h techStack) |};
  {| Agent.name := "Frontend Analyzer";
     Agent.task := thunk (generateFrontendSkills h techStack) |};
  {| Agent.name := "Database Analyzer";
     Agent.task := thunk (generateDatabaseSkills h techStack) |};
  {| Agent.name := "API Analyzer";
     Agent.task := thunk (generateAPISkills h techStack) |};
  {| Agent.name := "Testing Analyzer";
     Agent.task := thunk (generateTestingSkills h techStack) |};
  {| Agent.name := "DevOps Analyzer";
     Agent.task := thunk (generateDevOpsSkills h techStack) |} ].

(** [main()] of [generate-skills.js]. *)
Definition main (answers : nat → bool) (latency : nat → nat)
    : Outcome * Sink * list Event :=
  mainWith h (analyzeTechStack h) agentPromises (saveSkill answers) latency.
End Registered.

(** * Specification

    The predicates, functions and example hosts the properties are stated
    with. *)

(** ** Properties of computations *)

(** [total m]: [m] never throws.  [pure m]: [m] leaves the store as it found
    it, on both exits.  [detached m]: [m] neither reads nor writes the
    store. *)
Definition total {S A} (m : M S A) : Prop := ∀ s, ∃ a, result m s = Normal a.
Definition pure {S A} (m : M S A) : Prop := ∀ s, store m s = s.
Definition detached {S A} (m : M S A) : Prop := ∃ r t, ∀ s, run m s = (r, s, t).

(** [returns m s a s']: started on [s], [m] returns [a] and leaves [s']. *)
Definition returns {S A} (m : M S A) (s : S) (a : A) (s' : S) : Prop :=
  ∃ t, run m s = (Normal a, s', t).

(** [throws m s e s']: started on [s], [m] throws [e] and leaves [s']. *)
Definition throws {S A} (m : M S A) (s : S) (e : Error) (s' : S) : Prop :=
  ∃ t, run m s = (Throw e, s', t).

(** [returnsStore m]: when [m] returns, it returns its store. *)
Definition returnsStore {S} (m : M S S) : Prop :=
  ∀ s a, result m s = Normal a → a = store m s.

(** [writes R w m]: whatever [m] does, and whether it returns or throws, its
    store changes within the budget [w], where [R w s s'] reads: the store
    [s] may become [s'] under the budget [w]. *)
Definition writes {S W A} (R : W → S → S → Prop) (w : W) (m : M S A) : Prop :=
  ∀ s, R w s (store m s).

(** ** The stack builder *)

(** The values pushed on array [a] by a sequence of pushes. *)
Definition pushed (a : TechStack.array) (w : list (TechStack.array * string)) : list string :=
  omap (λ x, if decide (x.1 = a) then Some x.2 else None) w.

(** [extends W s s']: the arrays of [s'] are those of [s] followed by the
    values of some of the pushes [W], in the order of [W]. *)
Definition extends (W : list (TechStack.array * string)) (s s' : TechStack.t) : Prop :=
  ∃ w, w `sublist_of` W ∧ ∀ a, TechStack.field a s' = TechStack.field a s ++ pushed a w.

(** [pushes W m]: whatever [m] does, and whether it returns or throws, it
    pushes some of [W], in order, and nothing else. *)
Definition pushes {A} (W : list (TechStack.array * string)) (m : M TechStack.t A) : Prop :=
  writes extends W m.

(** The pushes of [analyzeTechStack], in program order. *)
Definition pushSites : list (TechStack.array * string) := [
  (PackageManagers, "npm");
  (Frameworks, "React"); (Frameworks, "Next.js"); (Frameworks, "Vue.js");
  (Frameworks, "Angular"); (Frameworks, "Express"); (Frameworks, "NestJS");
  (Frameworks, "Fastify"); (Frameworks, "Koa");
  (Databases, "MongoDB"); (Databases, "SQL"); (Databases, "PostgreSQL");
  (Databases, "MySQL"); (Databases, "Redis"); (Databases, "Prisma");
  (BuildTools, "Webpack"); (BuildTools, "Vite"); (BuildTools, "Rollup");
  (BuildTools, "esbuild");
  (Languages, "JavaScript"); (Languages, "TypeScript");
  (Languages, "Python"); (PackageManagers, "pip");
  (Frameworks, "Django"); (Frameworks, "Flask"); (Frameworks, "FastAPI");
  (Databases, "SQL");
  (Languages, "Java"); (PackageManagers, "Maven");
  (Languages, "Java"); (PackageManagers, "Gradle");
  (Languages, "Go");
  (Languages, "Rust");
  (CloudProviders, "Vercel"); (CloudProviders, "Netlify");
  (CloudProviders, "AWS Lambda"); (CloudProviders, "GitHub Actions");
  (BuildTools, "Docker");
  (CloudProviders, "Kubernetes") ].

(** How often [x] occurs in [l]. *)
Definition occurrences (x : string) (l : list string) : nat :=
  length (filter (λ y, y = x) l).

(** A workspace root that does not exist: no file below it can be read or
    accessed, and a glob finds nothing (or fails). *)
Definition rootMissing (h : Host) : Prop :=
  (∀ path, ∃ e, fs_readFile h path = Throw e)
  ∧ (∀ path, ∃ e, fs_access h path = Throw e)
  ∧ (∀ pattern ignore,
       glob_files h pattern ignore = Normal []
       ∨ ∃ e, glob_files h pattern ignore = Throw e).

(** ** The analyzers *)

(** [atMost n s s']: the array [s'] is [s] followed by at most [n] skills. *)
Definition atMost (n : nat) (s s' : list Skill.t) : Prop :=
  ∃ extra, s' = s ++ extra ∧ length extra ≤ n.

(** An analyzer returns its [skills] array: it never throws, leaves the
    store of its caller alone, and returns at most one skill. *)
Definition returnsAtMostOne {S} (m : M S (list Skill.t)) : Prop :=
  ∀ s, ∃ skills, result m s = Normal skills ∧ store m s = s ∧ length skills ≤ 1.

(** The files a computation read, in order. *)
Definition reads (t : list Event) : list string :=
  omap (λ ev, match ev with FsReadFile path => Some path | _ => None end) t.

(** [file] is a positive match for [test]: it can be read and its content
    passes the test. *)
Definition matches (h : Host) (test : string → bool) (file : string) : bool :=
  match fs_readFile h file with
  | Normal content => test content
  | Throw _ => false
  end.

(** The candidates up to and including the first positive match. *)
Fixpoint throughFirst {A} (p : A → bool) (l : list A) : list A :=
  match l with
  | [] => []
  | x :: rest => if p x then [x] else x :: throughFirst p rest
  end.

(** A workspace with no CI/CD, Docker, Kubernetes, Terraform or env-file
    evidence, and a tech stack with no cloud provider. *)
Definition noDevOpsEvidence (h : Host) (ts : TechStack.t) : Prop :=
  glob_files h "**/.github/workflows/*.yml" [] = Normal []
  ∧ (∃ e, fs_access h "Dockerfile" = Throw e)
  ∧ (∃ e, fs_access h "docker-compose.yml" = Throw e)
  ∧ (∃ e, fs_access h "docker-compose.yaml" = Throw e)
  ∧ glob_files h "**/*{k8s,kubernetes}*.{yaml,yml}" [] = Normal []
  ∧ glob_files h "**/*.{tf,tf.json}" [] = Normal []
  ∧ glob_files h "**/.env*" [] = Normal []
  ∧ TechStack.cloudProviders ts = [].

(** The glob of [generateBackendSkills] for backend files. *)
Definition backendFilesOf (h : Host) : Completion (list string) :=
  glob_files h "**/*{server,api,route,controller,service}*.{js,ts,py,java,go}"
    ["**/node_modules/**"; "**/dist/**"; "**/build/**"; "**/client/**"; "**/frontend/**"].

(** The host [h] with a [glob] that fails on every call: a file-system
    failure inside the [try] block of every analyzer. *)
Definition globFailing (h : Host) (e : Error) : Host := {|
  workspaceRoot := workspaceRoot h;
  fs_readFile := fs_readFile h;
  fs_access := fs_access h;
  glob_files pattern ignore := Throw e;
  JSON_parse := JSON_parse h;
  now := now h
|}.

(** ** The orchestrator *)

(** The position of promise [i] in a completion order. *)
Definition positionIn {A} (order : list (nat * A)) (i : nat) : nat :=
  match list_find (λ x, x.1 = i) order with
  | Some (k, _) => k
  | None => 0
  end.

(** The element of the result array for a promise that completed with [c]. *)
Definition settledOf {A} (c : Completion A) : Settled A :=
  match c with
  | Normal a => fulfilled a
  | Throw e => rejected e
  end.

(** [null] and [undefined]: the values on which a property read throws. *)
Definition nullish (thrown : Thrown) : bool :=
  match thrown with
  | ThrownNull | ThrownUndefined => true
  | ThrownError _ | ThrownPrimitive _ => false
  end.

(** The [message] of a thrown value that is not nullish: a string for an
    [Error] object, [undefined] otherwise. *)
Definition messageOf (thrown : Thrown) : option string :=
  match thrown with
  | ThrownError e => Some (message e)
  | _ => None
  end.

(** The [TypeError] of [error.message] on a nullish value. *)
Definition messageTypeError (thrown : Thrown) : Error :=
  match thrown with
  | ThrownUndefined => TypeError "Cannot read properties of undefined (reading 'message')"
  | _ => TypeError "Cannot read properties of null (reading 'message')"
  end.

(** The task of the agent throws [null] or [undefined]. *)
Definition throwsNullish (a : Agent.t) : bool :=
  match result (Agent.task a) () with
  | Normal _ => false
  | Throw thrown => nullish thrown
  end.

(** The record the wrapper returns for a task, when it returns one: the
    task's completion, run on a store of its own, decides the record.  (For
    a task that throws a nullish value the wrapper returns no record:
    [wrapperCompletion].) *)
Definition agentResult (a : Agent.t) : AgentResult.t :=
  match result (Agent.task a) () with
  | Normal skills =>
      {| AgentResult.name := Agent.name a; AgentResult.skills := skills;
         AgentResult.success := true; AgentResult.error := None |}
  | Throw thrown =>
      {| AgentResult.name := Agent.name a; AgentResult.skills := [];
         AgentResult.success := false; AgentResult.error := messageOf thrown |}
  end.

(** How the wrapper of an agent ends: it returns [agentResult], unless the
    task threw a nullish value; then the [catch] of the wrapper throws the
    [TypeError] of its read of [error.message]. *)
Definition wrapperCompletion (a : Agent.t) : Completion AgentResult.t :=
  match result (Agent.task a) () with
  | Throw thrown =>
      if nullish thrown then Throw (messageTypeError thrown) else Normal (agentResult a)
  | Normal _ => Normal (agentResult a)
  end.

(** The element of [results] for an agent. *)
Definition settledAgent (a : Agent.t) : Settled AgentResult.t :=
  settledOf (wrapperCompletion a).

(** The summary entry for an agent whose task threw [thrown]. *)
Definition failedEntry (name : string) (thrown : Thrown) : SummaryEntry.t :=
  {| SummaryEntry.agent := if nullish thrown then "Unknown" else name;
     SummaryEntry.skillsGenerated := 0;
     SummaryEntry.status := "failed";
     SummaryEntry.error :=
       if nullish thrown then Some (message (messageTypeError thrown))
       else messageOf thrown |}.

(** The entry of the summary for a wrapper result, and the skills collected
    from it. *)
Definition entryOf (r : AgentResult.t) : SummaryEntry.t :=
  if AgentResult.success r then
    {| SummaryEntry.agent := AgentResult.name r;
       SummaryEntry.skillsGenerated := length (AgentResult.skills r);
       SummaryEntry.status := "success";
       SummaryEntry.error := None |}
  else
    {| SummaryEntry.agent := AgentResult.name r;
       SummaryEntry.skillsGenerated := 0;
       SummaryEntry.status := "failed";
       SummaryEntry.error := AgentResult.error r |}.

Definition skillsOf (r : AgentResult.t) : list Skill.t :=
  if AgentResult.success r then AgentResult.skills r else [].

(** The skills a task contributes to the report. *)
Definition contribution (a : Agent.t) : list Skill.t :=
  match result (Agent.task a) () with
  | Normal skills => skills
  | Throw _ => []
  end.

(** What a sink that was offered nothing holds after it was offered
    [skills]: every skill, in order, with the answer to its call. *)
Definition offered (answers : nat → bool) (skills : list Skill.t) : Sink :=
  imap (λ k skill, (skill, answers k)) skills.

(** The entry and the skills of the aggregation loop for one element of
    [results]. *)
Definition settledEntry (result : Settled AgentResult.t) : SummaryEntry.t :=
  match result with
  | fulfilled value => entryOf value
  | rejected reason =>
      {| SummaryEntry.agent := "Unknown"; SummaryEntry.skillsGenerated := 0;
         SummaryEntry.status := "failed"; SummaryEntry.error := Some (message reason) |}
  end.

Definition settledSkills (result : Settled AgentResult.t) : list Skill.t :=
  match result with
  | fulfilled value => skillsOf value
  | rejected _ => []
  end.

(** The result object of [main] for a tech stack and the array [results]. *)
Definition settledReport (h : Host) (ts : TechStack.t)
    (results : list (Settled AgentResult.t)) : MainResult.t :=
  {| MainResult.success := true;
     MainResult.report := {|
       Report.techStack := ts;
       Report.totalSkillsGenerated := length (concat (settledSkills <$> results));
       Report.agents := settledEntry <$> results;
       Report.timestamp := now h |};
     MainResult.skills := concat (settledSkills <$> results) |}.

(** The result object of [main] for a tech stack and the wrapper results in
    registration order, when every wrapper returned. *)
Definition reportOf (h : Host) (ts : TechStack.t) (rs : list AgentResult.t) : MainResult.t :=
  {| MainResult.success := true;
     MainResult.report := {|
       Report.techStack := ts;
       Report.totalSkillsGenerated := length (concat (skillsOf <$> rs));
       Report.agents := entryOf <$> rs;
       Report.timestamp := now h |};
     MainResult.skills := concat (skillsOf <$> rs) |}.

(** The names in [agentPromises]. *)
Definition registeredNames : list string := [
  "Security Analyzer"; "Performance Analyzer"; "React Analyzer";
  "Backend Analyzer"; "Frontend Analyzer"; "Database Analyzer";
  "API Analyzer"; "Testing Analyzer"; "DevOps Analyzer" ].

(** ** Hosts and collaborators of the examples *)

(** The rejection of [fs] for a path that does not exist. *)
Definition enoent : Error :=
  {| message := "ENOENT: no such file or directory";
     stack := "Error: ENOENT: no such file or directory" |}.

(** A workspace root that does not exist. *)
Definition missingRoot : Host := {|
  workspaceRoot := "/no/such/workspace";
  fs_readFile path := Throw enoent;
  fs_access path := Throw enoent;
  glob_files pattern ignore := Normal [];
  JSON_parse text := Throw (mkError "Unexpected end of JSON input" "SyntaxError");
  now := "2025-01-01T00:00:00.000Z"
|}.

(** The registered agents, with the task of the first one replaced by a
    task forced to fail: it throws [thrown]. *)
Definition forcedFailure : Error :=
  {| message := "forced failure"; stack := "Error: forced failure" |}.

Definition failing (thrown : Thrown) : Agent.t :=
  {| Agent.name := "Security Analyzer"; Agent.task := throw thrown |}.

Definition sabotagedWith (thrown : Thrown) (h : Host) (ts : TechStack.t) : list Agent.t :=
  <[0 := failing thrown]> (agentPromises h ts).

Definition quoted (s : string) : string := dquote +:+ s +:+ dquote.

(** A workspace with a Node ORM dependency and [sqlalchemy] in
    requirements.txt, and the tech stack built on it. *)
Definition ormPackageJson : string :=
  "{" +:+ quoted "dependencies" +:+ ":{" +:+ quoted "sequelize" +:+ ":"
  +:+ quoted "^6.37.0" +:+ "}}".

Definition twoOrms : Host := {|
  workspaceRoot := "/srv/app";
  fs_readFile path :=
    if decide (path = "package.json") then Normal ormPackageJson
    else if decide (path = "requirements.txt") then Normal "sqlalchemy==2.0.30"
    else Throw enoent;
  fs_access path :=
    if decide (path = "requirements.txt") then Normal () else Throw enoent;
  glob_files pattern ignore := Normal [];
  JSON_parse text :=
    if decide (text = ormPackageJson)
    then Normal (JObj [("dependencies", JObj [("sequelize", JStr "^6.37.0")])])
    else Throw (mkError "Unexpected token" "SyntaxError");
  now := "2025-01-01T00:00:00.000Z"
|}.

Definition twoOrmsStack : TechStack.t := {|
  TechStack.languages := ["JavaScript"; "Python"];
  TechStack.frameworks := [];
  TechStack.databases := ["SQL"; "SQL"];
  TechStack.buildTools := [];
  TechStack.packageManagers := ["npm"; "pip"];
  TechStack.cloudProviders := [];
  TechStack.hasReact := false;
  TechStack.hasTypeScript := false;
  TechStack.hasNode := true;
  TechStack.hasPython := true;
  TechStack.hasJava := false;
  TechStack.hasGo := false;
  TechStack.hasRust := false
|}.

(** Two components that both use [useState]. *)
Definition twoComponents : Host := {|
  workspaceRoot := "/srv/app";
  fs_readFile path :=
    if decide (path = "src/Counter.jsx") then Normal "const [n, setN] = useState(0);"
    else if decide (path = "src/Toggle.jsx") then Normal "const [on, setOn] = useState(false);"
    else Throw enoent;
  fs_access path := Throw enoent;
  glob_files pattern ignore := Normal ["src/Counter.jsx"; "src/Toggle.jsx"];
  JSON_parse text := Throw (mkError "Unexpected token" "SyntaxError");
  now := "2025-01-01T00:00:00.000Z"
|}.

(** ** The writes of the stack builder *)

(** A write to the tech stack: [techStack.a.push(v)] or
    [techStack.f = true]. *)
Inductive Action :=
| Push (a : TechStack.array) (v : string)
| SetFlag (f : TechStack.flag).

Global Instance Action_eq_dec : EqDecision Action.
Proof. solve_decision. Defined.

Definition perform (x : Action) (ts : TechStack.t) : TechStack.t :=
  match x with
  | Push a v => TechStack.push a v ts
  | SetFlag f => TechStack.set f ts
  end.

Definition performAll (acts : list Action) (ts : TechStack.t) : TechStack.t :=
  foldl (flip perform) ts acts.

(** [holds x ts]: the write [x] shows in [ts]. *)
Definition holds (x : Action) (ts : TechStack.t) : Prop :=
  match x with
  | Push a v => v ∈ TechStack.field a ts
  | SetFlag f => TechStack.flagOf f ts = true
  end.

(** The values the writes [acts] push on array [a]. *)
Definition pushedBy (a : TechStack.array) (acts : list Action) : list string :=
  omap (λ x, match x with
             | Push a' v => if decide (a' = a) then Some v else None
             | SetFlag _ => None
             end) acts.

(** [touches W s s']: [s'] is [s] after some of the blocks [W], in the order
    of [W], each block run whole.  A block is a run of assignments and
    pushes with no [await] and no test between them. *)
Definition touches (W : list (list Action)) (s s' : TechStack.t) : Prop :=
  ∃ w, w `sublist_of` W ∧ s' = performAll (concat w) s.

(** The blocks of each probe, in program order. *)
Definition nodeBlocks : list (list Action) := [
  [Push PackageManagers "npm"; SetFlag HasNode];
  [SetFlag HasReact; Push Frameworks "React"];
  [SetFlag HasTypeScript];
  [Push Frameworks "Next.js"]; [Push Frameworks "Vue.js"];
  [Push Frameworks "Angular"]; [Push Frameworks "Express"];
  [Push Frameworks "NestJS"]; [Push Frameworks "Fastify"]; [Push Frameworks "Koa"];
  [Push Databases "MongoDB"]; [Push Databases "SQL"]; [Push Databases "PostgreSQL"];
  [Push Databases "MySQL"]; [Push Databases "Redis"]; [Push Databases "Prisma"];
  [Push BuildTools "Webpack"]; [Push BuildTools "Vite"]; [Push BuildTools "Rollup"];
  [Push BuildTools "esbuild"];
  [Push Languages "JavaScript"];
  [Push Languages "TypeScript"] ].

Definition pythonBlocks : list (list Action) := [
  [SetFlag HasPython; Push Languages "Python"; Push PackageManagers "pip"];
  [Push Frameworks "Django"]; [Push Frameworks "Flask"]; [Push Frameworks "FastAPI"];
  [Push Databases "SQL"] ].

Definition mavenBlock : list Action :=
  [SetFlag HasJava; Push Languages "Java"; Push PackageManagers "Maven"].
Definition gradleBlock : list Action :=
  [SetFlag HasJava; Push Languages "Java"; Push PackageManagers "Gradle"].

Definition goBlocks : list (list Action) := [[SetFlag HasGo; Push Languages "Go"]].
Definition rustBlocks : list (list Action) := [[SetFlag HasRust; Push Languages "Rust"]].

Definition cloudBlocks : list (list Action) := [
  [Push CloudProviders "Vercel"]; [Push CloudProviders "Netlify"];
  [Push CloudProviders "AWS Lambda"]; [Push CloudProviders "GitHub Actions"] ].

Definition dockerBlocks : list (list Action) := [[Push BuildTools "Docker"]].
Definition kubernetesBlocks : list (list Action) := [[Push CloudProviders "Kubernetes"]].

(** The blocks of [analyzeTechStack] when the Java probe can run the blocks
    [java]. *)
Definition probeBlocks (java : list (list Action)) : list (list Action) :=
  nodeBlocks ++ pythonBlocks ++ java ++ goBlocks ++ rustBlocks
  ++ cloudBlocks ++ dockerBlocks ++ kubernetesBlocks.

(** What the host has for the probes: whether a path can be accessed, and
    the value [package.json] parses to, if it can be read and parsed. *)
Definition accessible (h : Host) (path : string) : bool :=
  match fs_access h path with
  | Normal _ => true
  | Throw _ => false
  end.

Definition packageJsonOf (h : Host) : option JSON :=
  match fs_readFile h "package.json" with
  | Normal content =>
      match JSON_parse h content with
      | Normal packageJson => Some packageJson
      | Throw _ => None
      end
  | Throw _ => None
  end.

(** [emits W m]: whatever [m] does, the calls it makes to the outside are
    some of [W], in the order of [W]. *)
Definition emits {S A} (W : list Event) (m : M S A) : Prop :=
  ∀ s, trace m s `sublist_of` W.

(** The calls of [analyzeTechStack] to the file system, in program order. *)
Definition probeCalls : list Event := [
  FsReadFile "package.json";
  FsAccess "requirements.txt"; FsReadFile "requirements.txt";
  FsAccess "pom.xml"; FsAccess "build.gradle";
  FsAccess "go.mod";
  FsAccess "Cargo.toml";
  GlobCall "**/{vercel.json,netlify.toml,serverless.yml,.github/workflows/*.yml}";
  FsAccess "Dockerfile";
  GlobCall "**/*.yaml" ].

(** The lines a computation wrote to the console. *)
Definition isConsole (ev : Event) : bool :=
  match ev with
  | ConsoleLog _ | ConsoleError _ => true
  | _ => false
  end.

(** ** Detection, skills and calls

    What the stack builder reads from the workspace, what the analyzers
    push, and the calls a run makes. *)

Definition touching {A} (W : list (list Action)) (m : M TechStack.t A) : Prop :=
  writes touches W m.

(** The block the Java probe runs when a build file is found: [pom.xml]
    is tried first. *)
Definition javaBlock (h : Host) : list Action :=
  if accessible h "pom.xml" then mavenBlock else gradleBlock.

(** The blocks under [if (packageJson.dependencies ||
    packageJson.devDependencies)]. *)
Definition dependencyBlocks : list (list Action) := [
  [SetFlag HasReact; Push Frameworks "React"];
  [SetFlag HasTypeScript];
  [Push Frameworks "Next.js"]; [Push Frameworks "Vue.js"];
  [Push Frameworks "Angular"]; [Push Frameworks "Express"];
  [Push Frameworks "NestJS"]; [Push Frameworks "Fastify"]; [Push Frameworks "Koa"];
  [Push Databases "MongoDB"]; [Push Databases "SQL"]; [Push Databases "PostgreSQL"];
  [Push Databases "MySQL"]; [Push Databases "Redis"]; [Push Databases "Prisma"];
  [Push BuildTools "Webpack"]; [Push BuildTools "Vite"]; [Push BuildTools "Rollup"];
  [Push BuildTools "esbuild"] ].

Definition isNull (value : JSON) : bool :=
  match value with
  | JNull => true
  | _ => false
  end.

(** The end of the Node probe: ['JavaScript'] is pushed, then ['TypeScript']
    if the flag is set. *)
Definition finishNode (ts : TechStack.t) : TechStack.t :=
  let ts' := perform (Push Languages "JavaScript") ts in
  if TechStack.hasTypeScript ts' then perform (Push Languages "TypeScript") ts' else ts'.

(** The writes of the Python probe once [requirements.txt] was accessed,
    for what reading it gives. *)
Definition pythonWrites (requirements : Completion string) : list Action :=
  [SetFlag HasPython; Push Languages "Python"; Push PackageManagers "pip"]
  ++ match requirements with
     | Normal content =>
         (if includes content "django" then [Push Frameworks "Django"] else [])
         ++ (if includes content "flask" then [Push Frameworks "Flask"] else [])
         ++ (if includes content "fastapi" then [Push Frameworks "FastAPI"] else [])
         ++ (if includes content "sqlalchemy" then [Push Databases "SQL"] else [])
     | Throw _ => []
     end.

(** The markers are found in [requirements.txt], which can be accessed and
    read. *)
Definition requirementsMention (h : Host) (marker : string) : Prop :=
  accessible h "requirements.txt" = true
  ∧ ∃ content, fs_readFile h "requirements.txt" = Normal content
               ∧ includes content marker = true.

(** [addsOnly P]: the array grows by skills that satisfy [P]. *)
Definition addsOnly (P : Skill.t → Prop) (_ : unit) (s s' : list Skill.t) : Prop :=
  ∃ extra, s' = s ++ extra ∧ Forall P extra.

(** [returnsOnly P m]: [m] returns, and returns skills that satisfy [P]. *)
Definition returnsOnly {S} (P : Skill.t → Prop) (m : M S (list Skill.t)) : Prop :=
  ∀ s, ∃ skills, result m s = Normal skills ∧ Forall P skills.

(** The category and the name of a skill, and a lower bound on the number
    of its guidelines. *)
Definition skillSpec (spec : string * string * nat) (skill : Skill.t) : Prop :=
  Skill.category skill = spec.1.1
  ∧ Skill.name skill = spec.1.2
  ∧ spec.2 ≤ length (Skill.guidelines skill).

(** What each registered analyzer pushes, in the order of [agentPromises]:
    the category, the name and the number of guidelines that do not depend
    on what was detected. *)
Definition registeredSkills : list (string * string * nat) := [
  ("security", "security-best-practices", 0);
  ("performance", "performance-optimization", 8);
  ("react", "react-best-practices", 15);
  ("backend", "backend-best-practices", 12);
  ("frontend", "frontend-best-practices", 19);
  ("database", "database-best-practices", 10);
  ("api", "api-best-practices", 13);
  ("testing", "testing-best-practices", 15);
  ("devops", "devops-best-practices", 16) ].

(** The path a skill is persisted under is derived from its category and
    name. *)
Definition skillKey (skill : Skill.t) : string * string :=
  (Skill.category skill, Skill.name skill).

(** What a scan makes of one file: the flags are updated from the content,
    or left as they are when the file cannot be read. *)
Definition scanFile {F} (h : Host) (step : string → F → F) (flags : F) (file : string) : F :=
  match fs_readFile h file with
  | Normal content => step content flags
  | Throw _ => flags
  end.

(** A tech stack on which the guards of the React and database analyzers
    pass. *)
Definition reactStack : TechStack.t := {|
  TechStack.languages := ["JavaScript"];
  TechStack.frameworks := ["React"];
  TechStack.databases := ["PostgreSQL"];
  TechStack.buildTools := [];
  TechStack.packageManagers := ["npm"];
  TechStack.cloudProviders := [];
  TechStack.hasReact := true;
  TechStack.hasTypeScript := false;
  TechStack.hasNode := true;
  TechStack.hasPython := false;
  TechStack.hasJava := false;
  TechStack.hasGo := false;
  TechStack.hasRust := false
|}.

(** The merged dependencies of [package.json], when it can be read, parses,
    and is not [null]. *)
Definition dependenciesOf (h : Host) : option (list (string * JSON)) :=
  match packageJsonOf h with
  | Some packageJson =>
      if isNull packageJson then None
      else Some (spread (optChain (Some packageJson) "dependencies")
                 ++ spread (optChain (Some packageJson) "devDependencies"))
  | None => None
  end.

(** The glob of [generateAPISkills] for API files. *)
Definition apiFilesOf (h : Host) : Completion (list string) :=
  glob_files h "**/*{api,route,endpoint,controller}*.{js,ts,py,java,go}"
    ["**/node_modules/**"; "**/dist/**"; "**/build/**"].

(** The glob of [generateDatabaseSkills] for database files. *)
Definition dbFilesOf (h : Host) : Completion (list string) :=
  glob_files h "**/*{model,schema,migration,db,database}*.{js,ts,py,java,go}"
    ["**/node_modules/**"; "**/dist/**"; "**/build/**"].

(** The guidelines [generateDatabaseSkills] pushes whatever the databases
    are. *)
Definition generalDatabaseGuidelines : list string := [
  "Always handle database errors gracefully";
  "Use connection pooling for better performance";
  "Implement proper logging for database operations";
  "Use database transactions for data consistency";
  "Backup databases regularly";
  "Monitor database performance and slow queries";
  "Use database indexes strategically";
  "Avoid storing sensitive data in plain text";
  "Implement proper data validation at the database level";
  "Use database constraints for data integrity" ].

(** The first call of each registered analyzer, and the label of the
    analyzer in its error message. *)
Definition firstGlobs : list (string * string) := [
  ("**/*{auth,login,security,oauth,jwt}*.{js,ts,jsx,tsx,py,java,go}", "security");
  ("**/*{db,database,model,query}*.{js,ts,jsx,tsx,py,java,go}", "performance");
  ("**/*.{jsx,tsx}", "React");
  ("**/*{server,api,route,controller,service}*.{js,ts,py,java,go}", "backend");
  ("**/*.{js,jsx,ts,tsx,css,scss,sass,less}", "frontend");
  ("**/*{model,schema,migration,db,database}*.{js,ts,py,java,go}", "database");
  ("**/*{api,route,endpoint,controller}*.{js,ts,py,java,go}", "API");
  ("**/*{test,spec}*.{js,ts,jsx,tsx,py,java,go}", "testing");
  ("**/.github/workflows/*.yml", "DevOps") ].

(** A workspace whose [package.json] lists the Prisma client, and the tech
    stack built on it. *)
Definition prismaPackageJson : string :=
  "{" +:+ quoted "dependencies" +:+ ":{" +:+ quoted "@prisma/client" +:+ ":"
  +:+ quoted "^5.14.0" +:+ "}}".

Definition prismaApp : Host := {|
  workspaceRoot := "/srv/app";
  fs_readFile path :=
    if decide (path = "package.json") then Normal prismaPackageJson else Throw enoent;
  fs_access path := Throw enoent;
  glob_files pattern ignore := Normal [];
  JSON_parse text :=
    if decide (text = prismaPackageJson)
    then Normal (JObj [("dependencies", JObj [("@prisma/client", JStr "^5.14.0")])])
    else Throw (mkError "Unexpected token" "SyntaxError");
  now := "2025-01-01T00:00:00.000Z"
|}.

Definition prismaStack : TechStack.t := {|
  TechStack.languages := ["JavaScript"];
  TechStack.frameworks := [];
  TechStack.databases := ["Prisma"];
  TechStack.buildTools := [];
  TechStack.packageManagers := ["npm"];
  TechStack.cloudProviders := [];
  TechStack.hasReact := false;
  TechStack.hasTypeScript := false;
  TechStack.hasNode := true;
  TechStack.hasPython := false;
  TechStack.hasJava := false;
  TechStack.hasGo := false;
  TechStack.hasRust := false
|}.

(** A file found by the glob of the cloud probe has [marker] in its path. *)
Definition cloudConfig (h : Host) (marker : string) : Prop :=
  ∃ files,
    glob_files h "**/{vercel.json,netlify.toml,serverless.yml,.github/workflows/*.yml}" []
    = Normal files
    ∧ existsb (λ f, includes f marker) files = true.

(** The writes of the cloud probe, for what its glob gives. *)
Definition cloudWrites (found : Completion (list string)) : list Action :=
  match found with
  | Normal files =>
      let some marker := existsb (λ f, includes f marker) files in
      (if some "vercel" then [Push CloudProviders "Vercel"] else [])
      ++ (if some "netlify" then [Push CloudProviders "Netlify"] else [])
      ++ (if some "serverless" then [Push CloudProviders "AWS Lambda"] else [])
      ++ (if some ".github/workflows" then [Push CloudProviders "GitHub Actions"] else [])
  | Throw _ => []
  end.

(** What the Node probe detects from the merged dependencies: the write,
    and the packages of which one must be listed. *)
Definition dependencyTable : list (Action * list string) := [
  (Push Frameworks "React", ["react"; "react-dom"]);
  (SetFlag HasReact, ["react"; "react-dom"]);
  (SetFlag HasTypeScript, ["typescript"]);
  (Push Frameworks "Next.js", ["next"]);
  (Push Frameworks "Vue.js", ["vue"]);
  (Push Frameworks "Angular", ["angular"]);
  (Push Frameworks "Express", ["express"]);
  (Push Frameworks "NestJS", ["@nestjs/core"]);
  (Push Frameworks "Fastify", ["fastify"]);
  (Push Frameworks "Koa", ["koa"]);
  (Push Databases "MongoDB", ["mongoose"]);
  (Push Databases "PostgreSQL", ["pg"; "pg-native"]);
  (Push Databases "MySQL", ["mysql"; "mysql2"]);
  (Push Databases "Redis", ["redis"]);
  (Push Databases "Prisma", ["@prisma/client"]);
  (Push BuildTools "Webpack", ["webpack"]);
  (Push BuildTools "Vite", ["vite"]);
  (Push BuildTools "Rollup", ["rollup"]);
  (Push BuildTools "esbuild", ["esbuild"]) ].

(** One of [keys] is a dependency of [package.json], with a truthy
    value. *)
Definition listed (h : Host) (keys : list string) : Prop :=
  ∃ deps, dependenciesOf h = Some deps ∧ existsb (has deps) keys = true.

(** The calls to the file system among the events of a computation. *)
Definition fsCalls (t : list Event) : nat :=
  length (filter (λ ev, isConsole ev = false) t).

(** [costs n m]: whatever [m] does, it makes at most [n] calls to the file
    system. *)
Definition costs {S A} (n : nat) (m : M S A) : Prop :=
  ∀ s, fsCalls (trace m s) ≤ n.

(** The calls each registered analyzer can make, in the order of
    [agentPromises]: its globs, the files its scans read within their caps,
    its reads of package.json and requirements.txt, its accesses. *)
Definition analyzerCalls : list nat := [
  5 + 10;       (* security: five globs, the env-var scan *)
  3 + 20;       (* performance: three globs, the async-pattern scan *)
  2 + 30 + 10;  (* React: two globs, the hooks and state-management scans *)
  3;            (* backend: three globs *)
  2 + 2;        (* frontend: two globs, package.json twice *)
  1 + 1 + 1;    (* database: one glob, package.json, requirements.txt *)
  1 + 20 + 1;   (* API: one glob, the API scan, package.json *)
  1 + 1 + 1;    (* testing: one glob, package.json, requirements.txt *)
  4 + 3         (* DevOps: four globs, three accesses *) ].

(** * Reasoning about computations *)

Ltac unfold_run := unfold total, pure, result, store, trace, run in *.

Ltac destruct_run m s :=
  let r := fresh "r" in let s1 := fresh "s" in let t := fresh "t" in
  let E := fresh "E" in
  destruct (m s) as [[r s1] t] eqn:E; simpl in *.

Section Rules.
Context {S : Type}.
Implicit Types (s : S).

Lemma run_bind {A B} (m : M S A) (k : A → M S B) s :
  run (bind m k) s =
    match run m s with
    | (Normal a, s1, t1) => let '(r, s2, t2) := run (k a) s1 in (r, s2, t1 ++ t2)
    | (Throw e, s1, t1) => (Throw e, s1, t1)
    end.
Proof. reflexivity. Qed.

Lemma run_bind_normal {A B} (m : M S A) (k : A → M S B) s a s1 t1 :
  run m s = (Normal a, s1, t1) →
  run (bind m k) s = let '(r, s2, t2) := run (k a) s1 in (r, s2, t1 ++ t2).
Proof. intros E. rewrite run_bind, E. reflexivity. Qed.

Lemma run_bind_throw {A B} (m : M S A) (k : A → M S B) s e s1 t1 :
  run m s = (Throw e, s1, t1) → run (bind m k) s = (Throw e, s1, t1).
Proof. intros E. rewrite run_bind, E. reflexivity. Qed.

Lemma run_try_catch_normal {A} (body : M S A) handler s a s1 t1 :
  run body s = (Normal a, s1, t1) → run (try_catch body handler) s = (Normal a, s1, t1).
Proof. unfold run, try_catch. intros ->. reflexivity. Qed.

Lemma run_try_catch_throw {A} (body : M S A) handler s e s1 t1 :
  run body s = (Throw e, s1, t1) →
  run (try_catch body handler) s =
    let '(r, s2, t2) := run (handler e) s1 in (r, s2, t1 ++ t2).
Proof. unfold run, try_catch. intros ->. reflexivity. Qed.

(** *** Computations that never throw *)

Lemma total_ret {A} (a : A) : total (ret (S:=S) a).
Proof. intros s. by exists a. Qed.

Lemma total_get : total (get (S:=S)).
Proof. intros s. by exists s. Qed.

Lemma total_modify f : total (modify (S:=S) f).
Proof. intros s. by exists tt. Qed.

Lemma total_info msg : total (info (S:=S) msg).
Proof. intros s. by exists tt. Qed.

Lemma total_error msg : total (error (S:=S) msg).
Proof. intros s. by exists tt. Qed.

Lemma total_bind {A B} (m : M S A) (k : A → M S B) :
  total m → (∀ a, total (k a)) → total (bind m k).
Proof.
  intros Hm Hk s. destruct (Hm s) as [a Ha]. unfold_run. unfold bind.
  destruct_run m s. subst r. destruct (Hk a s0) as [b Hb].
  destruct_run (k a) s0. by exists b.
Qed.

Lemma total_try_catch {A} (body : M S A) handler :
  (∀ e, total (handler e)) → total (try_catch body handler).
Proof.
  intros Hh s. unfold_run. unfold try_catch. destruct_run body s.
  destruct r as [a|e]; [by exists a|].
  destruct (Hh e s0) as [b Hb]. destruct_run (handler e) s0. by exists b.
Qed.

Lemma total_when b (m : M S unit) : total m → total (when b m).
Proof. destruct b; [done|]. intros _. apply total_ret. Qed.

Lemma total_locally {S' A} (init : S') (m : M S' A) :
  total m → total (locally (S':=S) init m).
Proof.
  intros Hm s. destruct (Hm init) as [a Ha]. unfold_run. unfold locally.
  destruct_run m init. by exists a.
Qed.

(** *** Computations that leave the store alone *)

Lemma pure_ret {A} (a : A) : pure (ret (S:=S) a).
Proof. done. Qed.

Lemma pure_get : pure (get (S:=S)).
Proof. done. Qed.

Lemma pure_throw {A} e : pure (throw (S:=S) (A:=A) e).
Proof. done. Qed.

Lemma pure_complete {A} (c : Completion A) : pure (complete (S:=S) c).
Proof. done. Qed.

Lemma pure_call {A} ev (c : Completion A) : pure (call (S:=S) ev c).
Proof. done. Qed.

Lemma pure_bind {A B} (m : M S A) (k : A → M S B) :
  pure m → (∀ a, pure (k a)) → pure (bind m k).
Proof.
  intros Hm Hk s. specialize (Hm s). unfold_run. unfold bind.
  destruct_run m s. subst s0. destruct r as [a|e]; [|done].
  specialize (Hk a s). destruct_run (k a) s. done.
Qed.

Lemma pure_try_catch {A} (body : M S A) handler :
  pure body → (∀ e, pure (handler e)) → pure (try_catch body handler).
Proof.
  intros Hm Hk s. specialize (Hm s). unfold_run. unfold try_catch.
  destruct_run body s. subst s0. destruct r as [a|e]; [done|].
  specialize (Hk e s). destruct_run (handler e) s. done.
Qed.

Lemma pure_when b (m : M S unit) : pure m → pure (when b m).
Proof. by destruct b. Qed.

Lemma pure_locally {S' A} (init : S') (m : M S' A) : pure (locally (S':=S) init m).
Proof. intros s. unfold_run. unfold locally. by destruct_run m init. Qed.

(** *** The result of a function that returns its local object *)

Lemma returnsStore_get : returnsStore (get (S:=S)).
Proof. intros s a. unfold_run. unfold get. simpl. congruence. Qed.

Lemma returnsStore_bind {A} (m : M S A) (k : A → M S S) :
  (∀ a, returnsStore (k a)) → returnsStore (bind m k).
Proof.
  intros Hk s b. unfold returnsStore in Hk. unfold_run. unfold bind.
  destruct_run m s. destruct r as [a|e]; [|done].
  specialize (Hk a s0 b). by destruct_run (k a) s0.
Qed.

Lemma locally_get {S' A} (init : S') (m : M S' A) s :
  total m →
  run (locally init (m ;; get)) s = (Normal (store m init), s, trace m init).
Proof.
  intros Hm. destruct (Hm init) as [a Ha]. unfold_run. unfold locally, bind, get.
  destruct_run m init. subst r. by rewrite app_nil_r.
Qed.
End Rules.

Create HintDb total.
Create HintDb pure.
Global Hint Resolve total_ret total_get total_modify total_info total_error
  total_bind total_try_catch total_when total_locally : total.
Global Hint Resolve pure_ret pure_get pure_throw pure_complete pure_call
  pure_bind pure_try_catch pure_when pure_locally : pure.

(** *** What a computation may write

    [R w s s'] reads: a store [s] may become [s'] under the budget [w].
    Budgets compose with [op] along the sequence of a program, and every
    budget allows doing nothing, so that a computation which throws midway
    stays within the budget of the whole. *)
Section Writes.
Context {S W : Type} (R : W → S → S → Prop) (ε : W) (op : W → W → W).
Hypothesis R_skip : ∀ w s, R w s s.
Hypothesis R_seq : ∀ w1 w2 s1 s2 s3, R w1 s1 s2 → R w2 s2 s3 → R (op w1 w2) s1 s3.

Lemma writes_pure {A} w (m : M S A) : pure m → writes R w m.
Proof using All. intros Hm s. rewrite Hm. apply R_skip. Qed.

Lemma writes_nothing {A} (m : M S A) : pure m → writes R ε m.
Proof using All. apply writes_pure. Qed.

Lemma writes_modify w f : (∀ s, R w s (f s)) → writes R w (modify f).
Proof using All. intros Hf s. apply Hf. Qed.

Lemma writes_bind {A B} w1 w2 (m : M S A) (k : A → M S B) :
  writes R w1 m → (∀ a, writes R w2 (k a)) → writes R (op w1 w2) (bind m k).
Proof using All.
  intros Hm Hk s. specialize (Hm s). unfold writes in Hk. unfold_run. unfold bind.
  destruct_run m s. destruct r as [a|e]; simpl.
  - specialize (Hk a s0). destruct_run (k a) s0. eauto.
  - eauto.
Qed.

Lemma writes_bind_pure {A B} w (m : M S A) (k : A → M S B) :
  pure m → (∀ a, writes R w (k a)) → writes R w (bind m k).
Proof using All.
  intros Hm Hk s. specialize (Hm s). unfold writes in Hk. unfold_run. unfold bind.
  destruct_run m s. subst s0. destruct r as [a|e]; simpl; [|done].
  specialize (Hk a s). by destruct_run (k a) s.
Qed.

Lemma writes_then_pure {A B} w (m : M S A) (k : A → M S B) :
  writes R w m → (∀ a, pure (k a)) → writes R w (bind m k).
Proof using All.
  intros Hm Hk s. specialize (Hm s). unfold_run. unfold bind.
  destruct_run m s. destruct r as [a|e]; simpl; [|done].
  specialize (Hk a s0). destruct_run (k a) s0. by subst.
Qed.

Lemma writes_try_catch {A} w1 w2 (body : M S A) handler :
  writes R w1 body → (∀ e, writes R w2 (handler e)) →
  writes R (op w1 w2) (try_catch body handler).
Proof using All.
  intros Hm Hk s. specialize (Hm s). unfold writes in Hk. unfold_run. unfold try_catch.
  destruct_run body s. destruct r as [a|e]; simpl.
  - eauto.
  - specialize (Hk e s0). destruct_run (handler e) s0. eauto.
Qed.

Lemma writes_try_catch_pure {A} w (body : M S A) handler :
  writes R w body → (∀ e, pure (handler e)) → writes R w (try_catch body handler).
Proof using All.
  intros Hm Hk s. specialize (Hm s). unfold_run. unfold try_catch.
  destruct_run body s. destruct r as [a|e]; simpl; [done|].
  specialize (Hk e s0). destruct_run (handler e) s0. by subst.
Qed.

Lemma writes_when w b (m : M S unit) : writes R w m → writes R w (when b m).
Proof using All. destruct b; [done|]. intros _ s. apply R_skip. Qed.

Lemma writes_if {A} w (b : bool) (m1 m2 : M S A) :
  writes R w m1 → writes R w m2 → writes R w (if b then m1 else m2).
Proof using All. by destruct b. Qed.
End Writes.

Section HostRules.
Context {S : Type} (h : Host).

Lemma pure_info msg : pure (info (S:=S) msg).
Proof. apply pure_call. Qed.

Lemma pure_error msg : pure (error (S:=S) msg).
Proof. apply pure_call. Qed.

Lemma pure_readFile path : pure (readFile (S:=S) h path).
Proof. apply pure_call. Qed.

Lemma pure_access path : pure (access (S:=S) h path).
Proof. apply pure_call. Qed.

Lemma pure_glob pattern ignore : pure (glob (S:=S) h pattern ignore).
Proof. apply pure_call. Qed.

Lemma pure_readPackageJson : pure (readPackageJson (S:=S) h).
Proof. apply pure_bind; [apply pure_readFile|]. intros. apply pure_complete. Qed.

Lemma pure_member value k : pure (member (S:=S) value k).
Proof. destruct value; simpl; auto with pure. Qed.

Lemma pure_mergedDeps packageJson : pure (mergedDeps (S:=S) packageJson).
Proof. repeat (apply pure_bind; [apply pure_member|]; intros). apply pure_ret. Qed.

Lemma pure_scanAll {F} files (step : string → F → F) flags :
  pure (scanAll (S:=S) h files step flags).
Proof.
  revert flags. induction files as [|file rest IH]; intros flags; simpl.
  - apply pure_ret.
  - apply pure_bind; [|done].
    apply pure_try_catch; [|auto with pure].
    apply pure_bind; [apply pure_readFile|auto with pure].
Qed.

Lemma pure_scanUntil files test : pure (scanUntil (S:=S) h files test).
Proof.
  induction files as [|file rest IH]; simpl.
  - apply pure_ret.
  - apply pure_bind.
    + apply pure_try_catch; [|auto with pure].
      apply pure_bind; [apply pure_readFile|auto with pure].
    + intros []; [apply pure_ret|done].
Qed.
End HostRules.

Global Hint Resolve pure_info pure_error pure_readFile pure_access pure_glob
  pure_readPackageJson pure_member pure_mergedDeps pure_scanAll pure_scanUntil : pure.

(** * The stack builder *)

Lemma pushed_app a w1 w2 : pushed a (w1 ++ w2) = pushed a w1 ++ pushed a w2.
Proof. apply omap_app. Qed.

Lemma pushed_sublist a w W : w `sublist_of` W → pushed a w `sublist_of` pushed a W.
Proof.
  induction 1 as [|x l1 l2 _ IH|x l1 l2 _ IH]; simpl; [done| |].
  - unfold pushed in *. simpl. destruct (decide (x.1 = a)); [by constructor|done].
  - unfold pushed in *. simpl. destruct (decide (x.1 = a)); [by constructor|done].
Qed.

Lemma extends_skip W s : extends W s s.
Proof. exists []. split; [apply sublist_nil_l|]. intros a. by rewrite app_nil_r. Qed.

Lemma extends_seq W1 W2 s1 s2 s3 :
  extends W1 s1 s2 → extends W2 s2 s3 → extends (W1 ++ W2) s1 s3.
Proof.
  intros (w1 & Hw1 & H1) (w2 & Hw2 & H2). exists (w1 ++ w2). split.
  - by apply sublist_app.
  - intros a. by rewrite H2, H1, pushed_app, (assoc_L (++)).
Qed.

Lemma extends_weaken W W' s s' : W `sublist_of` W' → extends W s s' → extends W' s s'.
Proof. intros HW (w & Hw & H). exists w. split; [by etrans|done]. Qed.

Lemma pushes_weaken {A} W W' (m : M TechStack.t A) :
  pushes W m → W `sublist_of` W' → pushes W' m.
Proof. intros Hm HW s. eapply extends_weaken; [done|apply Hm]. Qed.

Lemma pushes_push a v : pushes [(a, v)] (push a v).
Proof.
  apply (writes_modify extends [] app extends_skip extends_seq). intros s. exists [(a, v)]. split; [done|].
  intros a'. unfold pushed. simpl. destruct a, a'; simpl; by rewrite ?app_nil_r.
Qed.

Lemma pushes_setFlag f : pushes [] (setFlag f).
Proof.
  apply (writes_modify extends [] app extends_skip extends_seq). intros s. exists []. split; [done|].
  intros a. simpl. rewrite app_nil_r. by destruct a.
Qed.

(** One step of the derivation of the pushes of a block of statements. *)
Ltac pushes_step :=
  first
    [ apply pushes_push
    | apply pushes_setFlag
    | eapply (writes_bind extends [] app extends_skip extends_seq)
    | eapply (writes_try_catch extends [] app extends_skip extends_seq)
    | eapply (writes_when extends [] app extends_skip extends_seq)
    | apply (writes_nothing extends [] app extends_skip extends_seq); solve [auto 10 with pure] ];
  intros.

Section StackBuilder.
Context (h : Host).

Lemma probes_total : total (probes h).
Proof.
  unfold probes, detectNode, detectPython, detectJava, detectGo, detectRust,
    detectCloud, detectDocker, detectKubernetes.
  repeat (apply total_bind; [|intros]);
    repeat (apply total_try_catch; intros); auto with total.
Qed.

Lemma probes_pushes : pushes pushSites (probes h).
Proof.
  eapply pushes_weaken.
  - unfold probes, detectNode, detectPython, detectJava, detectGo, detectRust,
      detectCloud, detectDocker, detectKubernetes.
    repeat pushes_step.
  - simpl. reflexivity.
Qed.

(** [analyzeTechStack] returns, on every host, the object its probes
    built. *)
Lemma analyzeTechStack_run {S} (s : S) :
  run (analyzeTechStack h) s =
    (Normal (store (probes h) TechStack.empty), s, trace (probes h) TechStack.empty).
Proof.
  destruct (probes_total TechStack.empty) as [ts Hts].
  assert (returnsStore (probes h)) as Hret.
  { unfold probes. repeat (apply returnsStore_bind; intros). apply returnsStore_get. }
  apply Hret in Hts as Hstore. revert Hts Hstore.
  unfold analyzeTechStack, locally, try_catch. unfold_run.
  destruct_run (probes h) TechStack.empty. by intros -> ->.
Qed.
End StackBuilder.

Section StackBuilderFacts.
Context (h : Host).

(** The arrays of the tech stack hold values of [pushSites], each site
    used at most once, in program order. *)
Lemma analyzeTechStack_pushes :
  ∃ ts w, result (analyzeTechStack h) () = Normal ts
          ∧ w `sublist_of` pushSites
          ∧ ∀ a, TechStack.field a ts = pushed a w.
Proof.
  destruct (probes_pushes h TechStack.empty) as (w & Hw & Hfields).
  exists (store (probes h) TechStack.empty), w.
  split; [|split; [done|]].
  - unfold result. by rewrite analyzeTechStack_run.
  - intros a. rewrite Hfields. by destruct a.
Qed.

Lemma analyzeTechStack_field_sublist a ts :
  result (analyzeTechStack h) () = Normal ts →
  TechStack.field a ts `sublist_of` pushed a pushSites.
Proof.
  destruct analyzeTechStack_pushes as (ts' & w & E & Hw & Hfields).
  rewrite E. intros [= <-]. rewrite Hfields. by apply pushed_sublist.
Qed.
End StackBuilderFacts.

Lemma occurrences_sublist x l k :
  l `sublist_of` k → occurrences x l ≤ occurrences x k.
Proof.
  intros H. apply sublist_length.
  induction H as [|y l1 l2 _ IH|y l1 l2 _ IH]; [done| |].
  - rewrite !filter_cons. destruct (decide (y = x)); [by constructor|done].
  - rewrite filter_cons. destruct (decide (y = x)); [by constructor|done].
Qed.

Section Rules2.
Context {S : Type}.

(** [bind] of a pure computation, when the continuation is pure on the
    values the computation can return. *)
Lemma pure_bind_result {A B} (m : M S A) (k : A → M S B) :
  pure m → (∀ s a, result m s = Normal a → pure (k a)) → pure (bind m k).
Proof.
  intros Hm Hk s. specialize (Hm s). specialize (Hk s). unfold_run. unfold bind.
  destruct_run m s. subst s0. destruct r as [a|e]; [|done].
  specialize (Hk a eq_refl s). by destruct_run (k a) s.
Qed.
End Rules2.

Section MissingRoot.
Context (h : Host) (Hmissing : rootMissing h).

Lemma missing_readFile {S B} path (k : string → M S B) :
  pure (bind (readFile h path) k).
Proof.
  apply pure_bind_result; [apply pure_readFile|].
  intros s a. destruct Hmissing as (Hr & _ & _). destruct (Hr path) as [e He].
  unfold result, run, readFile, call. simpl. by rewrite He.
Qed.

Lemma missing_access {S B} path (k : unit → M S B) :
  pure (bind (access h path) k).
Proof.
  apply pure_bind_result; [apply pure_access|].
  intros s a. destruct Hmissing as (_ & Ha & _). destruct (Ha path) as [e He].
  unfold result, run, access, call. simpl. by rewrite He.
Qed.

Lemma missing_glob {S B} pattern ignore (k : list string → M S B) :
  pure (k []) → pure (bind (glob h pattern ignore) k).
Proof.
  intros Hk. apply pure_bind_result; [apply pure_glob|].
  intros s a. destruct Hmissing as (_ & _ & Hg).
  unfold result, run, glob, call. simpl.
  destruct (Hg pattern ignore) as [->|[e ->]]; [|done]. by intros [= <-].
Qed.

Lemma missing_probes_pure : pure (probes h).
Proof.
  unfold probes.
  repeat (apply pure_bind; [|intros]); [..|apply pure_get];
    repeat (apply pure_try_catch; [|intros; try apply pure_ret]).
  - unfold readPackageJson. intros s. unfold_run.
    destruct Hmissing as (Hr & _ & _). destruct (Hr "package.json") as [e He].
    unfold bind, readFile, call. by rewrite He.
  - apply missing_access.
  - apply missing_access.
  - apply missing_access.
  - apply missing_access.
  - apply missing_access.
  - apply missing_glob. simpl. auto 10 with pure.
  - apply missing_access.
  - apply missing_glob. simpl. auto with pure.
Qed.

(** On a missing root the stack builder returns the object it started
    from. *)
Lemma missing_analyzeTechStack :
  result (analyzeTechStack h) () = Normal TechStack.empty.
Proof.
  unfold result. rewrite analyzeTechStack_run. simpl.
  by rewrite missing_probes_pure.
Qed.
End MissingRoot.

(** * The analyzers *)

Lemma atMost_skip n s : atMost n s s.
Proof. exists []. rewrite app_nil_r. split; [done|simpl; lia]. Qed.

Lemma atMost_seq n1 n2 s1 s2 s3 :
  atMost n1 s1 s2 → atMost n2 s2 s3 → atMost (n1 + n2) s1 s3.
Proof.
  intros (x1 & -> & H1) (x2 & -> & H2). exists (x1 ++ x2).
  rewrite (assoc_L (++)), length_app. split; [done|lia].
Qed.

Lemma atMost_pushSkill skill : writes atMost 1 (pushSkill skill).
Proof. apply (writes_modify atMost 0 Nat.add atMost_skip atMost_seq). intros s. by exists [skill]. Qed.

Section AnalyzerShape.
Context {S : Type}.

(** The common shape: [const skills = []; try { body } catch (error) {
    logger.error(...) } return skills;]. *)
Lemma analyzer_shape (body : M (list Skill.t) unit) (msg : Error → string) :
  writes atMost 1 body →
  returnsAtMostOne (S:=S) (locally [] (try_catch body (λ e, error (msg e)) ;; get)).
Proof.
  intros Hbody s.
  assert (total (try_catch body (λ e, error (msg e)))) as Htotal
    by (apply total_try_catch; intros; apply total_error).
  assert (writes atMost 1 (try_catch body (λ e, error (msg e)))) as Hgrows
    by (apply (writes_try_catch_pure atMost 0 Nat.add atMost_skip atMost_seq);
        [done|intros; apply pure_error]).
  destruct (Hgrows []) as (extra & Hstore & Hlen).
  exists (store (try_catch body (λ e, error (msg e))) []).
  unfold result, store at 2. rewrite (locally_get _ _ _ Htotal). simpl.
  split; [done|split; [done|]]. by rewrite Hstore.
Qed.

(** The guard in front of the [try]: [if (c) { logger.info(...); return
    skills; }]. *)
Lemma analyzer_guard (c : bool) note (m : M (list Skill.t) (list Skill.t)) :
  returnsAtMostOne (S:=S) (locally [] m) →
  returnsAtMostOne (S:=S) (locally [] (if c then info note;; get else m)).
Proof.
  intros Hm. destruct c; [|done]. intros s. exists []. simpl. split; [done|]. split; [done|lia].
Qed.

(** When the first call of the [try] block throws, the array is returned
    empty. *)
Lemma analyzer_first_call_throws {A} (first : M (list Skill.t) A) k handler e t s :
  (∀ s', run first s' = (Throw e, s', t)) →
  (∀ e s', ∃ t', run (handler e) s' = (Normal (), s', t')) →
  result (locally (S':=S) [] (try_catch (bind first k) handler ;; get)) s = Normal [].
Proof.
  intros Hfirst Hhandler. destruct (Hhandler e []) as [t' Ht'].
  unfold result, run, locally, bind at 1, try_catch, bind at 1.
  unfold run in Hfirst, Ht'. by rewrite Hfirst, Ht'.
Qed.
End AnalyzerShape.

Section AnalyzerFacts.
Context {S : Type} (h : Host) (techStack : TechStack.t).

Lemma pure_scanApiFiles files : pure (scanApiFiles (S:=S) h files).
Proof. apply pure_scanAll. Qed.
Lemma pure_scanHooks files : pure (scanHooks (S:=S) h files).
Proof. apply pure_scanAll. Qed.
Lemma pure_scanStateManagement files : pure (scanStateManagement (S:=S) h files).
Proof. apply pure_scanAll. Qed.
Lemma pure_scanAsyncPatterns files : pure (scanAsyncPatterns (S:=S) h files).
Proof. apply pure_scanUntil. Qed.
Lemma pure_scanEnvUsage files : pure (scanEnvUsage (S:=S) h files).
Proof. apply pure_scanUntil. Qed.
End AnalyzerFacts.

Global Hint Resolve pure_scanApiFiles pure_scanHooks pure_scanStateManagement
  pure_scanAsyncPatterns pure_scanEnvUsage : pure.

(** One step through the [try] block of an analyzer: the probing is pure,
    then one skill is pushed and the result is logged. *)
Ltac grows_step :=
  match goal with
  | |- writes _ _ (bind (pushSkill _) _) =>
      apply (writes_then_pure atMost 0 Nat.add atMost_skip atMost_seq); [apply atMost_pushSkill|intros; auto with pure]
  | |- writes _ _ (bind _ _) =>
      apply (writes_bind_pure atMost 0 Nat.add atMost_skip atMost_seq); [solve [auto 10 with pure]|intros]
  | |- writes _ _ (match ?p with _ => _ end) => destruct p
  | |- writes _ _ _ => apply (writes_pure atMost 0 Nat.add atMost_skip atMost_seq); solve [auto 10 with pure]
  | |- writes _ _ _ => progress cbv zeta
  end.

Ltac analyzer_tac :=
  repeat lazymatch goal with
  | |- returnsAtMostOne (locally [] (if _ then _ else _)) => apply analyzer_guard
  | |- returnsAtMostOne (locally [] _) => apply analyzer_shape
  end;
  repeat grows_step.

Section AnalyzersReturn.
Context {S : Type} (h : Host) (techStack : TechStack.t).

Lemma generateSecuritySkills_returns :
  returnsAtMostOne (generateSecuritySkills (S:=S) h techStack).
Proof. unfold generateSecuritySkills. analyzer_tac. Qed.

Lemma generatePerformanceSkills_returns :
  returnsAtMostOne (generatePerformanceSkills (S:=S) h techStack).
Proof. unfold generatePerformanceSkills. analyzer_tac. Qed.

Lemma generateReactSkills_returns :
  returnsAtMostOne (generateReactSkills (S:=S) h techStack).
Proof. unfold generateReactSkills. analyzer_tac. Qed.

Lemma generateBackendSkills_returns :
  returnsAtMostOne (generateBackendSkills (S:=S) h techStack).
Proof. unfold generateBackendSkills. analyzer_tac. Qed.

Lemma generateFrontendSkills_returns :
  returnsAtMostOne (generateFrontendSkills (S:=S) h techStack).
Proof. unfold generateFrontendSkills. analyzer_tac. Qed.

Lemma generateDatabaseSkills_returns :
  returnsAtMostOne (generateDatabaseSkills (S:=S) h techStack).
Proof. unfold generateDatabaseSkills. analyzer_tac. Qed.

Lemma generateAPISkills_returns :
  returnsAtMostOne (generateAPISkills (S:=S) h techStack).
Proof. unfold generateAPISkills. analyzer_tac. Qed.

Lemma generateTestingSkills_returns :
  returnsAtMostOne (generateTestingSkills (S:=S) h techStack).
Proof. unfold generateTestingSkills. analyzer_tac. Qed.

Lemma generateDevOpsSkills_returns :
  returnsAtMostOne (generateDevOpsSkills (S:=S) h techStack).
Proof. unfold generateDevOpsSkills. analyzer_tac. Qed.
End AnalyzersReturn.

(** * The orchestrator *)

Global Instance indexBefore_trans {A} : Transitive (@indexBefore A).
Proof. intros x y z. unfold indexBefore. lia. Qed.
Global Instance indexBefore_total {A} : Total (@indexBefore A).
Proof. intros x y. unfold indexBefore. lia. Qed.

Global Instance settlesBefore_trans {A} latency : Transitive (@settlesBefore A latency).
Proof. intros x y z. unfold settlesBefore. lia. Qed.
Global Instance settlesBefore_total {A} latency : Total (@settlesBefore A latency).
Proof. intros x y. unfold settlesBefore. lia. Qed.

(** The scheduler is complete: every order in which the promises can
    complete is the completion order of some [latency], namely the position
    of each promise in that order. *)
Section Scheduler.
Context {A : Type}.
Implicit Types (promises : list A) (order : list (nat * A)).

Lemma indexed_NoDup promises : NoDup (imap (λ i p, (i, p)) promises).*1.
Proof.
  rewrite fmap_imap.
  rewrite (imap_ext _ (λ i _, i) promises) by done.
  rewrite (imap_seq_0 promises (λ i, i)), list_fmap_id. apply NoDup_seq.
Qed.

Lemma positionIn_lookup order k x :
  NoDup order.*1 → order !! k = Some x → positionIn order x.1 = k.
Proof.
  intros Hnodup Hk. unfold positionIn.
  assert (list_find (λ y, y.1 = x.1) order = Some (k, x)) as ->; [|done].
  apply list_find_Some. split_and!; [done..|].
  intros j y Hj Hlt Heq.
  assert (j = k); [|lia].
  eapply NoDup_lookup; [done| |]; rewrite list_lookup_fmap.
  - by rewrite Hj.
  - by rewrite Hk, Heq.
Qed.

Lemma sorted_by_offset order latency n :
  (∀ k x, order !! k = Some x → latency x.1 = n + k) →
  StronglySorted (settlesBefore latency) order.
Proof.
  revert n. induction order as [|x order IH]; intros n Hpos; constructor.
  - apply (IH (n + 1)). intros k y Hy. rewrite (Hpos (k + 1) y); [lia|].
    by rewrite Nat.add_1_r.
  - apply Forall_forall. intros y [k Hy]%list_elem_of_lookup_1.
    unfold settlesBefore. rewrite (Hpos 0 x eq_refl).
    rewrite (Hpos (k + 1) y); [lia|]. by rewrite Nat.add_1_r.
Qed.

Lemma order_sorted_by_position order :
  NoDup order.*1 → StronglySorted (settlesBefore (positionIn order)) order.
Proof.
  intros Hnodup. apply (sorted_by_offset order _ 0).
  intros k x Hk. by apply positionIn_lookup.
Qed.

Lemma every_order_is_scheduled promises order :
  order ≡ₚ imap (λ i p, (i, p)) promises →
  completionOrder (positionIn order) promises = order.
Proof.
  intros Hperm.
  assert (NoDup order.*1) as Hnodup by (rewrite Hperm; apply indexed_NoDup).
  apply (StronglySorted_unique_strong (settlesBefore (positionIn order))).
  - intros x1 x2 H1 H2 H12 H21.
    unfold completionOrder in H1. rewrite merge_sort_Permutation, <-Hperm in H1.
    apply list_elem_of_lookup_1 in H1 as [k1 H1].
    apply list_elem_of_lookup_1 in H2 as [k2 H2].
    unfold settlesBefore in *.
    rewrite (positionIn_lookup order k1 x1), (positionIn_lookup order k2 x2) in * by done.
    assert (k1 = k2) as -> by lia. congruence.
  - apply StronglySorted_merge_sort; apply _.
  - by apply order_sorted_by_position.
  - unfold completionOrder. by rewrite merge_sort_Permutation.
Qed.
End Scheduler.

Section AllSettled.
Context {S A : Type}.
Implicit Types (promises : list (M S A)) (s : S).

Lemma settle_detached (p : M S A) s :
  detached p → ∃ t, run (settle p) s = (Normal (settledOf (result p s)), s, t).
Proof.
  intros (r & t & Hp). exists t. unfold result, run, settle in *.
  rewrite Hp. by destruct r.
Qed.

(** Settling detached promises in any order computes, for each, the
    result it would have on its own. *)
Lemma mapM_settle (order : list (nat * M S A)) s :
  Forall (λ x, detached x.2) order →
  ∃ t, run (mapM (λ '(i, p), r ← settle p; ret (i, r)) order) s
       = (Normal ((λ x, (x.1, settledOf (result x.2 s))) <$> order), s, t).
Proof.
  induction 1 as [|[i p] order Hp _ [t IH]]; simpl.
  - by exists [].
  - destruct (settle_detached p s Hp) as [t1 E1].
    exists ((t1 ++ []) ++ t ++ []).
    rewrite (run_bind_normal _ _ _ (i, settledOf (result p s)) s (t1 ++ [])); last first.
    { by rewrite (run_bind_normal _ _ _ _ _ _ E1). }
    by rewrite (run_bind_normal _ _ _ _ _ _ IH).
Qed.

Lemma indexed_sorted {B C} (g : C → B) (l : list C) n :
  StronglySorted indexBefore (imap (λ i x, (n + i, g x)) l).
Proof.
  revert n. induction l as [|x l IH]; intros n; simpl; constructor.
  - erewrite imap_ext; [apply (IH (n + 1))|]. intros i y _. simpl. f_equal. lia.
  - apply Forall_forall. intros y (i & z & -> & _)%elem_of_lookup_imap.
    unfold indexBefore. simpl. lia.
Qed.

(** Read back by index, the completions are in the order of the promises. *)
Lemma sort_by_index {B} (g : M S A → B) promises (done : list (nat * B)) :
  done ≡ₚ imap (λ i p, (i, g p)) promises →
  (merge_sort indexBefore done).*2 = g <$> promises.
Proof.
  intros Hperm.
  assert (merge_sort indexBefore done = imap (λ i p, (i, g p)) promises) as ->.
  { apply (StronglySorted_unique_strong indexBefore).
    - intros x1 x2 H1 H2 H12 H21.
      rewrite merge_sort_Permutation, Hperm in H1.
      apply elem_of_lookup_imap in H1 as (i & p & -> & Hi).
      apply elem_of_lookup_imap in H2 as (j & q & -> & Hj).
      unfold indexBefore in *. simpl in *.
      assert (i = j) as -> by lia. congruence.
    - apply StronglySorted_merge_sort; apply _.
    - apply (indexed_sorted g promises 0).
    - by rewrite merge_sort_Permutation. }
  rewrite fmap_imap. by rewrite <-(imap_const g).
Qed.

(** [Promise.allSettled] over detached promises: whatever the completion
    order, the result array lists the promises' own results in the order
    of the input array, and the store is untouched. *)
Lemma allSettled_detached latency promises s :
  Forall detached promises →
  ∃ t, run (allSettled latency promises) s
       = (Normal ((λ p, settledOf (result p s)) <$> promises), s, t).
Proof.
  intros Hdet. unfold allSettled.
  assert (completionOrder latency promises ≡ₚ imap (λ i p, (i, p)) promises) as Hperm
    by apply merge_sort_Permutation.
  destruct (mapM_settle (completionOrder latency promises) s) as [t E].
  { apply Forall_forall. intros x Hx. rewrite Hperm in Hx.
    apply elem_of_lookup_imap in Hx as (i & p & -> & Hi). simpl.
    eapply Forall_forall; [done|]. by eapply list_elem_of_lookup_2. }
  exists (t ++ []). rewrite (run_bind_normal _ _ _ _ _ _ E). unfold ret. simpl.
  do 2 f_equal. f_equal. apply sort_by_index.
  rewrite Hperm, fmap_imap. done.
Qed.
End AllSettled.

Section Returns.
Context {S : Type}.
Implicit Types (s : S).

Lemma returns_ret {A} (a : A) s : returns (ret a) s a s.
Proof. by exists []. Qed.

Lemma returns_info msg s : returns (info msg) s () s.
Proof. by eexists. Qed.

Lemma returns_error msg s : returns (error msg) s () s.
Proof. by eexists. Qed.

Lemma returns_bind {A B} (m : M S A) (k : A → M S B) s a s1 b s2 :
  returns m s a s1 → returns (k a) s1 b s2 → returns (bind m k) s b s2.
Proof.
  intros [t1 E1] [t2 E2]. exists (t1 ++ t2).
  by rewrite (run_bind_normal _ _ _ _ _ _ E1), E2.
Qed.

Lemma returns_result {A} (m : M S A) s a s' : returns m s a s' → result m s = Normal a.
Proof. intros [t E]. unfold result. by rewrite E. Qed.
End Returns.

Section Orchestrator.
Context {S : Type}.

(** The wrapper ends as [wrapperCompletion] says, on any store, which it
    leaves alone. *)
Lemma runAgent_run (a : Agent.t) :
  ∃ t, ∀ s : S, run (runAgent a) s = (wrapperCompletion a, s, t).
Proof.
  unfold runAgent, wrapperCompletion, agentResult, result, run, try_catch, bind,
    locally, info, error, call, ret.
  destruct (Agent.task a ()) as [[[skills|[e| | |text]] u] t]; simpl; eauto.
Qed.

Lemma runAgent_detached (a : Agent.t) : detached (runAgent (S:=S) a).
Proof. destruct (runAgent_run a) as [t H]. by exists (wrapperCompletion a), t. Qed.

Lemma runAgent_result (a : Agent.t) (s : S) :
  result (runAgent a) s = wrapperCompletion a.
Proof. destruct (runAgent_run a) as [t H]. unfold result. by rewrite H. Qed.

(** [results] lists what the wrappers settled with in registration order,
    for every completion order. *)
Lemma allSettled_agents latency (agents : list Agent.t) (s : S) :
  returns (allSettled latency (runAgent <$> agents)) s (settledAgent <$> agents) s.
Proof.
  destruct (allSettled_detached latency (runAgent (S:=S) <$> agents) s) as [t E].
  { apply Forall_fmap, Forall_forall. intros a _. apply runAgent_detached. }
  exists t. rewrite E. do 2 f_equal. f_equal.
  rewrite <-list_fmap_compose. apply list_fmap_ext. intros i a _. simpl.
  unfold settledAgent. by rewrite runAgent_result.
Qed.
End Orchestrator.

(** ** Tasks *)

Lemma result_thunk {S A} (m : M S A) (s : S) :
  result (thunk m) s
  = match result m s with
    | Normal a => Normal a
    | Throw e => Throw (ThrownError e)
    end.
Proof. unfold result, run, thunk. by destruct (m s) as [[[a|e] s1] t]. Qed.

Lemma result_thunk_normal {S A} (m : M S A) (s : S) a :
  result m s = Normal a → result (thunk m) s = Normal a.
Proof. intros H. by rewrite result_thunk, H. Qed.

Lemma trace_thunk {S A} (m : M S A) (s : S) : trace (thunk m) s = trace m s.
Proof. unfold trace, run, thunk. by destruct (m s) as [[[a|e] s1] t]. Qed.

(** A function of the program never throws a nullish value. *)
Lemma thunk_not_nullish name (m : M unit (list Skill.t)) :
  throwsNullish {| Agent.name := name; Agent.task := thunk m |} = false.
Proof.
  unfold throwsNullish. cbn [Agent.task]. rewrite result_thunk.
  by destruct (result m ()).
Qed.

Lemma wrapperCompletion_returns (a : Agent.t) :
  throwsNullish a = false → wrapperCompletion a = Normal (agentResult a).
Proof.
  unfold throwsNullish, wrapperCompletion.
  destruct (result (Agent.task a) ()) as [skills|thrown]; [done|]. by intros ->.
Qed.

Lemma settledAgent_fulfilled (a : Agent.t) :
  throwsNullish a = false → settledAgent a = fulfilled (agentResult a).
Proof. intros H. unfold settledAgent. by rewrite wrapperCompletion_returns. Qed.

(** The wrappers of the registered agents all return. *)
Lemma registered_not_nullish (h : Host) (ts : TechStack.t) :
  Forall (λ a, throwsNullish a = false) (agentPromises h ts).
Proof. repeat constructor; apply thunk_not_nullish. Qed.

Lemma registered_settled (h : Host) (ts : TechStack.t) :
  settledAgent <$> agentPromises h ts = fulfilled <$> (agentResult <$> agentPromises h ts).
Proof.
  rewrite <-list_fmap_compose. apply list_fmap_ext. intros i a Ha. simpl.
  apply settledAgent_fulfilled.
  pose proof (registered_not_nullish h ts) as Hall. rewrite Forall_forall in Hall.
  apply Hall. by eapply list_elem_of_lookup_2.
Qed.

(** ** Aggregation *)

Lemma collect_settled acc (results : list (Settled AgentResult.t)) :
  foldl collect acc results
  = (acc.1 ++ concat (settledSkills <$> results), acc.2 ++ (settledEntry <$> results)).
Proof.
  revert acc. induction results as [|result results IH]; intros [allSkills summary]; simpl.
  - by rewrite !app_nil_r.
  - rewrite IH. destruct result as [value|reason]; simpl.
    + unfold skillsOf, entryOf.
      destruct (AgentResult.success value); simpl; by rewrite <-?(assoc_L (++)).
    + by rewrite <-(assoc_L (++)).
Qed.

Lemma aggregate_settled (results : list (Settled AgentResult.t)) :
  aggregate results = (concat (settledSkills <$> results), settledEntry <$> results).
Proof. unfold aggregate. by rewrite collect_settled. Qed.

Lemma settledReport_fulfilled (h : Host) (ts : TechStack.t) (rs : list AgentResult.t) :
  settledReport h ts (fulfilled <$> rs) = reportOf h ts rs.
Proof. unfold settledReport, reportOf. by rewrite <-!list_fmap_compose. Qed.

(** The save loop on the sink of the spec: every skill is offered, in
    order, whatever the sink answers. *)
Lemma saveAll_offers answers (skills : list Skill.t) (sink : Sink) :
  run (saveAll (saveSkill answers) skills) sink
  = (Normal (),
     sink ++ imap (λ k skill, (skill, answers (length sink + k))) skills, []).
Proof.
  revert sink. induction skills as [|skill skills IH]; intros sink; simpl.
  - by rewrite app_nil_r.
  - unfold saveAll in *. simpl.
    rewrite (run_bind_normal _ _ _ () (sink ++ [(skill, answers (length sink))]) []);
      [|done].
    rewrite IH, <-(assoc_L (++)), length_app. simpl.
    rewrite Nat.add_0_r.
    by rewrite (imap_ext _ ((λ k x, (x, answers (length sink + k))) ∘ S) skills)
      by (intros k x _; simpl; do 2 f_equal; lia).
Qed.

Section MainRuns.
Context (h : Host) (analyze : M Sink TechStack.t).
Context (agents : TechStack.t → list Agent.t).
Context (answers : nat → bool) (latency : nat → nat).

Lemma mainBody_returns ts :
  returns analyze [] ts [] →
  returns (mainBody h analyze agents (saveSkill answers) latency) []
    (settledReport h ts (settledAgent <$> agents ts))
    (offered answers (concat (settledSkills <$> (settledAgent <$> agents ts)))).
Proof.
  intros Hts. unfold mainBody.
  repeat (eapply returns_bind; [apply returns_info|]).
  eapply returns_bind; [apply Hts|].
  repeat (eapply returns_bind; [apply returns_info|]).
  eapply returns_bind; [apply allSettled_agents|].
  rewrite aggregate_settled.
  eapply returns_bind; [apply returns_info|].
  eapply returns_bind; [eexists; apply saveAll_offers|]. simpl.
  repeat (eapply returns_bind; [apply returns_info|]).
  apply returns_ret.
Qed.

Lemma mainWith_returns ts :
  returns analyze [] ts [] →
  ∃ t, mainWith h analyze agents (saveSkill answers) latency
       = (Returned (settledReport h ts (settledAgent <$> agents ts)),
          offered answers (concat (settledSkills <$> (settledAgent <$> agents ts))), t).
Proof.
  intros Hts. destruct (mainBody_returns ts Hts) as [t E].
  exists t. unfold mainWith. unfold run in E. by rewrite E.
Qed.

(** When the stack builder throws, the top-level [catch] exits with code
    1: nothing was analyzed, nothing offered to the sink, no report. *)
Lemma mainWith_fatal e t0 :
  run analyze [] = (Throw e, [], t0) →
  ∃ t, mainWith h analyze agents (saveSkill answers) latency = (Exited 1, [], t).
Proof.
  intros E. unfold mainWith, mainBody.
  eexists. unfold run, bind, info, call in *. simpl. rewrite E. reflexivity.
Qed.
End MainRuns.

Lemma entryOf_agent (a : Agent.t) :
  SummaryEntry.agent (entryOf (agentResult a)) = Agent.name a.
Proof. unfold entryOf, agentResult. by destruct (result _ _). Qed.

Lemma summary_names (agents : list Agent.t) :
  SummaryEntry.agent <$> (entryOf <$> (agentResult <$> agents)) = Agent.name <$> agents.
Proof.
  rewrite <-!list_fmap_compose. apply list_fmap_ext. intros i a _. apply entryOf_agent.
Qed.

(** The entry of an agent in the summary, by the completion of its
    task. *)
Lemma settledEntry_throw (a : Agent.t) thrown :
  result (Agent.task a) () = Throw thrown →
  settledEntry (settledAgent a) = failedEntry (Agent.name a) thrown.
Proof.
  unfold settledAgent, wrapperCompletion, agentResult, failedEntry. intros ->.
  by destruct thrown.
Qed.


Lemma settledSkills_agent (a : Agent.t) : settledSkills (settledAgent a) = contribution a.
Proof.
  unfold settledAgent, wrapperCompletion, agentResult, contribution.
  destruct (result (Agent.task a) ()) as [skills|thrown]; [done|]. by destruct thrown.
Qed.

Lemma settledEntry_skillsGenerated (a : Agent.t) :
  SummaryEntry.skillsGenerated (settledEntry (settledAgent a)) = length (contribution a).
Proof.
  unfold settledAgent, wrapperCompletion, agentResult, contribution.
  destruct (result (Agent.task a) ()) as [skills|thrown]; [done|]. by destruct thrown.
Qed.


Lemma entryOf_normal (a : Agent.t) skills :
  result (Agent.task a) () = Normal skills →
  entryOf (agentResult a) =
    {| SummaryEntry.agent := Agent.name a; SummaryEntry.skillsGenerated := length skills;
       SummaryEntry.status := "success"; SummaryEntry.error := None |}.
Proof. unfold entryOf, agentResult. by intros ->. Qed.

Lemma skillsOf_agentResult (a : Agent.t) : skillsOf (agentResult a) = contribution a.
Proof. unfold skillsOf, agentResult, contribution. by destruct (result _ _). Qed.

Lemma offered_skills answers (skills : list Skill.t) : (offered answers skills).*1 = skills.
Proof.
  unfold offered. rewrite fmap_imap.
  rewrite (imap_ext _ (const id) skills) by done.
  by rewrite imap_const, list_fmap_id.
Qed.

Lemma length_concat_sum {A} (ls : list (list A)) :
  length (concat ls) = sum_list (length <$> ls).
Proof. induction ls as [|l ls IH]; simpl; [done|]. by rewrite length_app, IH. Qed.

Section MainOfSource.
Context (h : Host).
Context (answers : nat → bool) (latency : nat → nat).

Lemma analyzeTechStack_returns (sink : Sink) :
  returns (analyzeTechStack h) sink (store (probes h) TechStack.empty) sink.
Proof. eexists. apply analyzeTechStack_run. Qed.

(** [main] always returns: its stack builder never throws. *)
Lemma main_returns :
  let ts := store (probes h) TechStack.empty in
  let rs := agentResult <$> agentPromises h ts in
  ∃ t, main h answers latency
       = (Returned (reportOf h ts rs), offered answers (concat (skillsOf <$> rs)), t).
Proof.
  cbv zeta. set (ts := store (probes h) TechStack.empty).
  destruct (mainWith_returns h (analyzeTechStack h) (agentPromises h) answers latency ts
              (analyzeTechStack_returns [])) as [t E].
  exists t. unfold main. rewrite E, registered_settled, settledReport_fulfilled.
  do 2 f_equal; by rewrite <-!list_fmap_compose.
Qed.
End MainOfSource.

Lemma missingRoot_missing : rootMissing missingRoot.
Proof. repeat split; intros; simpl; eauto. Qed.

(** * Scans, guards and absorbed errors *)

Lemma throughFirst_length {A} (p : A → bool) l : length (throughFirst p l) ≤ length l.
Proof. induction l as [|x l IH]; simpl; [done|]. destruct (p x); simpl; lia. Qed.

Section Scans.
Context {S : Type} (h : Host).

(** The body of a scan loop: one read, whatever comes of it. *)
Lemma run_scan_body {B} file (f : string → B) (d : B) (s : S) :
  run (try_catch (content ← readFile h file; ret (f content)) (λ e, ret d)) s
  = (Normal (match fs_readFile h file with Normal content => f content | Throw _ => d end),
     s, [FsReadFile file]).
Proof.
  unfold run, try_catch, bind, readFile, call, ret.
  by destruct (fs_readFile h file).
Qed.

Lemma trace_scanAll {F} files (step : string → F → F) flags (s : S) :
  trace (scanAll h files step flags) s = FsReadFile <$> files.
Proof.
  revert flags. induction files as [|file rest IH]; intros flags; [done|].
  unfold trace in *. simpl.
  rewrite (run_bind_normal _ _ _ _ _ _ (run_scan_body file _ _ s)).
  match goal with |- context [scanAll h rest step ?fl] => specialize (IH fl) end.
  destruct (run (scanAll h rest step _) s) as [[r s1] t]. simpl in *. by rewrite IH.
Qed.

Lemma run_scanUntil files test (s : S) :
  run (scanUntil h files test) s
  = (Normal (existsb (matches h test) files), s,
     FsReadFile <$> throughFirst (matches h test) files).
Proof.
  induction files as [|file rest IH]; [done|]. simpl.
  rewrite (run_bind_normal _ _ _ _ _ _ (run_scan_body file _ _ s)).
  unfold matches at 1 3. destruct (fs_readFile h file) as [content|e]; simpl.
  - destruct (test content); simpl; [done|]. by rewrite IH.
  - by rewrite IH.
Qed.
End Scans.

Lemma reads_readFiles (files : list string) : reads (FsReadFile <$> files) = files.
Proof. unfold reads. induction files as [|f files IH]; simpl; [done|]. f_equal. exact IH. Qed.

Section ReturnsOnHost.
Context {S : Type} (h : Host).
Implicit Types (s : S).

Lemma returns_glob pattern ignore files s :
  glob_files h pattern ignore = Normal files → returns (glob h pattern ignore) s files s.
Proof. intros E. eexists. unfold run, glob, call. by rewrite E. Qed.

Lemma throws_access path e s :
  fs_access h path = Throw e → throws (access h path) s e s.
Proof. intros E. eexists. unfold run, access, call. by rewrite E. Qed.

Lemma throws_bind {A B} (m : M S A) (k : A → M S B) s e s1 :
  throws m s e s1 → throws (bind m k) s e s1.
Proof. intros [t E]. exists t. by apply run_bind_throw. Qed.

Lemma returns_try_catch {A} (body : M S A) handler s a s1 :
  returns body s a s1 → returns (try_catch body handler) s a s1.
Proof. intros [t E]. exists t. by apply run_try_catch_normal. Qed.

Lemma returns_try_catch_handler {A} (body : M S A) handler s e s1 a s2 :
  throws body s e s1 → returns (handler e) s1 a s2 →
  returns (try_catch body handler) s a s2.
Proof.
  intros [t1 E1] [t2 E2]. exists (t1 ++ t2).
  by rewrite (run_try_catch_throw _ _ _ _ _ _ E1), E2.
Qed.

Lemma returns_modify f s : returns (modify f) s () (f s).
Proof. by eexists. Qed.

Lemma returns_get s : returns get s s s.
Proof. by eexists. Qed.

Lemma returns_locally {S' A} (init : S') (m : M S' A) a (s1 : S') s :
  returns m init a s1 → returns (locally init m) s a s.
Proof. intros [t E]. exists t. unfold run, locally in *. by rewrite E. Qed.
End ReturnsOnHost.

Create HintDb returns.
Global Hint Resolve returns_ret returns_info returns_error returns_glob throws_access
  throws_bind returns_try_catch returns_try_catch_handler returns_modify
  returns_get : returns.

Section EmptyEvidence.
Context (h : Host) (ts : TechStack.t).

Lemma react_guard :
  TechStack.hasReact ts = false → result (generateReactSkills h ts) () = Normal [].
Proof. intros H. unfold result, run, generateReactSkills, locally. by rewrite H. Qed.

Lemma database_guard :
  TechStack.databases ts = [] → result (generateDatabaseSkills h ts) () = Normal [].
Proof. intros H. unfold result, run, generateDatabaseSkills, locally. by rewrite H. Qed.

Lemma backend_guard :
  backendFilesOf h = Normal [] → result (generateBackendSkills h ts) () = Normal [].
Proof.
  intros H. eapply (returns_result _ _ _ ()). unfold generateBackendSkills.
  eapply returns_locally, returns_bind; [|apply returns_get].
  apply returns_try_catch. eapply returns_bind; [by apply returns_glob|].
  simpl. apply returns_info.
Qed.

Lemma devops_generic_skill :
  noDevOpsEvidence h ts →
  ∃ skill, result (generateDevOpsSkills h ts) () = Normal [skill]
           ∧ Skill.name skill = "devops-best-practices"
           ∧ Skill.guidelines skill = generalDevOpsGuidelines ++ pipelineGuidelines.
Proof.
  intros (Hci & [e1 Hd] & [e2 Hc1] & [e3 Hc2] & Hk & Htf & Henv & Hcloud).
  eexists. split.
  - eapply (returns_result _ _ _ ()). unfold generateDevOpsSkills.
    eapply returns_locally, returns_bind; [|apply returns_get].
    apply returns_try_catch.
    repeat (eapply returns_bind; [solve [eauto 12 with returns]|]; cbv zeta).
    apply returns_info.
  - rewrite Hcloud. split; reflexivity.
Qed.
End EmptyEvidence.

Section AbsorbedErrors.
Context (h : Host) (ts : TechStack.t).

Lemma analyzers_return :
  Forall (λ a, ∃ skills, result (Agent.task a) () = Normal skills ∧ length skills ≤ 1)
         (agentPromises h ts).
Proof.
  assert (∀ m : M unit (list Skill.t), returnsAtMostOne m →
            ∃ skills, result (thunk m) () = Normal skills ∧ length skills ≤ 1) as Hret.
  { intros m Hm. destruct (Hm ()) as (skills & E & _ & Hlen).
    exists skills. split; [by apply result_thunk_normal|done]. }
  unfold agentPromises.
  repeat first [apply Forall_nil_2|apply Forall_cons_2]; cbn [Agent.task]; apply Hret.
  - apply generateSecuritySkills_returns.
  - apply generatePerformanceSkills_returns.
  - apply generateReactSkills_returns.
  - apply generateBackendSkills_returns.
  - apply generateFrontendSkills_returns.
  - apply generateDatabaseSkills_returns.
  - apply generateAPISkills_returns.
  - apply generateTestingSkills_returns.
  - apply generateDevOpsSkills_returns.
Qed.

Lemma analyzers_absorb_glob_failure e :
  Forall (λ a, result (Agent.task a) () = Normal []) (agentPromises (globFailing h e) ts).
Proof.
  unfold agentPromises.
  repeat first [apply Forall_nil_2|apply Forall_cons_2]; cbn [Agent.task];
    apply result_thunk_normal.
  - unfold generateSecuritySkills.
    eapply analyzer_first_call_throws; [by intros|by eexists].
  - unfold generatePerformanceSkills.
    eapply analyzer_first_call_throws; [by intros|by eexists].
  - unfold generateReactSkills. destruct (negb _); [done|].
    eapply analyzer_first_call_throws; [by intros|by eexists].
  - unfold generateBackendSkills.
    eapply analyzer_first_call_throws; [by intros|by eexists].
  - unfold generateFrontendSkills.
    eapply analyzer_first_call_throws; [by intros|by eexists].
  - unfold generateDatabaseSkills. destruct (bool_decide _); [done|].
    eapply analyzer_first_call_throws; [by intros|by eexists].
  - unfold generateAPISkills.
    eapply analyzer_first_call_throws; [by intros|by eexists].
  - unfold generateTestingSkills.
    eapply analyzer_first_call_throws; [by intros|by eexists].
  - unfold generateDevOpsSkills.
    eapply analyzer_first_call_throws; [by intros|by eexists].
Qed.
End AbsorbedErrors.

Lemma databases_occurrences (l : list string) :
  l `sublist_of` pushed Databases pushSites →
  (∀ x, x ≠ "SQL" → occurrences x l ≤ 1) ∧ occurrences "SQL" l ≤ 2.
Proof.
  intros Hl. split.
  - intros x Hx. etrans; [by apply occurrences_sublist|].
    unfold occurrences. simpl. rewrite !filter_cons, filter_nil.
    repeat case_decide; simplify_eq; simpl; lia.
  - etrans; [by apply occurrences_sublist|]. done.
Qed.

(** * The claims *)

(** ** C1: a failing stack builder is fatal *)

(** C1, counterexample.  The claim has the run exit non-zero without a
    report when the workspace root does not exist.  On a root below which
    nothing can be read or accessed, [analyzeTechStack] returns the empty
    tech stack and [main] returns its result object with a report. *)
Lemma missing_root_run_reports :
  rootMissing missingRoot
  ∧ ∃ r sink t,
      main missingRoot (λ _, true) (λ _, 0) = (Returned r, sink, t)
      ∧ MainResult.success r = true
      ∧ Report.techStack (MainResult.report r) = TechStack.empty.
Proof.
  split; [apply missingRoot_missing|].
  eexists _, _, _. split; [vm_compute; reflexivity|]. done.
Qed.

(** C1, amended.  The stack builder cannot fail: on every host
    [analyzeTechStack] returns a tech stack (the empty one when the root is
    missing), and [main] goes on to return a report that carries it.  The
    fatal path is in [main] all the same: were the stack builder to throw,
    the top-level [catch] would exit with code 1, with nothing offered to
    the sink and no report. *)
Theorem stack_builder_never_fails :
  (∀ h, ∃ ts, result (analyzeTechStack h) () = Normal ts)
  ∧ (∀ h, rootMissing h → result (analyzeTechStack h) () = Normal TechStack.empty)
  ∧ (∀ h answers latency, ∃ r sink t,
       main h answers latency = (Returned r, sink, t)
       ∧ result (analyzeTechStack h) () = Normal (Report.techStack (MainResult.report r)))
  ∧ (∀ h analyze agents answers latency e t0,
       run analyze [] = (Throw e, [], t0) →
       ∃ t, mainWith h analyze agents (saveSkill answers) latency = (Exited 1, [], t)).
Proof.
  repeat split.
  - intros h. eexists. unfold result. by rewrite analyzeTechStack_run.
  - intros h Hmissing. by apply missing_analyzeTechStack.
  - intros h answers latency.
    destruct (main_returns h answers latency) as [t E].
    eexists _, _, _. split; [apply E|]. unfold result. by rewrite analyzeTechStack_run.
  - intros. by eapply mainWith_fatal.
Qed.

Lemma stack_builder_never_fails_witness :
  result (analyzeTechStack missingRoot) () = Normal TechStack.empty
  ∧ ∃ t, mainWith missingRoot (throw enoent) (agentPromises missingRoot)
           (saveSkill (λ _, true)) (λ _, 0) = (Exited 1, [], t).
Proof.
  destruct stack_builder_never_fails as (_ & Hmissing & _ & Hfatal). split.
  - apply Hmissing. repeat split; intros; simpl; eauto.
  - apply (Hfatal _ _ _ _ _ enoent []). reflexivity.
Defined.

(** ** C2: the failure of one analyzer is isolated *)



(** ** C3: the total counts the skills handed to the sink *)

(** C3, counterexample.  A task that throws a value that is no [Error]
    object, here a string: the run returns, the entry of the agent is marked
    failed, and no error string is recorded in it; the line on
    [console.error] ends in [undefined]. *)
Lemma thrown_string_is_not_recorded :
  ∃ r sink t,
    mainWith missingRoot (analyzeTechStack missingRoot)
      (sabotagedWith (ThrownPrimitive "disk full") missingRoot)
      (saveSkill (λ _, true)) (λ i, i) = (Returned r, sink, t)
    ∧ Report.agents (MainResult.report r) !! 0
      = Some {| SummaryEntry.agent := "Security Analyzer";
                SummaryEntry.skillsGenerated := 0; SummaryEntry.status := "failed";
                SummaryEntry.error := None |}
    ∧ t !! 15 = Some (ConsoleError "  ❌ Security Analyzer failed: undefined").
Proof.
  eexists _, _, _. split; [vm_compute; reflexivity|]. split; reflexivity.
Qed.

(** C3, amended.  In a run that reaches aggregation (the stack builder
    returned), [totalSkillsGenerated] is the number of skills offered to the
    sink, which are the skills of the run in order; it is the sum of the
    skill counts of the tasks that returned, and the sum of the summary's
    [skillsGenerated]; the summary has one entry per agent, and a task that
    threw contributes no skill and has its entry, marked failed.  What the
    entry records of the error depends on the thrown value: the message of
    an [Error] object, under the name of the agent; for [null] or
    [undefined], the message of the [TypeError] of the wrapper, under the
    name ['Unknown']; nothing for a value without a [message]. *)
Theorem total_counts_skills_handed_to_sink
    (h : Host) (analyze : M Sink TechStack.t) (agents : TechStack.t → list Agent.t)
    (answers : nat → bool) (latency : nat → nat) (ts : TechStack.t) :
  returns analyze [] ts [] →
  ∃ r sink t,
    mainWith h analyze agents (saveSkill answers) latency = (Returned r, sink, t)
    ∧ Report.totalSkillsGenerated (MainResult.report r) = length sink
    ∧ sink.*1 = MainResult.skills r
    ∧ Report.totalSkillsGenerated (MainResult.report r)
      = sum_list ((λ a, length (contribution a)) <$> agents ts)
    ∧ Report.totalSkillsGenerated (MainResult.report r)
      = sum_list (SummaryEntry.skillsGenerated <$> Report.agents (MainResult.report r))
    ∧ length (Report.agents (MainResult.report r)) = length (agents ts)
    ∧ (∀ i a thrown,
         agents ts !! i = Some a →
         result (Agent.task a) () = Throw thrown →
         contribution a = []
         ∧ ∃ entry,
             Report.agents (MainResult.report r) !! i = Some entry
             ∧ SummaryEntry.status entry = "failed"
             ∧ SummaryEntry.skillsGenerated entry = 0
             ∧ (SummaryEntry.agent entry, SummaryEntry.error entry)
               = match thrown with
                 | ThrownError e => (Agent.name a, Some (message e))
                 | ThrownNull =>
                     ("Unknown", Some "Cannot read properties of null (reading 'message')")
                 | ThrownUndefined =>
                     ("Unknown",
                      Some "Cannot read properties of undefined (reading 'message')")
                 | ThrownPrimitive _ => (Agent.name a, None)
                 end).
Proof.
  intros Hts.
  destruct (mainWith_returns h analyze agents answers latency ts Hts) as [t E].
  eexists _, _, t. split; [exact E|]. simpl.
  assert (length <$> (settledSkills <$> (settledAgent <$> agents ts))
          = (λ a, length (contribution a)) <$> agents ts) as Hcounts.
  { rewrite <-!list_fmap_compose. apply list_fmap_ext. intros i a _. simpl.
    by rewrite settledSkills_agent. }
  split_and!.
  - unfold offered. by rewrite length_imap.
  - apply offered_skills.
  - by rewrite length_concat_sum, Hcounts.
  - rewrite length_concat_sum, Hcounts. f_equal.
    rewrite <-!list_fmap_compose. apply list_fmap_ext. intros i a _. simpl.
    by rewrite settledEntry_skillsGenerated.
  - by rewrite !length_fmap.
  - intros i a thrown Ha He. split.
    + unfold contribution. by rewrite He.
    + exists (failedEntry (Agent.name a) thrown). split.
      * rewrite !list_lookup_fmap, Ha. simpl. by rewrite (settledEntry_throw a thrown).
      * by destruct thrown.
Qed.

Lemma total_counts_skills_handed_to_sink_witness :
  ∃ r sink t,
    mainWith twoOrms (analyzeTechStack twoOrms)
      (sabotagedWith (ThrownError forcedFailure) twoOrms)
      (saveSkill (λ k, bool_decide (k ≠ 1))) (λ i, 9 - i) = (Returned r, sink, t)
    ∧ Report.totalSkillsGenerated (MainResult.report r) = length sink
    ∧ sink.*1 = MainResult.skills r.
Proof.
  destruct (total_counts_skills_handed_to_sink twoOrms (analyzeTechStack twoOrms)
              (sabotagedWith (ThrownError forcedFailure) twoOrms)
              (λ k, bool_decide (k ≠ 1)) (λ i, 9 - i) twoOrmsStack)
    as (r & sink & t & E & Hlen & Hsink & _).
  - eexists. vm_compute. reflexivity.
  - exists r, sink, t. split; [exact E|]. split; [exact Hlen|exact Hsink].
Defined.

(** ** C4: the summary is in registration order *)

(** C4.  For every host and sink, and for every
    completion order of the tasks, [main] returns a report whose summary
    names the nine registered analyzers in the order of [agentPromises],
    entry [i] naming the [i]-th of them; the result object is the same for
    every other completion order.  The completion order is that of
    [latency]; every order of the nine tasks is one ([positionIn]). *)
Theorem summary_in_registration_order
    (h : Host)
    (answers : nat → bool) (latency : nat → nat) :
  ∃ r sink t,
    main h answers latency = (Returned r, sink, t)
    ∧ SummaryEntry.agent <$> Report.agents (MainResult.report r) = registeredNames
    ∧ (∀ i entry, Report.agents (MainResult.report r) !! i = Some entry →
         registeredNames !! i = Some (SummaryEntry.agent entry))
    ∧ (∀ latency', (main h answers latency').1 = (Returned r, sink))
    ∧ ∀ order : list (nat * M Sink AgentResult.t),
        let promises :=
          runAgent <$> agentPromises h (Report.techStack (MainResult.report r)) in
        order ≡ₚ imap (λ i p, (i, p)) promises →
        completionOrder (positionIn order) promises = order
        ∧ (main h answers (positionIn order)).1 = (Returned r, sink).
Proof.
  destruct (main_returns h answers latency) as [t E].
  assert (SummaryEntry.agent <$> Report.agents (MainResult.report
            (reportOf h (store (probes h) TechStack.empty)
               (agentResult <$> agentPromises h (store (probes h) TechStack.empty))))
          = registeredNames) as Hnames.
  { unfold reportOf. cbn [MainResult.report Report.agents]. by rewrite summary_names. }
  assert (∀ latency', (main h answers latency').1
                      = (main h answers latency).1) as Hsame.
  { intros latency'. destruct (main_returns h answers latency') as [t' E'].
    by rewrite E, E'. }
  eexists _, _, t. split; [exact E|]. split_and!.
  - exact Hnames.
  - intros i entry Hi. rewrite <-Hnames, list_lookup_fmap, Hi. done.
  - intros latency'. by rewrite Hsame, E.
  - intros order promises Hperm. split.
    + by apply every_order_is_scheduled.
    + by rewrite Hsame, E.
Qed.

Lemma summary_in_registration_order_witness :
  ∃ r,
    (main missingRoot (λ _, true) (λ _, 0)).1.1 = Returned r
    ∧ SummaryEntry.agent <$> Report.agents (MainResult.report r) = registeredNames
    ∧ let promises := runAgent (S:=Sink) <$> agentPromises missingRoot
                        (Report.techStack (MainResult.report r)) in
      completionOrder (positionIn (reverse (imap (λ i p, (i, p)) promises))) promises
      = reverse (imap (λ i p, (i, p)) promises).
Proof.
  destruct (summary_in_registration_order missingRoot (λ _, true) (λ _, 0))
    as (r & sink & t & E & Hnames & _ & _ & Horder).
  exists r. split; [by rewrite E|]. split; [exact Hnames|].
  intros promises. apply Horder. apply reverse_Permutation.
Defined.

(** ** C5: no duplicates in the set-valued fields *)

(** C5, counterexample.  With [sequelize] among the dependencies and
    [sqlalchemy] in requirements.txt, both probes push ['SQL']:
    [databases] holds it twice. *)
Lemma databases_holds_SQL_twice :
  ∃ ts, result (analyzeTechStack twoOrms) () = Normal ts
        ∧ TechStack.databases ts = ["SQL"; "SQL"]
        ∧ ¬ NoDup (TechStack.databases ts).
Proof.
  eexists. split; [vm_compute; reflexivity|]. split; [done|].
  simpl. intros [Hin _]%NoDup_cons. apply Hin. by left.
Qed.

(** C5, amended.  [frameworks], [buildTools], [packageManagers] and
    [cloudProviders] never hold an identifier twice.  [databases] is pushed
    to without a membership test: it holds some of MongoDB, SQL, PostgreSQL,
    MySQL, Redis, Prisma from the Node probe, in this order, then SQL again
    if requirements.txt names sqlalchemy; so no identifier but ['SQL']
    occurs twice, and ['SQL'] at most twice. *)
Theorem tech_stack_duplicates (h : Host) (ts : TechStack.t) :
  result (analyzeTechStack h) () = Normal ts →
  NoDup (TechStack.frameworks ts)
  ∧ NoDup (TechStack.buildTools ts)
  ∧ NoDup (TechStack.packageManagers ts)
  ∧ NoDup (TechStack.cloudProviders ts)
  ∧ TechStack.databases ts
      `sublist_of` ["MongoDB"; "SQL"; "PostgreSQL"; "MySQL"; "Redis"; "Prisma"; "SQL"]
  ∧ (∀ x, x ≠ "SQL" → occurrences x (TechStack.databases ts) ≤ 1)
  ∧ occurrences "SQL" (TechStack.databases ts) ≤ 2.
Proof.
  intros Hts.
  pose proof (λ a, analyzeTechStack_field_sublist h a ts Hts) as Hsub.
  repeat split.
  - eapply sublist_NoDup; [|apply (Hsub Frameworks)]. by apply (bool_decide_unpack _).
  - eapply sublist_NoDup; [|apply (Hsub BuildTools)]. by apply (bool_decide_unpack _).
  - eapply sublist_NoDup; [|apply (Hsub PackageManagers)]. by apply (bool_decide_unpack _).
  - eapply sublist_NoDup; [|apply (Hsub CloudProviders)]. by apply (bool_decide_unpack _).
  - apply (Hsub Databases).
  - apply databases_occurrences, (Hsub Databases).
  - apply databases_occurrences, (Hsub Databases).
Qed.

Lemma tech_stack_duplicates_witness :
  result (analyzeTechStack twoOrms) () = Normal twoOrmsStack
  ∧ NoDup (TechStack.packageManagers twoOrmsStack)
  ∧ occurrences "SQL" (TechStack.databases twoOrmsStack) ≤ 2.
Proof.
  assert (result (analyzeTechStack twoOrms) () = Normal twoOrmsStack) as Hts
    by (vm_compute; reflexivity).
  split; [exact Hts|].
  destruct (tech_stack_duplicates twoOrms twoOrmsStack Hts)
    as (_ & _ & Hpm & _ & _ & _ & Hsql).
  by split.
Defined.

(** ** C6: analyzers with nothing to analyze *)

(** C6, counterexample.  On a workspace with no DevOps evidence at all and
    an empty tech stack, the DevOps analyzer returns one skill, not none. *)
Lemma devops_skill_without_evidence :
  noDevOpsEvidence missingRoot TechStack.empty
  ∧ ∃ skill, result (generateDevOpsSkills missingRoot TechStack.empty) () = Normal [skill]
             ∧ length (Skill.guidelines skill) = 16.
Proof.
  split.
  - unfold noDevOpsEvidence. simpl. split_and!; eauto.
  - eexists. split; [vm_compute; reflexivity|done].
Qed.

(** C6, amended.  The React analyzer returns no skill when [hasReact] is
    false, the database analyzer none when [databases] is empty, the
    backend analyzer none when no backend file is found.  The DevOps
    analyzer has no such guard: with no evidence at all it returns one
    skill, made of its general guidelines. *)
Theorem empty_evidence_guards (h : Host) (ts : TechStack.t) :
  (TechStack.hasReact ts = false → result (generateReactSkills h ts) () = Normal [])
  ∧ (TechStack.databases ts = [] → result (generateDatabaseSkills h ts) () = Normal [])
  ∧ (backendFilesOf h = Normal [] → result (generateBackendSkills h ts) () = Normal [])
  ∧ (noDevOpsEvidence h ts →
     ∃ skill, result (generateDevOpsSkills h ts) () = Normal [skill]
              ∧ Skill.name skill = "devops-best-practices"
              ∧ Skill.guidelines skill = generalDevOpsGuidelines ++ pipelineGuidelines).
Proof.
  split_and!.
  - apply react_guard.
  - apply database_guard.
  - apply backend_guard.
  - apply devops_generic_skill.
Qed.

Lemma empty_evidence_guards_witness :
  result (generateReactSkills missingRoot TechStack.empty) () = Normal []
  ∧ result (generateDatabaseSkills missingRoot TechStack.empty) () = Normal []
  ∧ result (generateBackendSkills missingRoot TechStack.empty) () = Normal []
  ∧ ∃ skill, result (generateDevOpsSkills missingRoot TechStack.empty) () = Normal [skill]
             ∧ Skill.name skill = "devops-best-practices"
             ∧ Skill.guidelines skill = generalDevOpsGuidelines ++ pipelineGuidelines.
Proof.
  destruct (empty_evidence_guards missingRoot TechStack.empty) as (Hr & Hd & Hb & Ho).
  split_and!.
  - apply Hr. reflexivity.
  - apply Hd. reflexivity.
  - apply Hb. reflexivity.
  - apply Ho. unfold noDevOpsEvidence. simpl. split_and!; eauto.
Defined.

(** ** C7: content-marker scans *)

(** C7, counterexample.  The hooks scan of the React analyzer has no
    [break]: the first candidate is a positive match for the marker
    ['useState'], and the second candidate is read all the same. *)
Lemma hooks_scan_reads_past_first_match :
  matches twoComponents (λ content, includes content "useState") "src/Counter.jsx" = true
  ∧ reads (trace (scanHooks twoComponents ["src/Counter.jsx"; "src/Toggle.jsx"]) ())
    = ["src/Counter.jsx"; "src/Toggle.jsx"].
Proof. split; vm_compute; reflexivity. Qed.

(** C7, amended.  Every content-marker scan of the source reads at most
    its cap of candidates: 20 for the async-pattern scan, 10 for the env-var
    scan, 30 for the hooks scan, 10 for the state-management scan, 20 for
    the API scan.  The async-pattern and env-var scans, which decide one
    flag, stop at the first positive match: they read the candidates up to
    and including that one.  The other three collect several flags and read
    every candidate up to the cap, matched or not. *)
Theorem scans_are_capped (h : Host) (files : list string) :
  (reads (trace (scanAsyncPatterns h files) ())
     = throughFirst (matches h asyncMarker) (take 20 files)
   ∧ result (scanAsyncPatterns h files) ()
     = Normal (existsb (matches h asyncMarker) (take 20 files))
   ∧ length (reads (trace (scanAsyncPatterns h files) ())) ≤ 20)
  ∧ (reads (trace (scanEnvUsage h files) ())
       = throughFirst (matches h envMarker) (take 10 files)
     ∧ result (scanEnvUsage h files) ()
       = Normal (existsb (matches h envMarker) (take 10 files))
     ∧ length (reads (trace (scanEnvUsage h files) ())) ≤ 10)
  ∧ (reads (trace (scanHooks h files) ()) = take 30 files
     ∧ length (reads (trace (scanHooks h files) ())) ≤ 30)
  ∧ (reads (trace (scanStateManagement h files) ()) = take 10 files
     ∧ length (reads (trace (scanStateManagement h files) ())) ≤ 10)
  ∧ (reads (trace (scanApiFiles h files) ()) = take 20 files
     ∧ length (reads (trace (scanApiFiles h files) ())) ≤ 20).
Proof.
  assert (∀ cap test,
            reads (trace (scanUntil h (take cap files) test) ())
              = throughFirst (matches h test) (take cap files)
            ∧ result (scanUntil h (take cap files) test) ()
              = Normal (existsb (matches h test) (take cap files))
            ∧ length (reads (trace (scanUntil h (take cap files) test) ())) ≤ cap)
    as Huntil.
  { intros cap test. unfold trace, result. rewrite run_scanUntil. simpl.
    rewrite reads_readFiles. split_and!; [done..|].
    etrans; [apply throughFirst_length|]. rewrite length_take. lia. }
  assert (∀ F cap (step : string → F → F) flags,
            reads (trace (scanAll h (take cap files) step flags) ()) = take cap files
            ∧ length (reads (trace (scanAll h (take cap files) step flags) ())) ≤ cap)
    as Hall.
  { intros F cap step flags. rewrite trace_scanAll, reads_readFiles.
    split; [done|]. rewrite length_take. lia. }
  split; [apply Huntil|]. split; [apply Huntil|].
  split; [apply Hall|]. split; apply Hall.
Qed.

(** ** C8: the sink is offered every skill *)

(** The loop has no [try]: when a call of the sink throws, the loop ends
    with that throw, and the skills after it are not offered. *)
Lemma saveAll_stops_at_throw (save : Skill.t → M Sink bool)
    before skill after sink sink1 t1 e sink2 t2 :
  run (saveAll save before) sink = (Normal (), sink1, t1) →
  run (save skill) sink1 = (Throw e, sink2, t2) →
  run (saveAll save (before ++ skill :: after)) sink = (Throw e, sink2, t1 ++ t2).
Proof.
  revert sink t1. induction before as [|x before IH]; intros sink t1 Hbefore Hthrow.
  - injection Hbefore as <- <-. unfold saveAll. simpl.
    apply run_bind_throw. by apply run_bind_throw.
  - unfold saveAll in *. simpl in *. rewrite run_bind in Hbefore |- *.
    destruct (run (save x;; ret ()) sink) as [[[[]|e'] s'] t'] eqn:Hx; [|done].
    destruct (run (forOf before (λ skill0, save skill0;; ret ())) s')
      as [[r s''] t''] eqn:Hrest.
    injection Hbefore as -> -> <-.
    rewrite (IH s' t'' Hrest Hthrow). by rewrite (assoc_L (++)).
Qed.

(** C8.  On the sink of the spec, which answers success or failure
    without throwing: for every sequence of skills and every choice of the
    failing calls, the loop offers every skill, in order, each recorded
    with the answer to its call.  In every run of [main] the skills offered
    are the skills the registered analyzers returned, analyzer by analyzer
    in registration order, which is the order of the summary and of the
    [skills] of the result; with any agents, they are the skills of the
    tasks that returned.  [main] does not look at the answers: the result
    object is the same whatever they are.  And the isolation is the sink's,
    not the loop's: the loop has no [try], so a call of the sink that
    throws ends it, and the run exits with code 1. *)
Theorem sink_is_offered_every_skill (answers : nat → bool) :
  (∀ skills,
     run (saveAll (saveSkill answers) skills) []
     = (Normal (), imap (λ k skill, (skill, answers k)) skills, []))
  ∧ (∀ h latency, ∃ r sink t ts,
       main h answers latency = (Returned r, sink, t)
       ∧ result (analyzeTechStack h) () = Normal ts
       ∧ MainResult.skills r = concat (contribution <$> agentPromises h ts)
       ∧ sink = imap (λ k skill, (skill, answers k))
                     (concat (contribution <$> agentPromises h ts))
       ∧ SummaryEntry.skillsGenerated <$> Report.agents (MainResult.report r)
         = (λ a, length (contribution a)) <$> agentPromises h ts
       ∧ ∀ answers', (main h answers' latency).1.1 = Returned r)
  ∧ (∀ h analyze agents latency ts,
       returns analyze [] ts [] →
       ∃ r sink t,
         mainWith h analyze agents (saveSkill answers) latency = (Returned r, sink, t)
         ∧ MainResult.skills r = concat (contribution <$> agents ts)
         ∧ sink = imap (λ k skill, (skill, answers k)) (concat (contribution <$> agents ts)))
  ∧ (∀ (save : Skill.t → M Sink bool) before skill after sink sink1 t1 e sink2 t2,
       run (saveAll save before) sink = (Normal (), sink1, t1) →
       run (save skill) sink1 = (Throw e, sink2, t2) →
       run (saveAll save (before ++ skill :: after)) sink = (Throw e, sink2, t1 ++ t2))
  ∧ ∀ h (save : Skill.t → M Sink bool) latency e sink t,
      run (mainBody h (analyzeTechStack h) (agentPromises h) save latency) []
      = (Throw e, sink, t) →
      ∃ t', mainWith h (analyzeTechStack h) (agentPromises h) save latency
            = (Exited 1, sink, t').
Proof.
  assert (∀ agents : list Agent.t,
            concat (settledSkills <$> (settledAgent <$> agents))
            = concat (contribution <$> agents)) as Hskills.
  { intros agents. f_equal. rewrite <-list_fmap_compose. apply list_fmap_ext.
    intros i a _. apply settledSkills_agent. }
  split_and!.
  - intros skills. by rewrite saveAll_offers.
  - intros h latency.
    destruct (mainWith_returns h (analyzeTechStack h) (agentPromises h) answers latency
                _ (analyzeTechStack_returns h [])) as [t E].
    eexists _, _, t, _. split; [exact E|]. split_and!.
    + unfold result. by rewrite analyzeTechStack_run.
    + apply Hskills.
    + unfold offered. by rewrite Hskills.
    + cbn [MainResult.report Report.agents settledReport].
      rewrite <-!list_fmap_compose. apply list_fmap_ext. intros i a _.
      apply settledEntry_skillsGenerated.
    + intros answers'.
      destruct (mainWith_returns h (analyzeTechStack h) (agentPromises h) answers' latency
                  _ (analyzeTechStack_returns h [])) as [t' E'].
      unfold main. by rewrite E'.
  - intros h analyze agents latency ts Hts.
    destruct (mainWith_returns h analyze agents answers latency ts Hts) as [t E].
    eexists _, _, t. split; [exact E|]. split; [apply Hskills|].
    unfold offered. by rewrite Hskills.
  - apply saveAll_stops_at_throw.
  - intros h save latency e sink t E. unfold mainWith. unfold run in E. rewrite E.
    by eexists.
Qed.

(** Seven skills on a workspace with two ORMs; the second call of the sink
    fails, and the five skills after it are offered all the same.  With a
    sink that throws, the run exits at the first skill. *)
Lemma sink_is_offered_every_skill_witness :
  (∃ r sink t,
     main twoOrms (λ k, bool_decide (k ≠ 1)) (λ i, 9 - i) = (Returned r, sink, t)
     ∧ sink.*1 = MainResult.skills r
     ∧ sink.*2 = [true; false; true; true; true; true; true])
  ∧ ∃ t, mainWith twoOrms (analyzeTechStack twoOrms) (agentPromises twoOrms)
           (λ _, throw enoent) (λ i, 9 - i) = (Exited 1, [], t).
Proof.
  destruct (sink_is_offered_every_skill (λ k, bool_decide (k ≠ 1)))
    as (_ & Hmain & _ & _ & Hexit).
  split.
  - destruct (Hmain twoOrms (λ i, 9 - i))
      as (r & sink & t & ts & E & Hts & Hr & Hsink & _).
    exists r, sink, t. split; [exact E|].
    assert (Normal (E:=Error) ts = Normal twoOrmsStack) as [= ->]
      by (rewrite <-Hts; vm_compute; reflexivity).
    rewrite Hr, Hsink. split; vm_compute; reflexivity.
  - eapply (Hexit twoOrms (λ _, throw enoent) (λ i, 9 - i) enoent []).
    vm_compute. reflexivity.
Defined.

(** ** C9: when the wrapper promises fulfill *)



(** ** C10: the analyzers absorb their own errors *)

(** C10.  Each of the nine registered analyzers returns its [skills] array
    on every host and tech stack: it never throws and returns at most one
    skill.  When a call inside its [try] fails (here: every [glob]), it
    returns the empty array, and its summary entry is a success with zero
    skills, as for an analyzer with nothing to analyze.  So in every run of
    [main] all the entries are successes with no error: a failed outcome
    can only come from a task that throws outside such a [try], which none
    of the registered analyzers does. *)
Theorem analyzers_absorb_their_errors
    (h : Host) (ts : TechStack.t) (answers : nat → bool) (latency : nat → nat) :
  Forall (λ a, ∃ skills, result (Agent.task a) () = Normal skills ∧ length skills ≤ 1)
         (agentPromises h ts)
  ∧ (∀ e, Forall (λ a, result (Agent.task a) () = Normal []
                       ∧ entryOf (agentResult a)
                         = {| SummaryEntry.agent := Agent.name a;
                              SummaryEntry.skillsGenerated := 0;
                              SummaryEntry.status := "success";
                              SummaryEntry.error := None |})
                (agentPromises (globFailing h e) ts))
  ∧ ∃ r sink t,
      main h answers latency = (Returned r, sink, t)
      ∧ length (Report.agents (MainResult.report r)) = 9
      ∧ Forall (λ entry, SummaryEntry.status entry = "success"
                         ∧ SummaryEntry.error entry = None
                         ∧ SummaryEntry.skillsGenerated entry ≤ 1)
               (Report.agents (MainResult.report r)).
Proof.
  split_and!.
  - apply analyzers_return.
  - intros e. eapply Forall_impl; [apply analyzers_absorb_glob_failure|].
    intros a Ha. split; [done|]. by rewrite (entryOf_normal a []).
  - destruct (main_returns h answers latency) as [t E].
    eexists _, _, t. split; [exact E|].
    unfold reportOf. cbn [MainResult.report Report.agents]. split; [done|].
    apply Forall_fmap, Forall_fmap.
    eapply Forall_impl; [apply analyzers_return|].
    intros a (skills & Hskills & Hlen). simpl.
    by rewrite (entryOf_normal a skills).
Qed.

(** * Further properties *)

(** ** The stack builder, write by write *)

Lemma field_perform a x s :
  TechStack.field a (perform x s) = TechStack.field a s ++ pushedBy a [x].
Proof.
  destruct x as [a' v|f]; simpl.
  - unfold pushedBy. simpl. destruct a, a'; simpl; by rewrite ?app_nil_r.
  - rewrite app_nil_r. by destruct a.
Qed.

Lemma flagOf_perform f x s :
  TechStack.flagOf f (perform x s)
  = TechStack.flagOf f s || bool_decide (x = SetFlag f).
Proof.
  destruct x as [a v|f']; simpl.
  - rewrite orb_false_r. by destruct f.
  - destruct f, f'; simpl; by rewrite ?orb_true_r, ?orb_false_r.
Qed.

Lemma pushedBy_app a l1 l2 : pushedBy a (l1 ++ l2) = pushedBy a l1 ++ pushedBy a l2.
Proof. apply omap_app. Qed.

Lemma performAll_app l1 l2 s : performAll (l1 ++ l2) s = performAll l2 (performAll l1 s).
Proof. apply foldl_app. Qed.

Lemma field_performAll a acts s :
  TechStack.field a (performAll acts s) = TechStack.field a s ++ pushedBy a acts.
Proof.
  revert s. induction acts as [|x acts IH]; intros s; simpl.
  - by rewrite app_nil_r.
  - rewrite IH. unfold flip. rewrite field_perform, <-(assoc_L (++)).
    by rewrite <-pushedBy_app.
Qed.

Lemma flagOf_performAll f acts s :
  TechStack.flagOf f (performAll acts s)
  = TechStack.flagOf f s || bool_decide (SetFlag f ∈ acts).
Proof.
  revert s. induction acts as [|x acts IH]; intros s; simpl.
  - by rewrite orb_false_r.
  - rewrite IH. unfold flip. rewrite flagOf_perform, <-orb_assoc. f_equal.
    apply eq_true_iff_eq. rewrite orb_true_iff, !bool_decide_eq_true, elem_of_cons.
    split; [intros [->|?]|intros [->|?]]; auto.
Qed.

Lemma elem_of_pushedBy a v acts : v ∈ pushedBy a acts ↔ Push a v ∈ acts.
Proof.
  unfold pushedBy. rewrite list_elem_of_omap. split.
  - intros ([a' v'|f] & Hin & Heq); [|done].
    destruct (decide (a' = a)); simplify_eq. done.
  - intros Hin. exists (Push a v). split; [done|]. simpl. by rewrite decide_True.
Qed.

Lemma holds_performAll x acts s : holds x (performAll acts s) ↔ holds x s ∨ x ∈ acts.
Proof.
  destruct x as [a v|f]; simpl.
  - by rewrite field_performAll, elem_of_app, elem_of_pushedBy.
  - rewrite flagOf_performAll, orb_true_iff, bool_decide_eq_true. done.
Qed.

Lemma sublist_concat {A} (w W : list (list A)) :
  w `sublist_of` W → concat w `sublist_of` concat W.
Proof.
  induction 1 as [|b l1 l2 _ IH|b l1 l2 _ IH]; simpl; [done| |].
  - by apply sublist_app.
  - by apply sublist_inserts_l.
Qed.

Lemma elem_of_concat {A} (x : A) (ls : list (list A)) :
  x ∈ concat ls ↔ ∃ l, l ∈ ls ∧ x ∈ l.
Proof.
  rewrite list_elem_of_In, in_concat. setoid_rewrite list_elem_of_In. done.
Qed.

Lemma pushedBy_sublist a l k : l `sublist_of` k → pushedBy a l `sublist_of` pushedBy a k.
Proof.
  unfold pushedBy.
  induction 1 as [|x l1 l2 _ IH|x l1 l2 _ IH]; simpl; [done| |].
  - destruct x as [a' v|f]; [|done]. destruct (decide (a' = a)); [by constructor|done].
  - destruct x as [a' v|f]; [|done]. destruct (decide (a' = a)); [by constructor|done].
Qed.

Lemma touches_skip W s : touches W s s.
Proof. exists []. split; [apply sublist_nil_l|done]. Qed.

Lemma touches_seq W1 W2 s1 s2 s3 :
  touches W1 s1 s2 → touches W2 s2 s3 → touches (W1 ++ W2) s1 s3.
Proof.
  intros (w1 & Hw1 & ->) (w2 & Hw2 & ->). exists (w1 ++ w2). split.
  - by apply sublist_app.
  - by rewrite concat_app, performAll_app.
Qed.

Lemma touches_weaken W W' s s' : W `sublist_of` W' → touches W s s' → touches W' s s'.
Proof. intros HW (w & Hw & H). exists w. split; [by etrans|done]. Qed.

(** What the blocks leave alone stays as it was; what was there stays. *)
Lemma touches_frame W s s' x :
  touches W s s' → x ∉ concat W → holds x s' ↔ holds x s.
Proof.
  intros (w & Hw & ->) Hx. rewrite holds_performAll.
  split; [|by left]. intros [?|Hin]; [done|]. destruct Hx.
  eapply elem_of_sublist; [done|]. by apply sublist_concat.
Qed.

Lemma touches_mono W s s' x : touches W s s' → holds x s → holds x s'.
Proof. intros (w & Hw & ->) Hx. rewrite holds_performAll. by left. Qed.

(** Two writes that sit in the same blocks go together. *)
Lemma touches_coupled W s s' x y :
  touches W s s' → Forall (λ b, bool_decide (x ∈ b) = bool_decide (y ∈ b)) W →
  (holds x s ↔ holds y s) → holds x s' ↔ holds y s'.
Proof.
  intros (w & Hw & ->) Hxy Hs. rewrite !holds_performAll, Hs.
  assert (x ∈ concat w ↔ y ∈ concat w) as ->; [|done].
  rewrite !elem_of_concat.
  assert (∀ b, b ∈ w → x ∈ b ↔ y ∈ b) as Hb.
  { intros b Hin. rewrite Forall_forall in Hxy.
    rewrite <-(bool_decide_eq_true (x ∈ b)), <-(bool_decide_eq_true (y ∈ b)).
    rewrite (Hxy b); [done|]. by eapply elem_of_sublist. }
  split; intros (b & Hbw & Hin); exists b; (split; [done|]); by apply (Hb b Hbw).
Qed.

Lemma touches_field W s s' a :
  touches W s s' →
  ∃ l, l `sublist_of` pushedBy a (concat W)
       ∧ TechStack.field a s' = TechStack.field a s ++ l.
Proof.
  intros (w & Hw & ->). exists (pushedBy a (concat w)).
  split; [|apply field_performAll].
  by apply pushedBy_sublist, sublist_concat.
Qed.

(** *** The blocks of a program *)

Lemma touching_one x : touching [[x]] (modify (perform x)).
Proof.
  apply (writes_modify touches [] app touches_skip touches_seq).
  intros s. exists [[x]]. split; [done|]. done.
Qed.

Lemma touching_pair {A} x y (k : M TechStack.t A) W :
  touching W k →
  touching ([x; y] :: W) (modify (perform x);; modify (perform y);; k).
Proof.
  intros Hk s. destruct (Hk (perform y (perform x s))) as (w & Hw & E).
  exists ([x; y] :: w). split; [by constructor|].
  unfold store, run, bind, modify in *. simpl.
  destruct (k _) as [[r s1] t]. simpl in *. by rewrite E.
Qed.

Lemma touching_pair_end x y :
  touching [[x; y]] (modify (perform x);; modify (perform y)).
Proof. intros s. exists [[x; y]]. done. Qed.

Lemma touching_triple {A} x y z (k : M TechStack.t A) W :
  touching W k →
  touching ([x; y; z] :: W)
    (modify (perform x);; modify (perform y);; modify (perform z);; k).
Proof.
  intros Hk s. destruct (Hk (perform z (perform y (perform x s)))) as (w & Hw & E).
  exists ([x; y; z] :: w). split; [by constructor|].
  unfold store, run, bind, modify in *. simpl.
  destruct (k _) as [[r s1] t]. simpl in *. by rewrite E.
Qed.

Lemma touching_triple_end x y z :
  touching [[x; y; z]] (modify (perform x);; modify (perform y);; modify (perform z)).
Proof. intros s. exists [[x; y; z]]. done. Qed.

Lemma touching_weaken {A} W W' (m : M TechStack.t A) :
  touching W m → W `sublist_of` W' → touching W' m.
Proof. intros Hm HW s. eapply touches_weaken; [done|apply Hm]. Qed.

(** A probe that does exactly the writes [acts], or nothing. *)
Lemma touching_exact {A} acts (m : M TechStack.t A) :
  (∀ s, store m s = performAll acts s ∨ store m s = s) → touching [acts] m.
Proof.
  intros Hm s. destruct (Hm s) as [->| ->].
  - exists [acts]. split; [done|]. simpl. by rewrite app_nil_r.
  - apply touches_skip.
Qed.

Ltac as_writes :=
  repeat match goal with
  | |- context [push ?a ?v] => change (push a v) with (modify (perform (Push a v)))
  | |- context [setFlag ?f] => change (setFlag f) with (modify (perform (SetFlag f)))
  end.

Ltac touching_step :=
  first
    [ apply touching_triple_end
    | apply touching_pair_end
    | eapply touching_triple
    | eapply touching_pair
    | apply touching_one
    | eapply (writes_bind touches [] app touches_skip touches_seq)
    | eapply (writes_try_catch touches [] app touches_skip touches_seq)
    | eapply (writes_when touches [] app touches_skip touches_seq)
    | apply (writes_nothing touches [] app touches_skip touches_seq);
      solve [auto 10 with pure] ];
  intros.

Ltac touching_tac := eapply touching_weaken; [as_writes; repeat touching_step|simpl; reflexivity].

Section StoreRules.
Context {S : Type}.
Implicit Types (s : S).

Lemma store_bind_normal {A B} (m : M S A) (k : A → M S B) s a s1 t1 :
  run m s = (Normal a, s1, t1) → store (bind m k) s = store (k a) s1.
Proof.
  intros E. unfold store. rewrite (run_bind_normal _ _ _ _ _ _ E).
  by destruct (run (k a) s1) as [[r s2] t2].
Qed.

Lemma store_bind_throw {A B} (m : M S A) (k : A → M S B) s e s1 t1 :
  run m s = (Throw e, s1, t1) → store (bind m k) s = s1.
Proof. intros E. unfold store. by rewrite (run_bind_throw _ _ _ _ _ _ E). Qed.

Lemma store_bind_modify {B} f (k : unit → M S B) s :
  store (bind (modify f) k) s = store (k tt) (f s).
Proof. by apply store_bind_normal with (t1 := []). Qed.

(** A [catch] that does nothing leaves the store as the [try] block left
    it. *)
Lemma store_try_ignore (body : M S unit) s :
  store (try_catch body (λ e, ret tt)) s = store body s.
Proof. unfold store, run, try_catch, ret. by destruct (body s) as [[[[]|e] s1] t]. Qed.

Lemma store_seq (m : M S unit) {B} (k : M S B) s :
  total m → store (m ;; k) s = store k (store m s).
Proof.
  intros Hm. destruct (Hm s) as [[] E]. unfold_run. unfold bind.
  destruct (m s) as [[r s1] t1]. simpl in *. subst r.
  by destruct (k s1) as [[r s2] t2].
Qed.

Lemma total_try_ignore (body : M S unit) : total (try_catch body (λ e, ret tt)).
Proof. apply total_try_catch. intros. apply total_ret. Qed.
End StoreRules.

Section Probes.
Context (h : Host).
Implicit Types (s : TechStack.t).

Lemma detectNode_touching : touching nodeBlocks (detectNode h).
Proof. unfold detectNode. touching_tac. Qed.

Lemma detectPython_touching : touching pythonBlocks (detectPython h).
Proof. unfold detectPython. touching_tac. Qed.

Lemma detectGo_touching : touching goBlocks (detectGo h).
Proof. unfold detectGo. touching_tac. Qed.

Lemma detectRust_touching : touching rustBlocks (detectRust h).
Proof. unfold detectRust. touching_tac. Qed.

Lemma detectCloud_touching : touching cloudBlocks (detectCloud h).
Proof. unfold detectCloud. touching_tac. Qed.

Lemma detectDocker_touching : touching dockerBlocks (detectDocker h).
Proof. unfold detectDocker. touching_tac. Qed.

Lemma detectKubernetes_touching : touching kubernetesBlocks (detectKubernetes h).
Proof. unfold detectKubernetes. touching_tac. Qed.

(** The Java probe: [pom.xml] first, [build.gradle] only when that
    fails. *)
Lemma detectJava_store s :
  store (detectJava h) s =
    if accessible h "pom.xml" then performAll mavenBlock s
    else if accessible h "build.gradle" then performAll gradleBlock s
    else s.
Proof.
  unfold detectJava, accessible, store, run, try_catch, bind, access, call.
  destruct (fs_access h "pom.xml"); simpl; [done|].
  by destruct (fs_access h "build.gradle").
Qed.

Lemma detectJava_touching : touching [javaBlock h] (detectJava h).
Proof.
  apply touching_exact. intros s. rewrite detectJava_store. unfold javaBlock.
  destruct (accessible h "pom.xml"); [by left|].
  destruct (accessible h "build.gradle"); [by left|by right].
Qed.

Lemma probes_touching : touching (probeBlocks [javaBlock h]) (probes h).
Proof.
  eapply touching_weaken.
  - unfold probes.
    eapply (writes_bind touches [] app touches_skip touches_seq);
      [apply detectNode_touching|intros].
    eapply (writes_bind touches [] app touches_skip touches_seq);
      [apply detectPython_touching|intros].
    eapply (writes_bind touches [] app touches_skip touches_seq);
      [apply detectJava_touching|intros].
    eapply (writes_bind touches [] app touches_skip touches_seq);
      [apply detectGo_touching|intros].
    eapply (writes_bind touches [] app touches_skip touches_seq);
      [apply detectRust_touching|intros].
    eapply (writes_bind touches [] app touches_skip touches_seq);
      [apply detectCloud_touching|intros].
    eapply (writes_bind touches [] app touches_skip touches_seq);
      [apply detectDocker_touching|intros].
    eapply (writes_bind touches [] app touches_skip touches_seq);
      [apply detectKubernetes_touching|intros].
    apply (writes_nothing touches [] app touches_skip touches_seq), pure_get.
  - unfold probeBlocks. rewrite !app_nil_r. reflexivity.
Qed.

Lemma detectors_total :
  total (detectNode h) ∧ total (detectPython h) ∧ total (detectJava h)
  ∧ total (detectGo h) ∧ total (detectRust h) ∧ total (detectCloud h)
  ∧ total (detectDocker h) ∧ total (detectKubernetes h).
Proof.
  unfold detectNode, detectPython, detectJava, detectGo, detectRust, detectCloud,
    detectDocker, detectKubernetes.
  split_and!; repeat (apply total_try_catch; intros); apply total_ret.
Qed.

(** The tech stack is the initial object after the eight probes, each
    starting where the one before stopped. *)
Lemma store_probes s :
  store (probes h) s =
    store (detectKubernetes h) (store (detectDocker h) (store (detectCloud h)
      (store (detectRust h) (store (detectGo h) (store (detectJava h)
        (store (detectPython h) (store (detectNode h) s))))))).
Proof.
  destruct detectors_total as (H1 & H2 & H3 & H4 & H5 & H6 & H7 & H8).
  unfold probes. by rewrite !store_seq.
Qed.

Lemma detectPython_store s :
  store (detectPython h) s =
    if accessible h "requirements.txt"
    then performAll (pythonWrites (fs_readFile h "requirements.txt")) s
    else s.
Proof.
  unfold detectPython. rewrite store_try_ignore.
  unfold accessible, pythonWrites, store, run, bind, access, readFile, call.
  destruct (fs_access h "requirements.txt"); simpl; [|done].
  destruct (fs_readFile h "requirements.txt") as [content|e]; simpl; [|done].
  by destruct (includes content "django"), (includes content "flask"),
    (includes content "fastapi"), (includes content "sqlalchemy").
Qed.

Lemma detectGo_store s :
  store (detectGo h) s =
    if accessible h "go.mod" then performAll [SetFlag HasGo; Push Languages "Go"] s else s.
Proof.
  unfold detectGo. rewrite store_try_ignore.
  unfold accessible, store, run, bind, access, call.
  by destruct (fs_access h "go.mod").
Qed.

Lemma detectRust_store s :
  store (detectRust h) s =
    if accessible h "Cargo.toml"
    then performAll [SetFlag HasRust; Push Languages "Rust"] s else s.
Proof.
  unfold detectRust. rewrite store_try_ignore.
  unfold accessible, store, run, bind, access, call.
  by destruct (fs_access h "Cargo.toml").
Qed.

Lemma detectDocker_store s :
  store (detectDocker h) s =
    if accessible h "Dockerfile" then perform (Push BuildTools "Docker") s else s.
Proof.
  unfold detectDocker. rewrite store_try_ignore.
  unfold accessible, store, run, bind, access, call.
  by destruct (fs_access h "Dockerfile").
Qed.

(** [packageJson.dependencies] on what [JSON.parse] gave: a [TypeError]
    on [null] only. *)
Lemma run_member (packageJson : JSON) k s :
  isNull packageJson = false →
  run (member packageJson k) s = (Normal (optChain (Some packageJson) k), s, []).
Proof. by destruct packageJson. Qed.

Lemma run_readPackageJson s :
  run (readPackageJson h) s =
    match packageJsonOf h with
    | Some packageJson => (Normal packageJson, s, [FsReadFile "package.json"])
    | None =>
        match fs_readFile h "package.json" with
        | Normal content =>
            match JSON_parse h content with
            | Normal packageJson => (Normal packageJson, s, [FsReadFile "package.json"])
            | Throw e => (Throw e, s, [FsReadFile "package.json"])
            end
        | Throw e => (Throw e, s, [FsReadFile "package.json"])
        end
    end.
Proof.
  unfold packageJsonOf, readPackageJson, run, bind, readFile, call, complete.
  destruct (fs_readFile h "package.json") as [content|e]; [|done].
  by destruct (JSON_parse h content).
Qed.

(** The Node probe, from the object it starts on: nothing without a
    [package.json] that parses; the package manager and the flag only when
    it parses to [null]; otherwise the dependency blocks, then the
    languages. *)
Lemma detectNode_store s :
  match packageJsonOf h with
  | None => store (detectNode h) s = s
  | Some packageJson =>
      let s0 := performAll [Push PackageManagers "npm"; SetFlag HasNode] s in
      if isNull packageJson then store (detectNode h) s = s0
      else ∃ s1, touches dependencyBlocks s0 s1 ∧ store (detectNode h) s = finishNode s1
  end.
Proof.
  unfold detectNode. rewrite store_try_ignore.
  pose proof (run_readPackageJson s) as Hrun.
  unfold packageJsonOf in *.
  destruct (fs_readFile h "package.json") as [content|e];
    [destruct (JSON_parse h content) as [packageJson|e]|];
    [|by rewrite (store_bind_throw _ _ _ _ _ _ Hrun)..].
  rewrite (store_bind_normal _ _ _ _ _ _ Hrun). as_writes.
  rewrite !store_bind_modify.
  change (perform _ (perform _ s))
    with (performAll [Push PackageManagers "npm"; SetFlag HasNode] s).
  cbv zeta. set (s0 := performAll [Push PackageManagers "npm"; SetFlag HasNode] s).
  destruct (isNull packageJson) eqn:Hnull; [by destruct packageJson|].
  rewrite (store_bind_normal _ _ _ _ _ _ (run_member _ _ _ Hnull)).
  rewrite (store_bind_normal _ _ _ _ _ _ (run_member _ _ _ Hnull)).
  match goal with
  | |- context [bind (when ?c ?blk) ?k] =>
      assert (touching dependencyBlocks (when c blk)) as Hblk by touching_tac;
      assert (total (when c blk)) as Htot
        by (apply total_when; repeat (apply total_bind; [|intros]);
            auto using total_when, total_modify with total);
      rewrite (store_seq (when c blk) (k tt) s0 Htot);
      exists (store (when c blk) s0); split; [apply Hblk|];
      generalize (store (when c blk) s0)
  end.
  intros s1. unfold finishNode, store, run, bind, modify, get, when. simpl.
  by destruct (TechStack.hasTypeScript s1).
Qed.
End Probes.

Lemma holds_frame {A} (m : M TechStack.t A) W x s :
  touching W m → x ∉ concat W → holds x (store m s) ↔ holds x s.
Proof. intros Hm Hx. by apply (touches_frame W). Qed.

Lemma detectJava_touching_both h : touching [mavenBlock; gradleBlock] (detectJava h).
Proof.
  eapply touching_weaken; [apply detectJava_touching|].
  unfold javaBlock. destruct (accessible h "pom.xml").
  - apply sublist_skip, sublist_nil_l.
  - apply sublist_cons. reflexivity.
Qed.

Ltac untouched := by apply (bool_decide_unpack _).

(** One probe off the end of a chain of probes that leave [x] alone. *)
Ltac frame_out :=
  match goal with
  | |- context [holds ?x (store (detectKubernetes ?h) ?s)] =>
      rewrite (holds_frame _ _ x s (detectKubernetes_touching h)) by untouched
  | |- context [holds ?x (store (detectDocker ?h) ?s)] =>
      rewrite (holds_frame _ _ x s (detectDocker_touching h)) by untouched
  | |- context [holds ?x (store (detectCloud ?h) ?s)] =>
      rewrite (holds_frame _ _ x s (detectCloud_touching h)) by untouched
  | |- context [holds ?x (store (detectRust ?h) ?s)] =>
      rewrite (holds_frame _ _ x s (detectRust_touching h)) by untouched
  | |- context [holds ?x (store (detectGo ?h) ?s)] =>
      rewrite (holds_frame _ _ x s (detectGo_touching h)) by untouched
  | |- context [holds ?x (store (detectJava ?h) ?s)] =>
      rewrite (holds_frame _ _ x s (detectJava_touching_both h)) by untouched
  | |- context [holds ?x (store (detectPython ?h) ?s)] =>
      rewrite (holds_frame _ _ x s (detectPython_touching h)) by untouched
  | |- context [holds ?x (store (detectNode ?h) ?s)] =>
      rewrite (holds_frame _ _ x s (detectNode_touching h)) by untouched
  end.

Section StackFacts.
Context (h : Host).

Lemma analyzeTechStack_result {S} (s : S) :
  result (analyzeTechStack h) s = Normal (store (probes h) TechStack.empty).
Proof. unfold result. by rewrite analyzeTechStack_run. Qed.

Lemma finishNode_holds x s :
  holds x (finishNode s) ↔
    holds x s ∨ x = Push Languages "JavaScript"
    ∨ (x = Push Languages "TypeScript" ∧ TechStack.hasTypeScript s = true).
Proof.
  unfold finishNode. cbv zeta.
  change (TechStack.hasTypeScript (perform (Push Languages "JavaScript") s))
    with (TechStack.hasTypeScript s).
  destruct (TechStack.hasTypeScript s).
  - change (perform _ (perform _ s))
      with (performAll [Push Languages "JavaScript"; Push Languages "TypeScript"] s).
    rewrite holds_performAll, !elem_of_cons, elem_of_nil. intuition auto.
  - change (perform ?y s) with (performAll [y] s).
    rewrite holds_performAll, !elem_of_cons, elem_of_nil. intuition discriminate.
Qed.

(** What the Node probe leaves on the initial object. *)
Lemma detectNode_facts :
  let ts := store (detectNode h) TechStack.empty in
  (holds (SetFlag HasNode) ts ↔ is_Some (packageJsonOf h))
  ∧ (holds (Push Languages "JavaScript") ts
     ↔ ∃ packageJson, packageJsonOf h = Some packageJson ∧ isNull packageJson = false)
  ∧ (holds (Push Languages "TypeScript") ts ↔ holds (SetFlag HasTypeScript) ts)
  ∧ (holds (Push Languages "TypeScript") ts → holds (Push Languages "JavaScript") ts).
Proof.
  cbv zeta. pose proof (detectNode_store h TechStack.empty) as Hnode.
  destruct (packageJsonOf h) as [packageJson|]; [|rewrite Hnode].
  2: { split_and!.
       - split; [done|]. by intros [? ?].
       - split; [by intros ?%elem_of_nil|]. by intros (? & ? & ?).
       - split; [by intros ?%elem_of_nil|done].
       - by intros ?%elem_of_nil. }
  cbv zeta in Hnode. destruct (isNull packageJson) eqn:Hnull.
  { rewrite Hnode. split_and!.
    - done.
    - split; [|intros (? & [= <-] & ?); congruence].
      rewrite holds_performAll. intros [?%elem_of_nil|Hin]; [done|].
      by apply (bool_decide_pack _) in Hin.
    - rewrite !holds_performAll. split.
      + intros [?%elem_of_nil|Hin]; [done|]. by apply (bool_decide_pack _) in Hin.
      + intros [?|Hin]; [done|]. by apply (bool_decide_pack _) in Hin.
    - rewrite !holds_performAll. intros [?%elem_of_nil|Hin]; [done|].
      by apply (bool_decide_pack _) in Hin. }
  destruct Hnode as (s1 & Hs1 & ->).
  assert (¬ holds (Push Languages "TypeScript") s1) as Hts.
  { rewrite (touches_frame _ _ _ _ Hs1) by untouched. rewrite holds_performAll.
    intros [?%elem_of_nil|Hin]; [done|]. by apply (bool_decide_pack _) in Hin. }
  split_and!.
  - split; [done|]. intros _. rewrite finishNode_holds. left.
    eapply touches_mono; [done|]. rewrite holds_performAll. right. untouched.
  - split; [by exists packageJson|]. intros _. rewrite finishNode_holds. auto.
  - rewrite !finishNode_holds. simpl. intuition (try discriminate; auto).
  - intros _. rewrite finishNode_holds. auto.
Qed.
End StackFacts.

(** X1.  [languages] lists each language at most once, in the order of the
    probes; [packageManagers] never holds both Maven and Gradle. *)
Theorem languages_in_probe_order (h : Host) :
  ∃ ts, result (analyzeTechStack h) () = Normal ts
    ∧ TechStack.languages ts
        `sublist_of` ["JavaScript"; "TypeScript"; "Python"; "Java"; "Go"; "Rust"]
    ∧ NoDup (TechStack.languages ts)
    ∧ ¬ ("Maven" ∈ TechStack.packageManagers ts ∧ "Gradle" ∈ TechStack.packageManagers ts).
Proof.
  exists (store (probes h) TechStack.empty). split; [apply analyzeTechStack_result|].
  pose proof (probes_touching h TechStack.empty) as Ht.
  destruct (touches_field _ _ _ Languages Ht) as (l & Hl & El).
  destruct (touches_field _ _ _ PackageManagers Ht) as (pm & Hpm & Epm).
  simpl in El, Epm. rewrite El, Epm.
  assert (l `sublist_of` ["JavaScript"; "TypeScript"; "Python"; "Java"; "Go"; "Rust"]) as Hl'.
  { revert Hl. unfold javaBlock. destruct (accessible h "pom.xml"); intros Hl; exact Hl. }
  split_and!.
  - done.
  - eapply sublist_NoDup; [|exact Hl']. by apply (bool_decide_unpack _).
  - intros [Hm Hg]. revert Hpm. unfold javaBlock.
    destruct (accessible h "pom.xml"); intros Hpm.
    + eapply elem_of_sublist in Hg; [|done]. by apply (bool_decide_pack _) in Hg.
    + eapply elem_of_sublist in Hm; [|done]. by apply (bool_decide_pack _) in Hm.
Qed.

(** X2.  The flags of the tech stack agree with its arrays. *)
Theorem flags_agree_with_arrays (h : Host) :
  ∃ ts, result (analyzeTechStack h) () = Normal ts
    ∧ (TechStack.hasNode ts = true ↔ "npm" ∈ TechStack.packageManagers ts)
    ∧ (TechStack.hasReact ts = true ↔ "React" ∈ TechStack.frameworks ts)
    ∧ (TechStack.hasTypeScript ts = true ↔ "TypeScript" ∈ TechStack.languages ts)
    ∧ (TechStack.hasPython ts = true ↔ "Python" ∈ TechStack.languages ts)
    ∧ (TechStack.hasJava ts = true ↔ "Java" ∈ TechStack.languages ts)
    ∧ (TechStack.hasGo ts = true ↔ "Go" ∈ TechStack.languages ts)
    ∧ (TechStack.hasRust ts = true ↔ "Rust" ∈ TechStack.languages ts)
    ∧ ("JavaScript" ∈ TechStack.languages ts → TechStack.hasNode ts = true)
    ∧ ("TypeScript" ∈ TechStack.languages ts → "JavaScript" ∈ TechStack.languages ts).
Proof.
  exists (store (probes h) TechStack.empty). split; [apply analyzeTechStack_result|].
  pose proof (probes_touching h TechStack.empty) as Ht.
  assert (∀ f a v,
            Forall (λ b, bool_decide (SetFlag f ∈ b) = bool_decide (Push a v ∈ b))
                   (probeBlocks [mavenBlock])
            → Forall (λ b, bool_decide (SetFlag f ∈ b) = bool_decide (Push a v ∈ b))
                     (probeBlocks [gradleBlock])
            → TechStack.flagOf f (store (probes h) TechStack.empty) = true
              ↔ v ∈ TechStack.field a (store (probes h) TechStack.empty)) as Hcoupled.
  { intros f a v Hm Hg.
    apply (touches_coupled _ _ _ (SetFlag f) (Push a v) Ht).
    - unfold javaBlock. by destruct (accessible h "pom.xml").
    - simpl. split; [by destruct f|]. destruct a; by intros ?%elem_of_nil. }
  pose proof (detectNode_facts h) as (Hnode & Hjs & Hts & Htsjs). cbv zeta in *.
  split_and!.
  - apply (Hcoupled HasNode PackageManagers); by repeat constructor.
  - apply (Hcoupled HasReact Frameworks); by repeat constructor.
  - change (holds (SetFlag HasTypeScript) (store (probes h) TechStack.empty)
            ↔ holds (Push Languages "TypeScript") (store (probes h) TechStack.empty)).
    rewrite store_probes. repeat frame_out. by symmetry.
  - apply (Hcoupled HasPython Languages); by repeat constructor.
  - apply (Hcoupled HasJava Languages); by repeat constructor.
  - apply (Hcoupled HasGo Languages); by repeat constructor.
  - apply (Hcoupled HasRust Languages); by repeat constructor.
  - change (holds (Push Languages "JavaScript") (store (probes h) TechStack.empty)
            → holds (SetFlag HasNode) (store (probes h) TechStack.empty)).
    rewrite store_probes. repeat frame_out. rewrite Hnode, Hjs.
    intros (packageJson & -> & _). done.
  - change (holds (Push Languages "TypeScript") (store (probes h) TechStack.empty)
            → holds (Push Languages "JavaScript") (store (probes h) TechStack.empty)).
    rewrite store_probes. repeat frame_out. done.
Qed.

Lemma isNull_false (value : JSON) : isNull value = false ↔ value ≠ JNull.
Proof. by destruct value. Qed.

(** Nothing shows in the object [analyzeTechStack] starts from. *)
Lemma holds_empty x : ¬ holds x TechStack.empty.
Proof. destruct x as [a v|f]; simpl; [destruct a; by intros ?%elem_of_nil|by destruct f]. Qed.

Ltac decided :=
  match goal with
  | |- _ ∈ _ => by apply (bool_decide_unpack _)
  end.

(** A hypothesis that cannot be: a write that shows in the initial object,
    a write in a block that does not have it, [true = false]. *)
Ltac refute H :=
  lazymatch type of H with
  | _ ∨ _ => destruct H as [H|H]; refute H
  | _ ∧ _ => let H' := fresh in destruct H as [H H']; first [discriminate H|discriminate H']
  | holds _ TechStack.empty => by apply holds_empty in H
  | _ ∈ _ => by apply (bool_decide_pack _) in H
  | _ => discriminate H
  end.

Ltac both_ways :=
  let H := fresh in
  split; intros H; first [done|right; decided|refute H].

(** X3.  What each flag and identifier of the tech stack says about the
    workspace. *)
Theorem detection_conditions (h : Host) :
  ∃ ts, result (analyzeTechStack h) () = Normal ts
    ∧ (TechStack.hasNode ts = true ↔ is_Some (packageJsonOf h))
    ∧ ("JavaScript" ∈ TechStack.languages ts
       ↔ ∃ packageJson, packageJsonOf h = Some packageJson ∧ packageJson ≠ JNull)
    ∧ TechStack.hasPython ts = accessible h "requirements.txt"
    ∧ TechStack.hasJava ts = accessible h "pom.xml" || accessible h "build.gradle"
    ∧ ("Maven" ∈ TechStack.packageManagers ts ↔ accessible h "pom.xml" = true)
    ∧ ("Gradle" ∈ TechStack.packageManagers ts
       ↔ accessible h "pom.xml" = false ∧ accessible h "build.gradle" = true)
    ∧ TechStack.hasGo ts = accessible h "go.mod"
    ∧ TechStack.hasRust ts = accessible h "Cargo.toml"
    ∧ ("Docker" ∈ TechStack.buildTools ts ↔ accessible h "Dockerfile" = true).
Proof.
  exists (store (probes h) TechStack.empty). split; [apply analyzeTechStack_result|].
  pose proof (detectNode_facts h) as (Hnode & Hjs & _ & _). cbv zeta in *.
  set (ts := store (probes h) TechStack.empty).
  assert (∀ f b, (holds (SetFlag f) ts ↔ b = true) → TechStack.flagOf f ts = b) as Hflag.
  { intros f b Hb. by apply eq_true_iff_eq. }
  subst ts. split_and!.
  - change (holds (SetFlag HasNode) (store (probes h) TechStack.empty) ↔ is_Some (packageJsonOf h)).
    rewrite store_probes. by repeat frame_out.
  - change (holds (Push Languages "JavaScript") (store (probes h) TechStack.empty)
            ↔ ∃ packageJson, packageJsonOf h = Some packageJson ∧ packageJson ≠ JNull).
    rewrite store_probes. repeat frame_out. rewrite Hjs.
    by setoid_rewrite isNull_false.
  - apply (Hflag HasPython). rewrite store_probes. repeat frame_out.
    rewrite detectPython_store. destruct (accessible h "requirements.txt").
    + rewrite holds_performAll. split; [done|]. intros _. right.
      unfold pythonWrites. apply elem_of_app. left. decided.
    + repeat frame_out. both_ways.
  - apply (Hflag HasJava). rewrite store_probes. repeat frame_out.
    rewrite detectJava_store.
    destruct (accessible h "pom.xml"), (accessible h "build.gradle"); cbn [orb];
      rewrite ?holds_performAll; repeat frame_out; both_ways.
  - change (holds (Push PackageManagers "Maven") (store (probes h) TechStack.empty)
            ↔ accessible h "pom.xml" = true).
    rewrite store_probes. repeat frame_out. rewrite detectJava_store.
    destruct (accessible h "pom.xml"), (accessible h "build.gradle");
      rewrite ?holds_performAll; repeat frame_out; both_ways.
  - change (holds (Push PackageManagers "Gradle") (store (probes h) TechStack.empty)
            ↔ accessible h "pom.xml" = false ∧ accessible h "build.gradle" = true).
    rewrite store_probes. repeat frame_out. rewrite detectJava_store.
    destruct (accessible h "pom.xml"), (accessible h "build.gradle");
      rewrite ?holds_performAll; repeat frame_out; both_ways.
  - apply (Hflag HasGo). rewrite store_probes. repeat frame_out.
    rewrite detectGo_store. destruct (accessible h "go.mod");
      rewrite ?holds_performAll; repeat frame_out; both_ways.
  - apply (Hflag HasRust). rewrite store_probes. repeat frame_out.
    rewrite detectRust_store. destruct (accessible h "Cargo.toml");
      rewrite ?holds_performAll; repeat frame_out; both_ways.
  - change (holds (Push BuildTools "Docker") (store (probes h) TechStack.empty)
            ↔ accessible h "Dockerfile" = true).
    rewrite store_probes. repeat frame_out. rewrite detectDocker_store.
    destruct (accessible h "Dockerfile").
    + change (perform ?y ?s) with (performAll [y] s). rewrite holds_performAll. both_ways.
    + repeat frame_out. both_ways.
Qed.

(** What the Python probe pushes on [frameworks]. *)
Lemma python_framework (h : Host) fw :
  Push Frameworks fw ∉ concat nodeBlocks →
  fw ∈ TechStack.frameworks (store (probes h) TechStack.empty)
  ↔ accessible h "requirements.txt" = true
    ∧ Push Frameworks fw ∈ pythonWrites (fs_readFile h "requirements.txt").
Proof.
  intros Hnode.
  change (holds (Push Frameworks fw) (store (probes h) TechStack.empty)
          ↔ accessible h "requirements.txt" = true
            ∧ Push Frameworks fw ∈ pythonWrites (fs_readFile h "requirements.txt")).
  rewrite store_probes.
  assert (∀ {A} (m : M TechStack.t A) W s,
            touching W m → Forall (Forall (λ x, ∀ v, x ≠ Push Frameworks v)) W →
            holds (Push Frameworks fw) (store m s) ↔ holds (Push Frameworks fw) s) as Hframe.
  { intros A m W s Hm HW. apply (holds_frame m W); [done|].
    intros (b & Hb & Hin)%elem_of_concat.
    rewrite Forall_forall in HW. specialize (HW b Hb).
    rewrite Forall_forall in HW. by apply (HW _ Hin fw). }
  rewrite (Hframe _ _ _ _ (detectKubernetes_touching h)) by (by repeat constructor).
  rewrite (Hframe _ _ _ _ (detectDocker_touching h)) by (by repeat constructor).
  rewrite (Hframe _ _ _ _ (detectCloud_touching h)) by (by repeat constructor).
  rewrite (Hframe _ _ _ _ (detectRust_touching h)) by (by repeat constructor).
  rewrite (Hframe _ _ _ _ (detectGo_touching h)) by (by repeat constructor).
  rewrite (Hframe _ _ _ _ (detectJava_touching_both h)) by (by repeat constructor).
  rewrite detectPython_store. destruct (accessible h "requirements.txt").
  - rewrite holds_performAll.
    rewrite (holds_frame _ _ _ _ (detectNode_touching h)) by done.
    split; [intros [?%holds_empty|?]; [done|by split]|intros [_ ?]; by right].
  - rewrite (holds_frame _ _ _ _ (detectNode_touching h)) by done.
    split; [by intros ?%holds_empty|by intros [? _]].
Qed.

(** X4.  Python frameworks are detected from the text of requirements.txt,
    which must be accessible and readable; the markers are matched as
    written, in lower case. *)
Theorem python_frameworks_from_requirements (h : Host) :
  ∃ ts, result (analyzeTechStack h) () = Normal ts
    ∧ ("Django" ∈ TechStack.frameworks ts ↔ requirementsMention h "django")
    ∧ ("Flask" ∈ TechStack.frameworks ts ↔ requirementsMention h "flask")
    ∧ ("FastAPI" ∈ TechStack.frameworks ts ↔ requirementsMention h "fastapi").
Proof.
  exists (store (probes h) TechStack.empty).
  split; [apply analyzeTechStack_result|].
  assert (∀ fw marker,
            (∀ content, Push Frameworks fw ∈ pythonWrites (Normal content)
                        ↔ includes content marker = true) →
            Push Frameworks fw ∉ pythonWrites (Throw enoent) →
            Push Frameworks fw ∈ pythonWrites (fs_readFile h "requirements.txt")
            ↔ ∃ content, fs_readFile h "requirements.txt" = Normal content
                         ∧ includes content marker = true) as Hread.
  { intros fw marker Hnormal Hthrow.
    destruct (fs_readFile h "requirements.txt") as [content|e].
    - rewrite Hnormal. split; [by exists content|by intros (? & [= <-] & ?)].
    - split; [done|by intros (? & [=] & _)]. }
  assert (∀ content fw,
            Push Frameworks fw ∈ pythonWrites (Normal content)
            ↔ (fw = "Django" ∧ includes content "django" = true)
              ∨ (fw = "Flask" ∧ includes content "flask" = true)
              ∨ (fw = "FastAPI" ∧ includes content "fastapi" = true)) as Hwrites.
  { intros content fw. unfold pythonWrites.
    destruct (includes content "django"), (includes content "flask"),
      (includes content "fastapi"), (includes content "sqlalchemy"); simpl;
      rewrite ?elem_of_cons, elem_of_nil; intuition congruence. }
  unfold requirementsMention. split_and!.
  - rewrite python_framework by (by apply (bool_decide_unpack _)).
    rewrite (Hread "Django" "django"); [done| |by apply (bool_decide_unpack _)].
    intros content. rewrite Hwrites. intuition congruence.
  - rewrite python_framework by (by apply (bool_decide_unpack _)).
    rewrite (Hread "Flask" "flask"); [done| |by apply (bool_decide_unpack _)].
    intros content. rewrite Hwrites. intuition congruence.
  - rewrite python_framework by (by apply (bool_decide_unpack _)).
    rewrite (Hread "FastAPI" "fastapi"); [done| |by apply (bool_decide_unpack _)].
    intros content. rewrite Hwrites. intuition congruence.
Qed.

(** ** The calls a computation makes *)

Section Emits.
Context {S : Type}.

Lemma emits_ret {A} (a : A) : emits [] (ret (S:=S) a).
Proof. intros s. done. Qed.

Lemma emits_get : emits [] (get (S:=S)).
Proof. intros s. done. Qed.

Lemma emits_modify f : emits [] (modify (S:=S) f).
Proof. intros s. done. Qed.

Lemma emits_throw {A} e : emits [] (throw (S:=S) (A:=A) e).
Proof. intros s. done. Qed.

Lemma emits_complete {A} (c : Completion A) : emits [] (complete (S:=S) c).
Proof. intros s. done. Qed.

Lemma emits_call {A} ev (c : Completion A) : emits [ev] (call (S:=S) ev c).
Proof. intros s. done. Qed.

Lemma emits_member value k : emits [] (member (S:=S) value k).
Proof. intros s. by destruct value. Qed.

Lemma emits_bind {A B} W1 W2 (m : M S A) (k : A → M S B) :
  emits W1 m → (∀ a, emits W2 (k a)) → emits (W1 ++ W2) (bind m k).
Proof.
  intros Hm Hk s. specialize (Hm s). unfold emits in Hk. unfold_run. unfold bind.
  destruct_run m s. destruct r as [a|e]; simpl.
  - specialize (Hk a s0). destruct_run (k a) s0. by apply sublist_app.
  - by apply sublist_inserts_r.
Qed.

Lemma emits_try_catch {A} W1 W2 (body : M S A) handler :
  emits W1 body → (∀ e, emits W2 (handler e)) → emits (W1 ++ W2) (try_catch body handler).
Proof.
  intros Hm Hk s. specialize (Hm s). unfold emits in Hk. unfold_run. unfold try_catch.
  destruct_run body s. destruct r as [a|e]; simpl.
  - by apply sublist_inserts_r.
  - specialize (Hk e s0). destruct_run (handler e) s0. by apply sublist_app.
Qed.

Lemma emits_when W b (m : M S unit) : emits W m → emits W (when b m).
Proof. destruct b; [done|]. intros _ s. apply sublist_nil_l. Qed.

Lemma emits_weaken {A} W W' (m : M S A) : emits W m → W `sublist_of` W' → emits W' m.
Proof. intros Hm HW s. etrans; [apply Hm|done]. Qed.
End Emits.

Ltac emits_step :=
  first
    [ apply emits_call | apply emits_ret | apply emits_get | apply emits_modify
    | apply emits_member | apply emits_complete | apply emits_throw
    | eapply emits_bind | eapply emits_try_catch | eapply emits_when ];
  intros.

Lemma probes_emits (h : Host) : emits probeCalls (probes h).
Proof.
  eapply emits_weaken.
  - unfold probes, detectNode, detectPython, detectJava, detectGo, detectRust,
      detectCloud, detectDocker, detectKubernetes, readPackageJson, readFile, access,
      glob, push, setFlag.
    repeat emits_step.
  - simpl. reflexivity.
Qed.

(** X5.  The stack builder writes nothing to the console: its outer [catch]
    never runs.  It makes at most ten calls to the file system, in the
    order of the probes. *)
Theorem stack_builder_calls (h : Host) :
  trace (analyzeTechStack h) () `sublist_of` probeCalls
  ∧ Forall (λ ev, isConsole ev = false) (trace (analyzeTechStack h) ())
  ∧ length (trace (analyzeTechStack h) ()) ≤ 10.
Proof.
  assert (trace (analyzeTechStack h) () `sublist_of` probeCalls) as Hcalls.
  { unfold trace. rewrite analyzeTechStack_run. apply probes_emits. }
  split_and!.
  - done.
  - apply Forall_forall. intros ev Hev. eapply elem_of_sublist in Hev; [|done].
    revert Hev. unfold probeCalls. rewrite !elem_of_cons, elem_of_nil.
    intuition (subst; done).
  - by apply sublist_length in Hcalls.
Qed.

(** ** The dependencies of package.json *)

Lemma ownProperty_app k l1 l2 :
  ownProperty k (l1 ++ l2) =
    match ownProperty k l2 with
    | Some v => Some v
    | None => ownProperty k l1
    end.
Proof.
  induction l1 as [|[k' v] l1 IH]; simpl.
  - by destruct (ownProperty k l2).
  - rewrite IH. by destruct (ownProperty k l2).
Qed.

(** The merge of the two objects, key by key, and the TypeScript test. *)
Lemma devDependencies_redundant :
  (∀ dependencies devDependencies k,
     has (spread (Some (JObj dependencies)) ++ spread (Some (JObj devDependencies))) k
     = match ownProperty k devDependencies with
       | Some v => truthy (Some v)
       | None => has dependencies k
       end)
  ∧ ∀ dependencies devDependencies : JsValue,
      has (spread dependencies ++ spread devDependencies) "typescript"
      || truthy (optChain devDependencies "typescript")
      = has (spread dependencies ++ spread devDependencies) "typescript".
Proof.
  split.
  - intros dependencies devDependencies k. unfold has. simpl.
    rewrite ownProperty_app. by destruct (ownProperty k devDependencies).
  - intros dependencies devDependencies. unfold has. rewrite ownProperty_app.
    destruct devDependencies as [[| | | | |fields]|]; simpl; rewrite ?orb_false_r; try done.
    destruct (ownProperty "typescript" fields) as [v|]; [|by rewrite orb_false_r].
    by destruct (truthy (Some v)).
Qed.

(** X6.  In [{ ...dependencies, ...devDependencies }] a key of
    [devDependencies] shadows the same key of [dependencies]; and the second
    test of [deps.typescript || packageJson.devDependencies?.typescript]
    never changes the outcome of the first. *)
Theorem devDependencies_shadow_dependencies :
  (∀ dependencies devDependencies k,
     has (spread (Some (JObj dependencies)) ++ spread (Some (JObj devDependencies))) k
     = match ownProperty k devDependencies with
       | Some v => truthy (Some v)
       | None => has dependencies k
       end)
  ∧ ∀ dependencies devDependencies : JsValue,
      has (spread dependencies ++ spread devDependencies) "typescript"
      || truthy (optChain devDependencies "typescript")
      = has (spread dependencies ++ spread devDependencies) "typescript".
Proof. exact devDependencies_redundant. Qed.

(** ** The skills of the analyzers *)

Lemma addsOnly_skip P u s : addsOnly P u s s.
Proof. exists []. by rewrite app_nil_r. Qed.

Lemma addsOnly_seq P (u1 u2 : unit) s1 s2 s3 :
  addsOnly P u1 s1 s2 → addsOnly P u2 s2 s3 → addsOnly P () s1 s3.
Proof.
  intros (x1 & -> & H1) (x2 & -> & H2). exists (x1 ++ x2).
  rewrite (assoc_L (++)). split; [done|]. by apply Forall_app.
Qed.

Lemma addsOnly_pushSkill (P : Skill.t → Prop) skill :
  P skill → writes (addsOnly P) () (pushSkill skill).
Proof.
  intros HP.
  apply (writes_modify (addsOnly P) () (λ _ _, ()) (addsOnly_skip P) (addsOnly_seq P)).
  intros s. exists [skill]. split; [done|]. by constructor.
Qed.

Section AnalyzerAdds.
Context {S : Type} (P : Skill.t → Prop).

Lemma analyzer_adds (body : M (list Skill.t) unit) (msg : Error → string) :
  writes (addsOnly P) () body →
  returnsOnly (S:=S) P (locally [] (try_catch body (λ e, error (msg e)) ;; get)).
Proof.
  intros Hbody s.
  assert (total (try_catch body (λ e, error (msg e)))) as Htotal
    by (apply total_try_catch; intros; apply total_error).
  assert (writes (addsOnly P) () (try_catch body (λ e, error (msg e)))) as Hadds
    by (apply (writes_try_catch_pure (addsOnly P) () (λ _ _, ())
                 (addsOnly_skip P) (addsOnly_seq P));
        [done|intros; apply pure_error]).
  destruct (Hadds []) as (extra & Hstore & Hextra).
  exists (store (try_catch body (λ e, error (msg e))) []).
  unfold result. rewrite (locally_get _ _ _ Htotal). simpl.
  split; [done|]. by rewrite Hstore.
Qed.

Lemma analyzer_adds_guard (c : bool) note (m : M (list Skill.t) (list Skill.t)) :
  returnsOnly (S:=S) P (locally [] m) →
  returnsOnly (S:=S) P (locally [] (if c then info note;; get else m)).
Proof. intros Hm. destruct c; [|done]. intros s. by exists []. Qed.
End AnalyzerAdds.

Lemma length_pushIf_app b (l k : list string) n :
  n ≤ length k → n ≤ length (pushIf b l ++ k).
Proof. rewrite length_app. lia. Qed.

(** One step through the [try] block of an analyzer, to the skill it
    pushes; [tac] shows that the skill is as announced. *)
Ltac adds_step P tac :=
  match goal with
  | |- writes _ _ (bind (pushSkill _) _) =>
      apply (writes_then_pure (addsOnly P) () (λ _ _, ()) (addsOnly_skip P) (addsOnly_seq P));
        [apply addsOnly_pushSkill; tac|intros; auto with pure]
  | |- writes _ _ (bind _ _) =>
      apply (writes_bind_pure (addsOnly P) () (λ _ _, ()) (addsOnly_skip P) (addsOnly_seq P));
        [solve [auto 10 with pure]|intros]
  | |- writes _ _ (match ?p with _ => _ end) => destruct p
  | |- writes _ _ _ =>
      apply (writes_pure (addsOnly P) () (λ _ _, ()) (addsOnly_skip P) (addsOnly_seq P));
        solve [auto 10 with pure]
  | |- writes _ _ _ => progress cbv zeta
  end.

Ltac adds_tac P tac :=
  repeat lazymatch goal with
  | |- returnsOnly _ (locally [] (if _ then _ else _)) => apply analyzer_adds_guard
  | |- returnsOnly _ (locally [] _) => apply analyzer_adds
  end;
  repeat adds_step P tac.

Ltac as_announced :=
  split_and!; [reflexivity|reflexivity|];
  cbn [Skill.guidelines fst snd]; rewrite ?length_app; simpl; lia.

Section AnalyzersAdd.
Context {S : Type} (h : Host) (techStack : TechStack.t).

Lemma generateSecuritySkills_adds :
  returnsOnly (skillSpec ("security", "security-best-practices", 0))
    (generateSecuritySkills (S:=S) h techStack).
Proof.
  unfold generateSecuritySkills.
  adds_tac (skillSpec ("security", "security-best-practices", 0)) as_announced.
Qed.

Lemma generatePerformanceSkills_adds :
  returnsOnly (skillSpec ("performance", "performance-optimization", 8))
    (generatePerformanceSkills (S:=S) h techStack).
Proof.
  unfold generatePerformanceSkills.
  adds_tac (skillSpec ("performance", "performance-optimization", 8)) as_announced.
Qed.

Lemma generateReactSkills_adds :
  returnsOnly (skillSpec ("react", "react-best-practices", 15))
    (generateReactSkills (S:=S) h techStack).
Proof.
  unfold generateReactSkills.
  adds_tac (skillSpec ("react", "react-best-practices", 15)) as_announced.
Qed.

Lemma generateBackendSkills_adds :
  returnsOnly (skillSpec ("backend", "backend-best-practices", 12))
    (generateBackendSkills (S:=S) h techStack).
Proof.
  unfold generateBackendSkills.
  adds_tac (skillSpec ("backend", "backend-best-practices", 12)) as_announced.
Qed.

Lemma generateFrontendSkills_adds :
  returnsOnly (skillSpec ("frontend", "frontend-best-practices", 19))
    (generateFrontendSkills (S:=S) h techStack).
Proof.
  unfold generateFrontendSkills.
  adds_tac (skillSpec ("frontend", "frontend-best-practices", 19)) as_announced.
Qed.

Lemma generateDatabaseSkills_adds :
  returnsOnly (skillSpec ("database", "database-best-practices", 10))
    (generateDatabaseSkills (S:=S) h techStack).
Proof.
  unfold generateDatabaseSkills.
  adds_tac (skillSpec ("database", "database-best-practices", 10)) as_announced.
Qed.

Lemma generateAPISkills_adds :
  returnsOnly (skillSpec ("api", "api-best-practices", 13))
    (generateAPISkills (S:=S) h techStack).
Proof.
  unfold generateAPISkills.
  adds_tac (skillSpec ("api", "api-best-practices", 13)) as_announced.
Qed.

Lemma generateTestingSkills_adds :
  returnsOnly (skillSpec ("testing", "testing-best-practices", 15))
    (generateTestingSkills (S:=S) h techStack).
Proof.
  unfold generateTestingSkills.
  adds_tac (skillSpec ("testing", "testing-best-practices", 15)) as_announced.
Qed.

Lemma generateDevOpsSkills_adds :
  returnsOnly (skillSpec ("devops", "devops-best-practices", 16))
    (generateDevOpsSkills (S:=S) h techStack).
Proof.
  unfold generateDevOpsSkills.
  adds_tac (skillSpec ("devops", "devops-best-practices", 16)) as_announced.
Qed.
End AnalyzersAdd.

Section RegisteredSkills.
Context (h : Host) (ts : TechStack.t).

(** Each registered analyzer returns nothing or the one skill of its
    domain. *)
Lemma analyzers_add_their_skill :
  Forall2 (λ a spec, ∃ skills, result (Agent.task a) () = Normal skills
                               ∧ length skills ≤ 1 ∧ Forall (skillSpec spec) skills)
          (agentPromises h ts) registeredSkills.
Proof.
  assert (∀ (m : M unit (list Skill.t)) spec,
            returnsAtMostOne m → returnsOnly (skillSpec spec) m →
            ∃ skills, result (thunk m) () = Normal skills
                      ∧ length skills ≤ 1 ∧ Forall (skillSpec spec) skills) as Hboth.
  { intros m spec Hone Honly.
    destruct (Hone ()) as (skills & E & _ & Hlen).
    destruct (Honly ()) as (skills' & E' & Hspec).
    exists skills. rewrite E in E'. simplify_eq.
    split; [by apply result_thunk_normal|done]. }
  unfold agentPromises, registeredSkills.
  repeat first [apply Forall2_nil_2|apply Forall2_cons_2]; cbn [Agent.task]; apply Hboth.
  - apply generateSecuritySkills_returns.
  - apply generateSecuritySkills_adds.
  - apply generatePerformanceSkills_returns.
  - apply generatePerformanceSkills_adds.
  - apply generateReactSkills_returns.
  - apply generateReactSkills_adds.
  - apply generateBackendSkills_returns.
  - apply generateBackendSkills_adds.
  - apply generateFrontendSkills_returns.
  - apply generateFrontendSkills_adds.
  - apply generateDatabaseSkills_returns.
  - apply generateDatabaseSkills_adds.
  - apply generateAPISkills_returns.
  - apply generateAPISkills_adds.
  - apply generateTestingSkills_returns.
  - apply generateTestingSkills_adds.
  - apply generateDevOpsSkills_returns.
  - apply generateDevOpsSkills_adds.
Qed.
End RegisteredSkills.

Lemma contributions_keys (agents : list Agent.t) (specs : list (string * string * nat)) :
  Forall2 (λ a spec, ∃ skills, result (Agent.task a) () = Normal skills
                               ∧ length skills ≤ 1 ∧ Forall (skillSpec spec) skills)
          agents specs →
  skillKey <$> concat (contribution <$> agents) `sublist_of` fst <$> specs.
Proof.
  induction 1 as [|a spec agents specs (skills & E & Hlen & Hspec) _ IH]; simpl; [done|].
  unfold contribution at 1. rewrite E.
  destruct skills as [|skill [|]]; simpl in *; [by apply sublist_cons| |lia].
  apply Forall_cons in Hspec as [(Hc & Hn & _) _].
  unfold skillKey at 1. rewrite Hc, Hn. rewrite <-surjective_pairing.
  by apply sublist_skip.
Qed.

(** X7.  Each registered analyzer returns nothing or one skill, and that
    skill has the category and the name of its domain and at least the
    guidelines that do not depend on what was detected. *)
Theorem analyzers_return_their_own_skill (h : Host) (ts : TechStack.t) :
  Forall2 (λ a spec, ∃ skills, result (Agent.task a) () = Normal skills
                               ∧ length skills ≤ 1 ∧ Forall (skillSpec spec) skills)
          (agentPromises h ts) registeredSkills.
Proof. apply analyzers_add_their_skill. Qed.

(** X8.  The skills of a run are some of the nine registered skills, in
    registration order: no two have the same name or the same category, so
    no skill is persisted over another, and there are at most nine. *)
Theorem skills_of_a_run_are_distinct (h : Host) (answers : nat → bool) (latency : nat → nat) :
  ∃ r sink t,
    main h answers latency = (Returned r, sink, t)
    ∧ skillKey <$> MainResult.skills r `sublist_of` fst <$> registeredSkills
    ∧ NoDup (Skill.name <$> MainResult.skills r)
    ∧ NoDup (Skill.category <$> MainResult.skills r)
    ∧ Report.totalSkillsGenerated (MainResult.report r) ≤ 9.
Proof.
  destruct (main_returns h answers latency) as [t E]. cbv zeta in E.
  eexists _, _, t. split; [exact E|].
  set (ts := store (probes h) TechStack.empty).
  assert (concat (skillsOf <$> (agentResult <$> agentPromises h ts))
          = concat (contribution <$> agentPromises h ts)) as Hskills.
  { f_equal. rewrite <-list_fmap_compose. apply list_fmap_ext. intros i a _.
    apply skillsOf_agentResult. }
  pose proof (contributions_keys _ _ (analyzers_add_their_skill h ts)) as Hkeys.
  cbn [MainResult.skills MainResult.report Report.totalSkillsGenerated reportOf].
  rewrite Hskills. split_and!.
  - done.
  - assert (Skill.name <$> concat (contribution <$> agentPromises h ts)
            = snd <$> (skillKey <$> concat (contribution <$> agentPromises h ts))) as ->
      by (by rewrite <-list_fmap_compose).
    eapply sublist_NoDup; [|by apply fmap_sublist]. by apply (bool_decide_unpack _).
  - assert (Skill.category <$> concat (contribution <$> agentPromises h ts)
            = fst <$> (skillKey <$> concat (contribution <$> agentPromises h ts))) as ->
      by (by rewrite <-list_fmap_compose).
    eapply sublist_NoDup; [|by apply fmap_sublist]. by apply (bool_decide_unpack _).
  - apply sublist_length in Hkeys. by rewrite !length_fmap in Hkeys.
Qed.

(** ** Scans *)

Section ScanResults.
Context {S : Type} (h : Host).

(** A scan folds the files it reads into its flags; a file that cannot be
    read changes nothing and stops nothing. *)
Lemma run_scanAll {F} files (step : string → F → F) flags (s : S) :
  run (scanAll h files step flags) s
  = (Normal (foldl (scanFile h step) flags files), s, FsReadFile <$> files).
Proof.
  revert flags. induction files as [|file rest IH]; intros flags; [done|]. simpl.
  rewrite (run_bind_normal _ _ _ _ _ _ (run_scan_body h file _ _ s)).
  by rewrite IH.
Qed.

Lemma returns_scanAll {F} files (step : string → F → F) flags (s : S) :
  returns (scanAll h files step flags) s (foldl (scanFile h step) flags files) s.
Proof. eexists. apply run_scanAll. Qed.

Lemma returns_read {B} file (f : string → B) (d : B) (s : S) :
  returns (try_catch (content ← readFile h file; ret (f content)) (λ e, ret d)) s
          (match fs_readFile h file with Normal content => f content | Throw _ => d end) s.
Proof. eexists. apply run_scan_body. Qed.

Lemma returns_scanUntil files test (s : S) :
  returns (scanUntil h files test) s (existsb (matches h test) files) s.
Proof. eexists. apply run_scanUntil. Qed.
End ScanResults.

Lemma scanFile_matches (h : Host) (test : string → bool) (b : bool) file :
  scanFile h (λ content flag, flag || test content) b file = b || matches h test file.
Proof.
  unfold scanFile, matches. destruct (fs_readFile h file); [done|by rewrite orb_false_r].
Qed.

Lemma hooks_found (h : Host) files f :
  foldl (scanFile h hookMarkers) f files = {|
    usesHooks := usesHooks f
      || existsb (matches h (λ c, includes c "use" && includes c "const")) files;
    usesContext := usesContext f
      || existsb (matches h (λ c, includes c "useContext" || includes c "Context")) files;
    usesState := usesState f || existsb (matches h (λ c, includes c "useState")) files;
    usesEffect := usesEffect f || existsb (matches h (λ c, includes c "useEffect")) files;
    usesCustomHooks := usesCustomHooks f
      || existsb (matches h (λ c, includes c "function use" || includes c "const use")) files
  |}.
Proof.
  revert f. induction files as [|file rest IH]; intros f; simpl.
  - rewrite !orb_false_r. by destruct f.
  - rewrite IH. unfold scanFile, matches, hookMarkers.
    destruct (fs_readFile h file) as [content|e]; simpl; [|done].
    by rewrite !orb_assoc.
Qed.

Lemma state_found (h : Host) files (f : bool * bool * bool) :
  foldl (scanFile h stateMarkers) f files =
    (f.1.1 || existsb (matches h (λ c, includes c "redux" || includes c "createSlice")) files,
     f.1.2 || existsb (matches h (λ c, includes c "zustand" || includes c "create(")) files,
     f.2 || existsb (matches h (λ c, includes c "mobx" || includes c "observable")) files).
Proof.
  revert f. induction files as [|file rest IH]; intros [[r z] m]; simpl.
  - by rewrite !orb_false_r.
  - rewrite IH. unfold scanFile, matches, stateMarkers.
    destruct (fs_readFile h file) as [content|e]; simpl; [|done].
    by rewrite !orb_assoc.
Qed.

Lemma api_found (h : Host) files (f : bool * bool) :
  foldl (scanFile h apiMarkers) f files =
    (f.1 || existsb (matches h (λ c, includes c "GET" || includes c "POST"
                                     || includes c "PUT" || includes c "DELETE")) files,
     f.2 || existsb (matches h (λ c, includes c "graphql" || includes c "GraphQL"
                                     || includes c "gql`")) files).
Proof.
  revert f. induction files as [|file rest IH]; intros [r g]; simpl.
  - by rewrite !orb_false_r.
  - rewrite IH. unfold scanFile, matches, apiMarkers.
    destruct (fs_readFile h file) as [content|e]; simpl; [|done].
    by rewrite !orb_assoc.
Qed.

(** X9.  A flag of a scan is set when one of the candidates within the cap
    can be read and has the marker: unreadable files are skipped, and the
    order of the candidates does not matter. *)
Theorem scan_flags (h : Host) (files : list string) :
  result (scanHooks h files) () = Normal {|
    usesHooks :=
      existsb (matches h (λ c, includes c "use" && includes c "const")) (take 30 files);
    usesContext :=
      existsb (matches h (λ c, includes c "useContext" || includes c "Context"))
              (take 30 files);
    usesState := existsb (matches h (λ c, includes c "useState")) (take 30 files);
    usesEffect := existsb (matches h (λ c, includes c "useEffect")) (take 30 files);
    usesCustomHooks :=
      existsb (matches h (λ c, includes c "function use" || includes c "const use"))
              (take 30 files)
  |}
  ∧ result (scanStateManagement h files) () = Normal
      (existsb (matches h (λ c, includes c "redux" || includes c "createSlice"))
               (take 10 files),
       existsb (matches h (λ c, includes c "zustand" || includes c "create(")) (take 10 files),
       existsb (matches h (λ c, includes c "mobx" || includes c "observable")) (take 10 files))
  ∧ result (scanApiFiles h files) () = Normal
      (existsb (matches h (λ c, includes c "GET" || includes c "POST"
                                || includes c "PUT" || includes c "DELETE")) (take 20 files),
       existsb (matches h (λ c, includes c "graphql" || includes c "GraphQL"
                                || includes c "gql`")) (take 20 files)).
Proof.
  unfold scanHooks, scanStateManagement, scanApiFiles, result.
  rewrite !run_scanAll. simpl. by rewrite hooks_found, state_found, api_found.
Qed.

(** ** What the analyzers make of the workspace *)

Section PureTotal.
Context {S : Type}.

(** A computation that never throws and leaves the store alone returns
    some value on the store it found. *)
Lemma returns_pure_total {A} (m : M S A) s : total m → pure m → ∃ a, returns m s a s.
Proof.
  intros Ht Hp. destruct (Ht s) as [a Ha]. specialize (Hp s). exists a.
  unfold returns. unfold_run. destruct (m s) as [[r s1] t]. simpl in *. subst. by exists t.
Qed.
End PureTotal.

(** X10.  With nothing detected (no Node and no Python flag, no file found by
    the globs) the security analyzer still returns its skill, and that
    skill has no guideline at all. *)
Theorem security_skill_without_guidelines (h : Host) (ts : TechStack.t) :
  (∀ pattern ignore, glob_files h pattern ignore = Normal []) →
  TechStack.hasNode ts = false →
  TechStack.hasPython ts = false →
  ∃ skill, result (generateSecuritySkills h ts) () = Normal [skill]
           ∧ Skill.name skill = "security-best-practices"
           ∧ Skill.guidelines skill = [].
Proof.
  intros Hglob Hnode Hpython. eexists. split.
  - eapply (returns_result _ _ _ ()). unfold generateSecuritySkills.
    eapply returns_locally, returns_bind; [|apply returns_get].
    apply returns_try_catch.
    repeat (eapply returns_bind; [by apply returns_glob|]).
    eapply returns_bind; [apply returns_scanUntil|]. cbv zeta.
    eapply returns_bind; [apply returns_modify|]. apply returns_info.
  - rewrite Hnode, Hpython. split; reflexivity.
Qed.

Lemma security_skill_without_guidelines_witness :
  ∃ skill, result (generateSecuritySkills missingRoot TechStack.empty) () = Normal [skill]
           ∧ Skill.name skill = "security-best-practices"
           ∧ Skill.guidelines skill = [].
Proof. apply security_skill_without_guidelines; reflexivity. Defined.

Lemma Forall_pushIf {A} (P : A → Prop) (b : bool) (l : list A) :
  Forall P l → Forall P (if b then l else []).
Proof. by destruct b. Qed.

(** X11.  No guideline of the testing analyzer mentions JUnit: [usesJUnit]
    is never set, so the Java branch adds nothing. *)
Theorem testing_skill_never_mentions_JUnit (h : Host) (ts : TechStack.t) :
  ∃ skills, result (generateTestingSkills h ts) () = Normal skills
            ∧ Forall (λ skill, Forall (λ guideline, includes guideline "JUnit" = false)
                                      (Skill.guidelines skill)) skills.
Proof.
  revert h ts.
  assert (∀ h ts, returnsOnly (S:=unit)
                    (λ skill, Forall (λ guideline, includes guideline "JUnit" = false)
                                     (Skill.guidelines skill))
                    (generateTestingSkills h ts)) as Honly; [|intros h ts; apply Honly].
  intros h ts. unfold generateTestingSkills.
  adds_tac (λ skill, Forall (λ guideline, includes guideline "JUnit" = false)
                            (Skill.guidelines skill))
    ltac:(cbn [Skill.guidelines]; unfold pushIf;
          repeat first [apply Forall_app_2|apply Forall_pushIf];
          by repeat constructor).
Qed.

Section PackageJson.
Context {S : Type} (h : Host).

(** [try { deps = merged dependencies of package.json; ... } catch (e) { }]:
    whatever goes wrong with [package.json] (it cannot be read, it does not
    parse, it is [null]) leaves the default. *)
Lemma run_with_dependencies {B} (f : list (string * JSON) → B) (d : B) (s : S) :
  run (try_catch (packageJson ← readPackageJson h;
                  deps ← mergedDeps packageJson;
                  ret (f deps))
                 (λ e, ret d)) s
  = (Normal (match dependenciesOf h with Some deps => f deps | None => d end),
     s, [FsReadFile "package.json"]).
Proof.
  unfold dependenciesOf, packageJsonOf, run, try_catch, bind, readPackageJson, readFile,
    call, complete, mergedDeps, ret.
  destruct (fs_readFile h "package.json") as [content|e]; simpl; [|done].
  destruct (JSON_parse h content) as [packageJson|e]; simpl; [|done].
  by destruct packageJson.
Qed.

Lemma returns_with_dependencies {B} (f : list (string * JSON) → B) (d : B) (s : S) :
  returns (try_catch (packageJson ← readPackageJson h;
                      deps ← mergedDeps packageJson;
                      ret (f deps))
                     (λ e, ret d)) s
          (match dependenciesOf h with Some deps => f deps | None => d end) s.
Proof. eexists. apply run_with_dependencies. Qed.
End PackageJson.

(** X12.  Given the API files the glob finds, the API analyzer returns one
    skill.  The REST guidelines are in it exactly when at least one API file
    was found, whatever the files contain; the GraphQL guidelines when a
    scanned file or a dependency of package.json points at GraphQL. *)
Theorem api_skill_follows_the_files (h : Host) (ts : TechStack.t) (files : list string) :
  apiFilesOf h = Normal files →
  let hasGraphQL :=
    existsb (matches h (λ c, includes c "graphql" || includes c "GraphQL"
                             || includes c "gql`")) (take 20 files)
    || match dependenciesOf h with
       | Some deps => has deps "apollo-server" || has deps "graphql"
                      || has deps "@apollo/server"
       | None => false
       end in
  ∃ skill, result (generateAPISkills h ts) () = Normal [skill]
           ∧ Skill.guidelines skill
             = (if bool_decide (files = []) then [] else restGuidelines)
               ++ pushIf hasGraphQL graphqlGuidelines ++ generalApiGuidelines.
Proof.
  intros Hfiles hasGraphQL. eexists. split.
  - eapply (returns_result _ _ _ ()). unfold generateAPISkills.
    eapply returns_locally, returns_bind; [|apply returns_get].
    apply returns_try_catch.
    eapply returns_bind; [by apply returns_glob|].
    eapply returns_bind; [apply returns_scanAll|].
    rewrite api_found. cbv beta iota.
    cbn [fst snd orb].
    eapply returns_bind; [apply returns_with_dependencies|]. cbv zeta.
    eapply returns_bind; [apply returns_modify|]. apply returns_info.
  - cbn [Skill.guidelines fst snd orb]. f_equal; [|f_equal].
    + destruct files as [|file files]; [done|].
      rewrite (bool_decide_eq_true_2 (0 < _)) by (simpl; lia).
      by rewrite orb_true_r.
    + f_equal. subst hasGraphQL.
      destruct (dependenciesOf h); by rewrite ?orb_assoc, ?orb_false_r.
Qed.

Lemma api_skill_follows_the_files_witness :
  ∃ skill, result (generateAPISkills twoComponents TechStack.empty) () = Normal [skill]
           ∧ Skill.guidelines skill = restGuidelines ++ generalApiGuidelines.
Proof.
  destruct (api_skill_follows_the_files twoComponents TechStack.empty
              ["src/Counter.jsx"; "src/Toggle.jsx"] eq_refl) as (skill & E & Hg).
  exists skill. split; [exact E|exact Hg].
Defined.

(** ** Errors inside an analyzer *)

Section FirstCall.
Context {S : Type}.

(** When the first glob of the [try] block fails: that call, then the
    error line, and the array comes back empty. *)
Lemma analyzer_first_glob_fails h e pattern ignore
    (k : list string → M (list Skill.t) unit) msg (s : S) :
  run (locally [] (try_catch (bind (glob (globFailing h e) pattern ignore) k)
                             (λ e, error (msg e)) ;; get)) s
  = (Normal [], s, [GlobCall pattern; ConsoleError (msg e)]).
Proof. reflexivity. Qed.
End FirstCall.

(** X13.  On a host whose [glob] fails, each analyzer past its guard stops
    at its first glob: it makes no other call, writes one line to
    [console.error] that names the analyzer and carries the message of the
    error, and writes no line to [console.log]. *)
Theorem internal_failure_is_logged (h : Host) (ts : TechStack.t) (e : Error) :
  TechStack.hasReact ts = true →
  TechStack.databases ts ≠ [] →
  Forall2 (λ a call,
             trace (Agent.task a) ()
             = [GlobCall call.1;
                ConsoleError ("Error in " +:+ call.2 +:+ " analyzer: " +:+ message e)])
          (agentPromises (globFailing h e) ts) firstGlobs.
Proof.
  intros Hreact Hdb. unfold agentPromises, firstGlobs.
  repeat first [apply Forall2_nil_2|apply Forall2_cons_2]; cbn [Agent.task fst snd];
    rewrite trace_thunk; unfold trace.
  - unfold generateSecuritySkills. by rewrite analyzer_first_glob_fails.
  - unfold generatePerformanceSkills. by rewrite analyzer_first_glob_fails.
  - unfold generateReactSkills. rewrite Hreact. cbn [negb].
    by rewrite analyzer_first_glob_fails.
  - unfold generateBackendSkills. by rewrite analyzer_first_glob_fails.
  - unfold generateFrontendSkills. by rewrite analyzer_first_glob_fails.
  - unfold generateDatabaseSkills. cbv zeta.
    rewrite bool_decide_eq_false_2 by (by destruct (TechStack.databases ts)).
    by rewrite analyzer_first_glob_fails.
  - unfold generateAPISkills. by rewrite analyzer_first_glob_fails.
  - unfold generateTestingSkills. by rewrite analyzer_first_glob_fails.
  - unfold generateDevOpsSkills. by rewrite analyzer_first_glob_fails.
Qed.

Lemma internal_failure_is_logged_witness :
  Forall2 (λ a call,
             trace (Agent.task a) ()
             = [GlobCall call.1;
                ConsoleError ("Error in " +:+ call.2 +:+ " analyzer: " +:+ message enoent)])
          (agentPromises (globFailing missingRoot enoent) reactStack) firstGlobs.
Proof. apply internal_failure_is_logged; done. Defined.

(** ** The database analyzer *)

Lemma arrayIncludes_false (l : list string) x :
  x ∉ l → arrayIncludes l x = false.
Proof. intros H. unfold arrayIncludes. by apply bool_decide_eq_false_2. Qed.

(** X14.  The guidelines for Prisma, Sequelize, TypeORM and SQLAlchemy sit
    under the test for an SQL database: when the databases of the tech stack
    are neither SQL, PostgreSQL nor MySQL (nor MongoDB, nor Redis), as when
    Prisma is the only one, and mongoose is not a dependency, the database
    skill has the general guidelines only, whatever ORM package.json
    lists. *)
Theorem orm_guidelines_need_an_sql_database (h : Host) (ts : TechStack.t) files :
  TechStack.databases ts ≠ [] →
  Forall (λ db, db ∉ ["MongoDB"; "SQL"; "PostgreSQL"; "MySQL"; "Redis"])
         (TechStack.databases ts) →
  dbFilesOf h = Normal files →
  match dependenciesOf h with Some deps => has deps "mongoose" = false | None => True end →
  ∃ skill, result (generateDatabaseSkills h ts) () = Normal [skill]
           ∧ Skill.guidelines skill = generalDatabaseGuidelines.
Proof.
  intros Hdb Hnone Hfiles Hmongoose.
  assert (arrayIncludes (TechStack.databases ts) "MongoDB" = false) as Hmongo.
  { apply arrayIncludes_false. intros Hin. rewrite Forall_forall in Hnone.
    apply (Hnone _ Hin). decided. }
  assert (arrayIncludes (TechStack.databases ts) "Redis" = false) as Hredis.
  { apply arrayIncludes_false. intros Hin. rewrite Forall_forall in Hnone.
    apply (Hnone _ Hin). decided. }
  assert (existsb (λ db, arrayIncludes ["SQL"; "PostgreSQL"; "MySQL"] db)
                  (TechStack.databases ts) = false) as Hsql.
  { apply not_true_is_false. intros (db & Hin & Hsql)%existsb_exists.
    apply list_elem_of_In in Hin. rewrite Forall_forall in Hnone.
    apply (Hnone _ Hin). unfold arrayIncludes in Hsql.
    apply bool_decide_eq_true in Hsql. revert Hsql.
    rewrite !elem_of_cons, !elem_of_nil. intuition auto. }
  destruct (dependenciesOf h) as [deps|] eqn:Hdeps; eexists; (split; [
    eapply (returns_result _ _ _ ()); unfold generateDatabaseSkills; cbv zeta;
    rewrite bool_decide_eq_false_2 by (by destruct (TechStack.databases ts));
    eapply returns_locally, returns_bind; [|apply returns_get];
    apply returns_try_catch;
    (eapply returns_bind; [by apply returns_glob|]);
    (eapply returns_bind; [apply returns_with_dependencies|]);
    rewrite Hdeps; cbv beta iota;
    (eapply returns_bind; [apply returns_read|]);
    (eapply returns_bind; [apply returns_modify|]); apply returns_info
  |]); cbn [Skill.guidelines]; rewrite Hmongo, Hredis, Hsql, ?Hmongoose; reflexivity.
Qed.

Lemma orm_guidelines_need_an_sql_database_witness :
  result (analyzeTechStack prismaApp) () = Normal prismaStack
  ∧ ∃ skill, result (generateDatabaseSkills prismaApp prismaStack) () = Normal [skill]
             ∧ Skill.guidelines skill = generalDatabaseGuidelines.
Proof.
  split; [vm_compute; reflexivity|].
  apply (orm_guidelines_need_an_sql_database prismaApp prismaStack []).
  - done.
  - repeat constructor. by apply (bool_decide_unpack _).
  - reflexivity.
  - reflexivity.
Defined.

(** ** The aggregation loop *)

(** X15.  Whatever [Promise.allSettled] resolved to (fulfilled successes,
    fulfilled failures, rejections), the loop writes one summary entry per
    result, in the order of the results; the skills it collects are as many
    as the entries count; an entry that is not a success counts no skill;
    and a rejection is entered as ['Unknown'], failed, with the message of
    its reason. *)
Theorem aggregation_keeps_count (results : list (Settled AgentResult.t)) :
  let allSkills := (aggregate results).1 in
  let summary := (aggregate results).2 in
  length summary = length results
  ∧ length allSkills = sum_list (SummaryEntry.skillsGenerated <$> summary)
  ∧ Forall (λ entry, SummaryEntry.status entry = "success"
                     ∨ (SummaryEntry.status entry = "failed"
                        ∧ SummaryEntry.skillsGenerated entry = 0)) summary
  ∧ ∀ i reason, results !! i = Some (rejected reason) →
      summary !! i = Some {| SummaryEntry.agent := "Unknown";
                             SummaryEntry.skillsGenerated := 0;
                             SummaryEntry.status := "failed";
                             SummaryEntry.error := Some (message reason) |}.
Proof.
  cbv zeta. unfold aggregate. rewrite collect_settled. simpl. split_and!.
  - by rewrite length_fmap.
  - rewrite length_concat_sum, <-!list_fmap_compose. f_equal.
    apply list_fmap_ext. intros i [value|reason] _; simpl; [|done].
    unfold skillsOf, entryOf. by destruct (AgentResult.success value).
  - apply Forall_fmap, Forall_forall. intros [value|reason] _; simpl; [|by right].
    unfold entryOf. destruct (AgentResult.success value); simpl; auto.
  - intros i reason Hi. by rewrite list_lookup_fmap, Hi.
Qed.

(** ** Cloud providers *)

Section Cloud.
Context (h : Host).

Lemma detectCloud_store s :
  store (detectCloud h) s =
    performAll (cloudWrites (glob_files h
      "**/{vercel.json,netlify.toml,serverless.yml,.github/workflows/*.yml}" [])) s.
Proof.
  unfold detectCloud. rewrite store_try_ignore.
  unfold cloudWrites, store, run, bind, glob, call.
  destruct (glob_files h _ []) as [files|e]; simpl; [|done].
  by destruct (existsb (λ f, includes f "vercel") files),
    (existsb (λ f, includes f "netlify") files),
    (existsb (λ f, includes f "serverless") files),
    (existsb (λ f, includes f ".github/workflows") files).
Qed.

Lemma detectKubernetes_store s :
  store (detectKubernetes h) s =
    match glob_files h "**/*.yaml" [] with
    | Normal k8sFiles =>
        if existsb (λ f, includes f "k8s" || includes f "kubernetes") k8sFiles
        then performAll [Push CloudProviders "Kubernetes"] s else s
    | Throw _ => s
    end.
Proof.
  unfold detectKubernetes. rewrite store_try_ignore.
  unfold store, run, bind, glob, call.
  destruct (glob_files h "**/*.yaml" []) as [files|e]; simpl; [|done].
  by destruct (existsb _ files).
Qed.

Lemma cloudWrites_elem files provider :
  Push CloudProviders provider ∈ cloudWrites (Normal files)
  ↔ (provider = "Vercel" ∧ existsb (λ f, includes f "vercel") files = true)
    ∨ (provider = "Netlify" ∧ existsb (λ f, includes f "netlify") files = true)
    ∨ (provider = "AWS Lambda" ∧ existsb (λ f, includes f "serverless") files = true)
    ∨ (provider = "GitHub Actions"
       ∧ existsb (λ f, includes f ".github/workflows") files = true).
Proof.
  unfold cloudWrites. cbv zeta.
  destruct (existsb (λ f, includes f "vercel") files),
    (existsb (λ f, includes f "netlify") files),
    (existsb (λ f, includes f "serverless") files),
    (existsb (λ f, includes f ".github/workflows") files); simpl;
    rewrite ?elem_of_cons, elem_of_nil; intuition congruence.
Qed.

Lemma cloud_provider provider :
  provider ≠ "Kubernetes" →
  provider ∈ TechStack.cloudProviders (store (probes h) TechStack.empty)
  ↔ Push CloudProviders provider ∈ cloudWrites (glob_files h
      "**/{vercel.json,netlify.toml,serverless.yml,.github/workflows/*.yml}" []).
Proof.
  intros Hk.
  change (provider ∈ TechStack.cloudProviders (store (probes h) TechStack.empty))
    with (holds (Push CloudProviders provider) (store (probes h) TechStack.empty)).
  assert (∀ {A} (m : M TechStack.t A) W s,
            touching W m →
            Forall (Forall (λ x, ∀ v, x = Push CloudProviders v → v = "Kubernetes")) W →
            holds (Push CloudProviders provider) (store m s)
            ↔ holds (Push CloudProviders provider) s) as Hframe.
  { intros A m W s Hm HW. apply (holds_frame m W); [done|].
    intros (b & Hb & Hin)%elem_of_concat.
    rewrite Forall_forall in HW. specialize (HW b Hb).
    rewrite Forall_forall in HW. by apply Hk, (HW _ Hin). }
  rewrite store_probes.
  rewrite (Hframe _ _ _ _ (detectKubernetes_touching h))
    by (repeat constructor; by intros v [= <-]).
  rewrite (Hframe _ _ _ _ (detectDocker_touching h))
    by (repeat constructor; by intros v [=]).
  rewrite detectCloud_store, holds_performAll.
  rewrite (Hframe _ _ _ _ (detectRust_touching h)) by (repeat constructor; by intros v [=]).
  rewrite (Hframe _ _ _ _ (detectGo_touching h)) by (repeat constructor; by intros v [=]).
  rewrite (Hframe _ _ _ _ (detectJava_touching_both h))
    by (repeat constructor; by intros v [=]).
  rewrite (Hframe _ _ _ _ (detectPython_touching h))
    by (repeat constructor; by intros v [=]).
  rewrite (Hframe _ _ _ _ (detectNode_touching h)) by (repeat constructor; by intros v [=]).
  split; [intros [?%holds_empty|?]; done|by right].
Qed.
End Cloud.

(** X16.  A cloud provider is detected from the paths the globs return, by
    substring: [vercel], [netlify], [serverless] or [.github/workflows]
    anywhere in a matched path, [k8s] or [kubernetes] anywhere in the path
    of a .yaml file. *)
Theorem cloud_providers_from_paths (h : Host) :
  ∃ ts, result (analyzeTechStack h) () = Normal ts
    ∧ ("Vercel" ∈ TechStack.cloudProviders ts ↔ cloudConfig h "vercel")
    ∧ ("Netlify" ∈ TechStack.cloudProviders ts ↔ cloudConfig h "netlify")
    ∧ ("AWS Lambda" ∈ TechStack.cloudProviders ts ↔ cloudConfig h "serverless")
    ∧ ("GitHub Actions" ∈ TechStack.cloudProviders ts ↔ cloudConfig h ".github/workflows")
    ∧ ("Kubernetes" ∈ TechStack.cloudProviders ts
       ↔ ∃ files, glob_files h "**/*.yaml" [] = Normal files
                  ∧ existsb (λ f, includes f "k8s" || includes f "kubernetes") files = true).
Proof.
  exists (store (probes h) TechStack.empty). split; [apply analyzeTechStack_result|].
  assert (∀ provider marker,
            provider ≠ "Kubernetes" →
            (∀ files, Push CloudProviders provider ∈ cloudWrites (Normal files)
                      ↔ existsb (λ f, includes f marker) files = true) →
            provider ∈ TechStack.cloudProviders (store (probes h) TechStack.empty)
            ↔ cloudConfig h marker) as Hcloud.
  { intros provider marker Hk Hwrites. rewrite cloud_provider by done. unfold cloudConfig.
    destruct (glob_files h _ []) as [files|e].
    - rewrite Hwrites. split; [by exists files|by intros (? & [= <-] & ?)].
    - split; [by intros ?%elem_of_nil|by intros (? & [=] & _)]. }
  split_and!.
  - apply Hcloud; [done|]. intros files. rewrite cloudWrites_elem. intuition congruence.
  - apply Hcloud; [done|]. intros files. rewrite cloudWrites_elem. intuition congruence.
  - apply Hcloud; [done|]. intros files. rewrite cloudWrites_elem. intuition congruence.
  - apply Hcloud; [done|]. intros files. rewrite cloudWrites_elem. intuition congruence.
  - change ("Kubernetes" ∈ TechStack.cloudProviders (store (probes h) TechStack.empty))
      with (holds (Push CloudProviders "Kubernetes") (store (probes h) TechStack.empty)).
    rewrite store_probes, detectKubernetes_store.
    destruct (glob_files h "**/*.yaml" []) as [files|e].
    + destruct (existsb _ files) eqn:Hk8s.
      * rewrite holds_performAll. split; [by exists files|]. intros _. right. decided.
      * repeat frame_out. split; [by intros ?%holds_empty|].
        intros (? & [= <-] & ?). congruence.
    + repeat frame_out. split; [by intros ?%holds_empty|by intros (? & [=] & _)].
Qed.

(** ** The languages a skill is filed under *)

Lemma returnsOnly_thunk (P : Skill.t → Prop) (m : M unit (list Skill.t)) :
  returnsOnly P m → ∃ skills, result (thunk m) () = Normal skills ∧ Forall P skills.
Proof.
  intros Hm. destruct (Hm ()) as (skills & E & HP). exists skills.
  split; [by apply result_thunk_normal|done].
Qed.

(** X17.  The [techStack] of a skill is drawn from the languages that were
    detected, in their order (the backend analyzer keeps those it knows),
    except for the React skill: it is filed under JavaScript and TypeScript
    whether or not TypeScript was detected. *)
Theorem skills_are_filed_under_detected_languages (h : Host) (ts : TechStack.t) :
  Forall (λ a, Agent.name a = "React Analyzer"
               ∨ ∃ skills, result (Agent.task a) () = Normal skills
                           ∧ Forall (λ skill, Skill.techStack skill
                                              `sublist_of` TechStack.languages ts) skills)
         (agentPromises h ts)
  ∧ ∃ skills, result (generateReactSkills h ts) () = Normal skills
              ∧ Forall (λ skill, Skill.techStack skill = ["JavaScript"; "TypeScript"]) skills.
Proof.
  pose (filed := λ skill, Skill.techStack skill `sublist_of` TechStack.languages ts).
  pose (fixed := λ skill, Skill.techStack skill = ["JavaScript"; "TypeScript"]).
  split.
  - unfold agentPromises.
    repeat first [apply Forall_nil_2|apply Forall_cons_2]; cbn [Agent.task Agent.name];
      try (by left); right.
    + apply (returnsOnly_thunk filed). unfold generateSecuritySkills.
      adds_tac filed ltac:(by unfold filed).
    + apply (returnsOnly_thunk filed). unfold generatePerformanceSkills.
      adds_tac filed ltac:(by unfold filed).
    + apply (returnsOnly_thunk filed). unfold generateBackendSkills.
      adds_tac filed ltac:(unfold filed; apply sublist_filter).
    + apply (returnsOnly_thunk filed). unfold generateFrontendSkills.
      adds_tac filed ltac:(by unfold filed).
    + apply (returnsOnly_thunk filed). unfold generateDatabaseSkills.
      adds_tac filed ltac:(by unfold filed).
    + apply (returnsOnly_thunk filed). unfold generateAPISkills.
      adds_tac filed ltac:(by unfold filed).
    + apply (returnsOnly_thunk filed). unfold generateTestingSkills.
      adds_tac filed ltac:(by unfold filed).
    + apply (returnsOnly_thunk filed). unfold generateDevOpsSkills.
      adds_tac filed ltac:(by unfold filed).
  - refine ((_ : returnsOnly fixed _) ()). unfold generateReactSkills.
    adds_tac fixed ltac:(by unfold fixed).
Qed.

(** ** What the Node probe detects *)

Lemma spread_truthy (v : JsValue) : spread v ≠ [] → truthy v = true.
Proof. destruct v as [[| | |[|]|[|]|]|]; done. Qed.

(** A key of the merged dependencies comes from an object that is there:
    the test [if (packageJson.dependencies || packageJson.devDependencies)]
    hides no dependency. *)
Lemma has_truthy (dependencies devDependencies : JsValue) k :
  has (spread dependencies ++ spread devDependencies) k = true →
  truthy dependencies || truthy devDependencies = true.
Proof.
  unfold has. rewrite ownProperty_app. intros H. apply orb_true_iff.
  destruct (ownProperty k (spread devDependencies)) eqn:Hdev.
  - right. apply spread_truthy. by destruct (spread devDependencies).
  - left. apply spread_truthy. by destruct (spread dependencies).
Qed.

Section Whens.
Implicit Types (s : TechStack.t).

Lemma store_when c (m : M TechStack.t unit) s :
  store (when c m) s = if c then store m s else s.
Proof. by destruct c. Qed.

Lemma holds_when_frame c (m : M TechStack.t unit) W x s :
  touching W m → x ∉ concat W → holds x (store (when c m) s) ↔ holds x s.
Proof.
  intros Hm Hx. apply (holds_frame (when c m) W); [|done].
  by apply (writes_when touches [] app touches_skip touches_seq).
Qed.

Lemma holds_when_one c y s x :
  x = y → holds x (store (when c (modify (perform y))) s) ↔ holds x s ∨ c = true.
Proof.
  intros ->. rewrite store_when. destruct c.
  - change (store _ s) with (performAll [y] s). rewrite holds_performAll.
    split; [by right|]. intros _. right. by left.
  - split; [by left|by intros [?|?]].
Qed.

Lemma holds_when_pair c y z s x :
  x ∈ [y; z] →
  holds x (store (when c (modify (perform y);; modify (perform z))) s)
  ↔ holds x s ∨ c = true.
Proof.
  intros Hx. rewrite store_when. destruct c.
  - change (store _ s) with (performAll [y; z] s). rewrite holds_performAll.
    split; [by right|]. intros _. by right.
  - split; [by left|by intros [?|?]].
Qed.
End Whens.

(** One statement off the end of the dependency block: a statement that
    leaves [x] alone, or the statement that writes [x]. *)
Ltac peel :=
  match goal with
  | |- context [holds ?x (store (when ?c ?m) ?s)] =>
      first
        [ let H := fresh in
          eassert (touching _ m) as H by (repeat touching_step);
          rewrite (holds_when_frame c m _ x s H) by untouched; clear H
        | rewrite (holds_when_one c _ s x) by reflexivity
        | rewrite (holds_when_pair c _ _ s x) by decided ]
  end.

Section NodeDetection.
Context (h : Host).

Lemma detectNode_entry x keys :
  (x, keys) ∈ (Push Databases "SQL", ["sequelize"; "typeorm"]) :: dependencyTable →
  holds x (store (detectNode h) TechStack.empty) ↔ listed h keys.
Proof.
  intros Hin. unfold listed, dependenciesOf.
  assert (x ∉ [Push PackageManagers "npm"; SetFlag HasNode; Push Languages "JavaScript";
               Push Languages "TypeScript"]) as Hx.
  { revert Hin. unfold dependencyTable. rewrite !elem_of_cons, !elem_of_nil.
    intuition congruence. }
  unfold detectNode. rewrite store_try_ignore.
  pose proof (run_readPackageJson h TechStack.empty) as Hrun.
  unfold packageJsonOf in *.
  destruct (fs_readFile h "package.json") as [content|e];
    [destruct (JSON_parse h content) as [packageJson|e]|];
    [|rewrite (store_bind_throw _ _ _ _ _ _ Hrun);
      (split; [by intros ?%holds_empty|by intros (? & [=] & _)])..].
  rewrite (store_bind_normal _ _ _ _ _ _ Hrun). as_writes.
  rewrite !store_bind_modify.
  change (perform _ (perform _ TechStack.empty))
    with (performAll [Push PackageManagers "npm"; SetFlag HasNode] TechStack.empty).
  set (s0 := performAll _ TechStack.empty).
  assert (¬ holds x s0) as Hs0.
  { unfold s0. rewrite holds_performAll. intros [?%holds_empty|Hnpm]; [done|].
    apply Hx. revert Hnpm. rewrite !elem_of_cons, !elem_of_nil. tauto. }
  destruct (isNull packageJson) eqn:Hnull.
  { destruct packageJson; try done. simpl.
    split; [done|by intros (? & [=] & _)]. }
  rewrite (store_bind_normal _ _ _ _ _ _ (run_member _ _ _ Hnull)).
  rewrite (store_bind_normal _ _ _ _ _ _ (run_member _ _ _ Hnull)).
  set (dependencies := optChain (Some packageJson) "dependencies").
  set (devDependencies := optChain (Some packageJson) "devDependencies").
  set (deps := spread dependencies ++ spread devDependencies).
  assert ((∃ deps', Some deps = Some deps' ∧ existsb (has deps') keys = true)
          ↔ existsb (has deps) keys = true) as ->.
  { split; [by intros (? & [= <-] & ?)|by exists deps]. }
  assert (existsb (has deps) keys = true
          → truthy dependencies || truthy devDependencies = true) as Hguard.
  { intros (k & _ & Hk)%existsb_exists. by eapply has_truthy. }
  match goal with
  | |- context [bind (when ?c ?blk) ?k] =>
      assert (total (when c blk)) as Htot
        by (apply total_when; repeat (apply total_bind; [|intros]);
            auto using total_when, total_modify with total);
      rewrite (store_seq (when c blk) (k tt) s0 Htot); clear Htot
  end.
  match goal with
  | |- holds x (store ?tail ?s1) ↔ _ =>
      assert (holds x (store tail s1) ↔ holds x s1) as ->
  end.
  { match goal with |- holds x (store _ ?s1) ↔ _ => generalize s1 end. intros s1.
    match goal with
    | |- holds x (store ?tail s1) ↔ _ =>
        assert (store tail s1 = finishNode s1) as ->
          by (unfold finishNode, store, run, bind, modify, get, when; simpl;
              by destruct (TechStack.hasTypeScript s1))
    end.
    rewrite finishNode_holds. split; [|by left].
    intros [?|[->| [-> _]]]; [done|destruct Hx..]; decided. }
  rewrite store_when.
  destruct (truthy dependencies || truthy devDependencies) eqn:Hc.
  2: { split; [by intros ?%Hs0|]. intros Hk. by apply Hguard in Hk. }
  clear Hguard Hc.
  repeat match goal with
  | |- context [store (bind (when ?c ?m) ?k) ?s] =>
      rewrite (store_seq (when c m) (k tt) s)
        by (apply total_when; repeat (apply total_bind; [|intros]); apply total_modify)
  end.
  pose proof (proj2 devDependencies_redundant dependencies devDependencies) as Hts.
  fold deps in Hts.
  revert Hin. unfold dependencyTable. rewrite !elem_of_cons, elem_of_nil.
  intros Hin.
  repeat (destruct Hin as [[= -> ->]|Hin]; [
    repeat peel; simpl existsb; rewrite ?orb_false_r, ?Hts;
    (split; [by intros [?%Hs0|?]|by right])|]).
  done.
Qed.
End NodeDetection.

(** X18.  What the Node probe detects is read off the merged dependencies of
    a [package.json] that parses to something other than [null]: each
    framework, database, build tool and flag of the table is in the tech
    stack exactly when one of its packages is listed with a truthy value.
    The test on [dependencies || devDependencies] hides none of them. *)
Theorem node_detection_from_dependencies (h : Host) :
  ∃ ts, result (analyzeTechStack h) () = Normal ts
    ∧ Forall (λ entry, holds entry.1 ts ↔ listed h entry.2) dependencyTable.
Proof.
  exists (store (probes h) TechStack.empty). split; [apply analyzeTechStack_result|].
  apply Forall_forall. intros [x keys] Hin. cbn [fst snd].
  rewrite <-(detectNode_entry h x keys) by (by right). rewrite store_probes.
  revert Hin. unfold dependencyTable. rewrite !elem_of_cons, elem_of_nil. intros Hin.
  repeat (destruct Hin as [[= -> ->]|Hin]; [by repeat frame_out|]).
  done.
Qed.

(** ** When the databases hold SQL twice *)

Lemma field_frame {A} (m : M TechStack.t A) W a s :
  touching W m → pushedBy a (concat W) = [] →
  TechStack.field a (store m s) = TechStack.field a s.
Proof.
  intros Hm HW. destruct (touches_field _ _ _ a (Hm s)) as (l & Hl & ->).
  rewrite HW in Hl. apply sublist_nil_r in Hl as ->. by rewrite app_nil_r.
Qed.

Lemma occurrences_app x (l k : list string) :
  occurrences x (l ++ k) = occurrences x l + occurrences x k.
Proof. unfold occurrences. by rewrite filter_app, length_app. Qed.

Lemma occurrences_elem x (l : list string) : 0 < occurrences x l ↔ x ∈ l.
Proof.
  unfold occurrences. induction l as [|y l IH]; simpl.
  - split; [lia|by intros ?%elem_of_nil].
  - rewrite filter_cons, elem_of_cons. destruct (decide (y = x)) as [->|]; simpl.
    + split; [by left|lia].
    + rewrite IH. split; [by right|]. by intros [->|?].
Qed.

(** X19.  ['SQL'] is in [databases] when sequelize or typeorm is a
    dependency, or requirements.txt mentions sqlalchemy; it is there twice
    exactly when both hold, and never more than twice. *)
Theorem SQL_twice_exactly_when_both (h : Host) :
  ∃ ts, result (analyzeTechStack h) () = Normal ts
    ∧ ("SQL" ∈ TechStack.databases ts
       ↔ listed h ["sequelize"; "typeorm"] ∨ requirementsMention h "sqlalchemy")
    ∧ (occurrences "SQL" (TechStack.databases ts) = 2
       ↔ listed h ["sequelize"; "typeorm"] ∧ requirementsMention h "sqlalchemy")
    ∧ occurrences "SQL" (TechStack.databases ts) ≤ 2.
Proof.
  exists (store (probes h) TechStack.empty). split; [apply analyzeTechStack_result|].
  change (TechStack.databases (store (probes h) TechStack.empty))
    with (TechStack.field Databases (store (probes h) TechStack.empty)).
  rewrite store_probes.
  rewrite (field_frame _ _ _ _ (detectKubernetes_touching h)) by done.
  rewrite (field_frame _ _ _ _ (detectDocker_touching h)) by done.
  rewrite (field_frame _ _ _ _ (detectCloud_touching h)) by done.
  rewrite (field_frame _ _ _ _ (detectRust_touching h)) by done.
  rewrite (field_frame _ _ _ _ (detectGo_touching h)) by done.
  rewrite (field_frame _ _ _ _ (detectJava_touching_both h)) by done.
  set (node := TechStack.field Databases (store (detectNode h) TechStack.empty)).
  assert ("SQL" ∈ node ↔ listed h ["sequelize"; "typeorm"]) as Hnode.
  { apply (detectNode_entry h (Push Databases "SQL")). by left. }
  assert (occurrences "SQL" node ≤ 1) as Hone.
  { destruct (touches_field _ _ _ Databases (detectNode_touching h TechStack.empty))
      as (l & Hl & El).
    unfold node. rewrite El. simpl. etrans; [apply occurrences_sublist, Hl|].
    vm_compute. lia. }
  rewrite <-occurrences_elem in Hnode.
  assert (∃ python : list string,
            TechStack.field Databases (store (detectPython h)
              (store (detectNode h) TechStack.empty)) = node ++ python
            ∧ ("SQL" ∈ python ↔ requirementsMention h "sqlalchemy")
            ∧ occurrences "SQL" python ≤ 1) as (python & -> & Hpython & Hpone).
  { rewrite detectPython_store. unfold requirementsMention.
    destruct (accessible h "requirements.txt").
    2: { exists []. rewrite app_nil_r. split; [done|]. split; [|vm_compute; lia].
         split; [by intros ?%elem_of_nil|by intros [? _]]. }
    rewrite field_performAll. eexists. split; [done|].
    unfold pythonWrites.
    destruct (fs_readFile h "requirements.txt") as [content|e].
    2: { split; [|vm_compute; lia].
         split; [by intros ?%elem_of_nil|by intros (_ & ? & [=] & _)]. }
    destruct (includes content "django"), (includes content "flask"),
      (includes content "fastapi"), (includes content "sqlalchemy") eqn:Hsql;
      (split; [|vm_compute; lia]);
      (split; [intros Hin; first [by apply (bool_decide_pack _) in Hin
                                 |split; [done|by exists content]]
              |intros (_ & ? & [= <-] & ?); first [congruence|by apply (bool_decide_unpack _)]]). }
  rewrite <-occurrences_elem in Hpython.
  rewrite elem_of_app, <-!occurrences_elem, occurrences_app.
  rewrite <-Hnode, <-Hpython. split_and!; lia.
Qed.

(** ** The cost of a run *)

Lemma fsCalls_app t1 t2 : fsCalls (t1 ++ t2) = fsCalls t1 + fsCalls t2.
Proof. unfold fsCalls. by rewrite filter_app, length_app. Qed.

Lemma fsCalls_length t : fsCalls t ≤ length t.
Proof. apply length_filter. Qed.

Section Costs.
Context {S : Type}.

Lemma costs_ret {A} (a : A) : costs 0 (ret (S:=S) a).
Proof. intros s. done. Qed.

Lemma costs_get : costs 0 (get (S:=S)).
Proof. intros s. done. Qed.

Lemma costs_modify f : costs 0 (modify (S:=S) f).
Proof. intros s. done. Qed.

Lemma costs_info msg : costs 0 (info (S:=S) msg).
Proof. intros s. done. Qed.

Lemma costs_error msg : costs 0 (error (S:=S) msg).
Proof. intros s. done. Qed.

Lemma costs_call {A} ev (c : Completion A) : costs 1 (call (S:=S) ev c).
Proof. intros s. apply (fsCalls_length [ev]). Qed.

Lemma costs_readPackageJson h : costs 1 (readPackageJson (S:=S) h).
Proof.
  intros s. unfold trace, run, readPackageJson, bind, readFile, call, complete.
  destruct (fs_readFile h "package.json") as [content|e]; [|apply (fsCalls_length [_])].
  destruct (JSON_parse h content); apply (fsCalls_length [_]).
Qed.

Lemma costs_mergedDeps packageJson : costs 0 (mergedDeps (S:=S) packageJson).
Proof. intros s. by destruct packageJson. Qed.

Lemma costs_bind {A B} n1 n2 (m : M S A) (k : A → M S B) :
  costs n1 m → (∀ a, costs n2 (k a)) → costs (n1 + n2) (bind m k).
Proof.
  intros Hm Hk s. specialize (Hm s). unfold costs in Hk. unfold_run. unfold bind.
  destruct_run m s. destruct r as [a|e]; simpl.
  - specialize (Hk a s0). destruct_run (k a) s0. rewrite fsCalls_app. lia.
  - lia.
Qed.

Lemma costs_try_catch {A} n1 n2 (body : M S A) handler :
  costs n1 body → (∀ e, costs n2 (handler e)) → costs (n1 + n2) (try_catch body handler).
Proof.
  intros Hm Hk s. specialize (Hm s). unfold costs in Hk. unfold_run. unfold try_catch.
  destruct_run body s. destruct r as [a|e]; simpl.
  - lia.
  - specialize (Hk e s0). destruct_run (handler e) s0. rewrite fsCalls_app. lia.
Qed.

Lemma costs_if {A} n1 n2 (b : bool) (m1 m2 : M S A) :
  costs n1 m1 → costs n2 m2 → costs (n1 `max` n2) (if b then m1 else m2).
Proof. intros H1 H2 s. destruct b; [specialize (H1 s)|specialize (H2 s)]; lia. Qed.

Lemma costs_locally {S' A} n (init : S') (m : M S' A) :
  costs n m → costs n (locally (S':=S) init m).
Proof.
  intros Hm s. specialize (Hm init). unfold_run. unfold locally.
  by destruct_run m init.
Qed.

Lemma costs_weaken {A} n n' (m : M S A) : costs n m → n ≤ n' → costs n' m.
Proof. intros Hm Hn s. specialize (Hm s). lia. Qed.

Lemma costs_settle {A} n (m : M S A) : costs n m → costs n (settle m).
Proof.
  intros Hm s. specialize (Hm s). unfold_run. unfold settle.
  destruct_run m s. by destruct r.
Qed.

(** A scan reads each candidate once, or stops before. *)
Lemma costs_scanAll {F} h files (step : string → F → F) flags cap :
  costs cap (scanAll (S:=S) h (take cap files) step flags).
Proof.
  intros s. rewrite trace_scanAll. etrans; [apply fsCalls_length|].
  rewrite length_fmap, length_take. lia.
Qed.

Lemma costs_scanUntil h files test cap :
  costs cap (scanUntil (S:=S) h (take cap files) test).
Proof.
  intros s. unfold trace. rewrite run_scanUntil. simpl.
  etrans; [apply fsCalls_length|]. rewrite length_fmap.
  etrans; [apply throughFirst_length|]. rewrite length_take. lia.
Qed.

Lemma costs_mapM {A B} (f : A → M S B) (c : A → nat) (l : list A) :
  (∀ x, x ∈ l → costs (c x) (f x)) → costs (sum_list_with c l) (mapM f l).
Proof.
  induction l as [|x l IH]; intros Hf; simpl.
  - apply costs_ret.
  - apply costs_bind; [apply Hf; by left|]. intros y.
    eapply costs_weaken.
    + apply costs_bind; [apply IH; intros; apply Hf; by right|].
      intros ys. apply costs_ret.
    + lia.
Qed.

Lemma costs_forOf {A} (f : A → M S unit) (l : list A) :
  (∀ x, costs 0 (f x)) → costs 0 (forOf l f).
Proof.
  intros Hf. induction l as [|x l IH]; simpl; [apply costs_ret|].
  apply (costs_bind 0 0); [apply Hf|done].
Qed.
End Costs.

Ltac costs_step :=
  first
    [ apply costs_ret | apply costs_get | apply costs_modify | apply costs_info
    | apply costs_error | apply costs_readPackageJson | apply costs_mergedDeps
    | apply costs_call | apply costs_scanAll | apply costs_scanUntil
    | eapply costs_bind | eapply costs_try_catch | eapply costs_if
    | eapply costs_locally
    | match goal with |- costs _ (match ?p with _ => _ end) => destruct p end
    | progress cbv zeta ];
  intros.

Ltac costs_tac :=
  eapply costs_weaken;
    [unfold scanEnvUsage, scanApiFiles, scanHooks, scanStateManagement, scanAsyncPatterns,
       readFile, access, glob, pushSkill;
     repeat costs_step
    |simpl; lia].

Section AnalyzerCosts.
Context (h : Host) (ts : TechStack.t).

Lemma costs_thunk {S A} (m : M S A) n :
  costs n m → ∀ s, fsCalls (trace (thunk m) s) ≤ n.
Proof. intros Hm s. rewrite trace_thunk. apply Hm. Qed.

Lemma analyzers_cost :
  Forall2 (λ a n, ∀ s, fsCalls (trace (Agent.task a) s) ≤ n)
          (agentPromises h ts) analyzerCalls.
Proof.
  unfold agentPromises, analyzerCalls.
  repeat first [apply Forall2_nil_2|apply Forall2_cons_2]; cbn [Agent.task];
    apply costs_thunk.
  - unfold generateSecuritySkills. costs_tac.
  - unfold generatePerformanceSkills. costs_tac.
  - unfold generateReactSkills. costs_tac.
  - unfold generateBackendSkills. costs_tac.
  - unfold generateFrontendSkills. costs_tac.
  - unfold generateDatabaseSkills. costs_tac.
  - unfold generateAPISkills. costs_tac.
  - unfold generateTestingSkills. costs_tac.
  - unfold generateDevOpsSkills. costs_tac.
Qed.
End AnalyzerCosts.

Section RunCosts.
Context {S : Type}.

Lemma fsCalls_console ev t : isConsole ev = true → fsCalls (ev :: t) = fsCalls t.
Proof.
  intros Hev. unfold fsCalls. rewrite filter_cons.
  destruct (decide (isConsole ev = false)); [congruence|done].
Qed.

(** The wrapper makes the calls of its task, and writes to the console. *)
Lemma costs_runAgent (a : Agent.t) n :
  (∀ s, fsCalls (trace (Agent.task a) s) ≤ n) → costs n (runAgent (S:=S) a).
Proof.
  intros Ha s. specialize (Ha ()).
  unfold trace, run, runAgent, try_catch, bind, locally, info, error, call, ret in *.
  destruct (Agent.task a ()) as [[[skills|[e| | |text]] u] t]; simpl in *;
    rewrite ?fsCalls_console, ?fsCalls_app, ?fsCalls_console by done;
    change (fsCalls []) with 0; lia.
Qed.

Lemma costs_mapM2 {A B} (f : A → M S B) (l : list A) (ns : list nat) :
  Forall2 (λ x n, costs n (f x)) l ns → costs (sum_list ns) (mapM f l).
Proof.
  induction 1 as [|x n l ns Hx _ IH]; simpl; [apply costs_ret|].
  apply costs_bind; [done|]. intros y. eapply costs_weaken.
  - apply costs_bind; [apply IH|]. intros ys. apply costs_ret.
  - unfold id. lia.
Qed.
End RunCosts.

Lemma Forall2_Permutation {A B} (R : A → B → Prop) (l l' : list A) (k : list B) :
  l ≡ₚ l' → Forall2 R l k → ∃ k', k ≡ₚ k' ∧ Forall2 R l' k'.
Proof.
  intros Hperm. revert k.
  induction Hperm as [|x l l' _ IH|x y l|l l' l'' _ IH1 _ IH2]; intros k Hk.
  - exists k. by split.
  - apply Forall2_cons_inv_l in Hk as (z & k0 & Hz & Hk0 & ->).
    destruct (IH k0 Hk0) as (k' & Hk' & HR). exists (z :: k'). split; [by f_equiv|].
    by constructor.
  - apply Forall2_cons_inv_l in Hk as (z1 & k1 & Hz1 & Hk1 & ->).
    apply Forall2_cons_inv_l in Hk1 as (z2 & k2 & Hz2 & Hk2 & ->).
    exists (z2 :: z1 :: k2). split; [apply perm_swap|]. by repeat constructor.
  - destruct (IH1 k Hk) as (k' & Hk' & HR').
    destruct (IH2 k' HR') as (k'' & Hk'' & HR''). exists k''. split; [by etrans|done].
Qed.

Lemma Forall2_indexed {A B} (Q : A → B → Prop) (ps : list A) (ns : list B) k :
  Forall2 Q ps ns →
  Forall2 (λ x n, Q x.2 n) (imap (λ i p, (k + i, p)) ps) ns.
Proof.
  intros H. revert k. induction H as [|p n ps ns Hp _ IH]; intros k; simpl; [done|].
  constructor; [done|].
  rewrite (imap_ext _ (λ i p, (S k + i, p)) ps) by (intros; simpl; f_equal; lia).
  apply IH.
Qed.

(** [Promise.allSettled] costs what its promises cost together, whatever
    the order in which they complete. *)
Lemma costs_allSettled {S A} latency (promises : list (M S A)) (ns : list nat) :
  Forall2 (λ p n, costs n p) promises ns →
  costs (sum_list ns) (allSettled latency promises).
Proof.
  intros Hps. unfold allSettled.
  assert (completionOrder latency promises ≡ₚ imap (λ i p, (0 + i, p)) promises) as Hperm
    by apply merge_sort_Permutation.
  destruct (Forall2_Permutation (λ (x : nat * M S A) n, costs n x.2) _ _ ns
              (symmetry Hperm)) as (ns' & Hns & Hcosts).
  { by apply (Forall2_indexed (λ (p : M S A) n, costs n p)). }
  rewrite Hns. eapply costs_weaken.
  - apply costs_bind; [apply costs_mapM2|intros; apply costs_ret].
    eapply Forall2_impl; [exact Hcosts|]. intros [i p] n Hp. simpl in *.
    eapply costs_weaken.
    + apply costs_bind; [by apply costs_settle|]. intros. apply costs_ret.
    + lia.
  - lia.
Qed.

(** The sink of the spec makes no call to the file system of the
    workspace. *)
Lemma costs_saveAll answers skills : costs 0 (saveAll (saveSkill answers) skills).
Proof.
  unfold saveAll. apply costs_forOf. intros skill. unfold saveSkill.
  apply (costs_bind 0 0); [|intros; apply costs_ret].
  apply (costs_bind 0 0); [apply costs_get|intros].
  apply (costs_bind 0 0); [apply costs_modify|intros]. apply costs_ret.
Qed.

(** X20.  Each registered analyzer makes a bounded number of calls to the
    file system, whatever the size of the workspace: its globs, its reads of
    package.json and requirements.txt, and the files its scans read within
    their caps. *)
Theorem analyzers_make_bounded_calls (h : Host) (ts : TechStack.t) :
  Forall2 (λ a n, ∀ s, fsCalls (trace (Agent.task a) s) ≤ n)
          (agentPromises h ts) analyzerCalls.
Proof. apply analyzers_cost. Qed.

(** X21.  A run of [main] makes at most 132 calls to the file system (ten for
    the tech stack, the rest by the analyzers), whatever the size of the
    workspace and the order in which the analyzers complete. *)
Theorem a_run_makes_bounded_calls (h : Host) (answers : nat → bool) (latency : nat → nat) :
  fsCalls (main h answers latency).2 ≤ 132.
Proof.
  assert (costs 132 (mainBody h (analyzeTechStack h) (agentPromises h)
                       (saveSkill answers) latency)) as Hbody.
  { unfold mainBody. eapply costs_weaken.
    - repeat (eapply costs_bind; [apply costs_info|intros]).
      eapply (costs_bind 10).
      { intros s. etrans; [apply fsCalls_length|].
        unfold trace. rewrite analyzeTechStack_run. simpl.
        apply (sublist_length _ _ (probes_emits h TechStack.empty)). }
      intros techStack.
      repeat (eapply costs_bind; [apply costs_info|intros]).
      eapply costs_bind.
      { apply (costs_allSettled _ _ analyzerCalls). apply Forall2_fmap_l.
        eapply Forall2_impl; [apply analyzers_cost|]. intros agent n. apply costs_runAgent. }
      intros results. destruct (aggregate results) as [allSkills summary].
      eapply costs_bind; [apply costs_info|intros].
      eapply costs_bind; [apply costs_saveAll|intros].
      repeat (eapply costs_bind; [apply costs_info|intros]).
      apply costs_ret.
    - vm_compute. lia. }
  specialize (Hbody []). unfold main, mainWith, trace, run in *.
  destruct (mainBody _ _ _ _ _ []) as [[[value|e] sink] t]; simpl in *; [done|].
  rewrite fsCalls_app. simpl. unfold fsCalls at 2. simpl. lia.
Qed.
